(** * MagPi listener: the capture-to-persistence pipeline

    A shallow embedding of [listener/src/recorder.py], [analyzer.py],
    [db_writer.py], [database.py] and [main.py], one module per Python
    class, followed by the properties of the pipeline.

    Conventions of the embedding.
    - A Python [int] is a [Z]; [len] is [Z.of_nat (length _)].
    - A naive [datetime] is a [Z], the number of microseconds since the
      epoch; [timedelta(seconds=n)] is [n * 1000000].  The store compares
      [isoformat()] strings; on naive datetimes of four-digit years that
      order is the chronological one (a zero microsecond part is omitted,
      which makes the shorter string a proper prefix of every later one
      within the same second), so [>=] on text is [<=?] on [Z] here.
    - A finite Python [float] is the [Q] it stands for: the finite
      binary64 values are rationals and their comparison is exact.  Where
      the code computes with floats, each operation rounds its exact result
      with [Py.binary64]; an infinity or NaN is a case of [Py.float].
    - A method of a mutable object takes the object and returns it.
    - What a loop reads from its environment on one iteration (the clock,
      the queue, another thread's flag, a capability's outcome) is one
      element of the list the loop is run on.
    - A queue that threads share is handed to the code that puts on it and
      handed back by it; what the consumers take from it in the meantime
      is part of the environment of each [put], and a [put] that never
      returns ends the run of its caller inside it. *)

From Stdlib Require Import ZArith QArith Qround Qminmax Qabs Qpower Bool Lia Lqa.
From stdpp Require Import base list strings pretty sorting.

Local Open Scope Z_scope.

(** ** Python built-ins used by the sources *)

Module Py.

(** [l[i:]] for a list [l] and an integer [i]: a negative [i] counts
    from the end and is clamped at the start; [-0] is [0]. *)
Definition slice_from {A} (i : Z) (l : list A) : list A :=
  let n := Z.of_nat (length l) in
  let start := if i <? 0 then Z.max (n + i) 0 else Z.min i n in
  drop (Z.to_nat start) l.

(** [timedelta(seconds=n)], in microseconds. *)
Definition seconds (n : Z) : Z := n * 1000000.

(** [(a - b).total_seconds() >= n] for datetimes [a], [b] and an int [n]:
    the quotient by 10^6 is correctly rounded and [n] is representable,
    so the test is the integer one. *)
Definition elapsed_ge (a b : Z) (n : Z) : bool := seconds n <=? a - b.

(** A [float] as a numpy reduction returns it ([float(_)] of a numpy
    scalar keeps the value): finite, an infinity, or NaN. *)
Inductive float := Finite (q : Q) | Inf (negative : bool) | NaN.

(** Rounding to the nearest integer, ties to the even one. *)
Definition round_half_even (x : Q) : Z :=
  let f := Qfloor x in
  match (x - inject_Z f ?= 1 # 2)%Q with
  | Lt => f
  | Gt => f + 1
  | Eq => if Z.even f then f else f + 1
  end.

(** [floor(log2 x)] for a positive [x]. *)
Definition ilog2 (x : Q) : Z :=
  let e := Z.log2 (Qnum x) - Z.log2 (Zpos (Qden x)) in
  if Qle_bool (2 ^ e) x then e else e - 1.

(** The binary64 value nearest to a rational, ties to even: 53 bits of
    precision, the spacing never below the subnormal 2^-1074.  [None]
    when the nearest value is an infinity. *)
Definition binary64 (x : Q) : option Q :=
  if Qeq_bool x 0 then Some 0%Q
  else
    let a := Qabs x in
    let ulp := (2 ^ Z.max (ilog2 a - 52) (-1074))%Q in
    let r := Qred (inject_Z (round_half_even (a / ulp)) * ulp) in
    if Qle_bool (2 ^ 1024) r then None
    else Some (if Qle_bool 0 x then r else Qred (- r)).

(** A float literal of the source, as the parser reads it. *)
Definition literal (q : Q) : Q :=
  match binary64 q with Some x => x | None => q end.

(** [x * y] and [x + y] on finite floats; [None] is an infinity. *)
Definition mul (x y : Q) : option Q := binary64 (x * y).
Definition add (x y : Q) : option Q := binary64 (x + y).

(** [int(x)] of a finite float truncates towards zero. *)
Definition int (x : Q) : Z := Z.quot (Qnum x) (Zpos (Qden x)).

(** [a / b] on two ints: the quotient, correctly rounded, or the text of
    [ZeroDivisionError] or [OverflowError]. *)
Definition truediv (a b : Z) : Q + string :=
  if b =? 0 then inr "division by zero"%string
  else
    match binary64 (inject_Z a / inject_Z b) with
    | Some q => inl q
    | None => inr "integer division result too large for a float"%string
    end.

End Py.

(** ** [collections.deque(maxlen=n)] *)

Module Deque.
Section Deque.
Context {A : Type}.

Record t := Make { maxlen : Z; items : list A }.

(** [deque(maxlen=n)] raises [ValueError] for a negative [n]. *)
Definition new (n : Z) : option t :=
  if n <? 0 then None else Some (Make n []).

Definition len (d : t) : Z := Z.of_nat (length (items d)).

(** [d.append(x)]: the item goes to the right end; a deque that is now
    longer than [maxlen] pops its leftmost item. *)
Definition append (d : t) (x : A) : t :=
  let grown := items d ++ [x] in
  Make (maxlen d)
       (if maxlen d <? Z.of_nat (length grown) then tail grown else grown).

(** [list(d)] *)
Definition to_list (d : t) : list A := items d.
End Deque.
Arguments t : clear implicits.
End Deque.

(** ** recorder.py: [AudioBuffer] *)

Module AudioBuffer.
Section AudioBuffer.
(** A float32 sample, as [np.frombuffer(data, dtype=np.float32)] and
    [astype(np.float32)] produce them; [np.array(_, dtype=np.float32)]
    is the identity on these. *)
Context {sample : Type}.

Record t := Make {
  sample_rate : Z;
  duration_seconds : Z;
  sample_duration : Z;
  buffer_size : Z;
  sample_size : Z;
  buffer : Deque.t sample
}.

Definition __init__ (sample_rate duration_seconds sample_duration : Z)
  : option t :=
  let buffer_size := sample_rate * duration_seconds in
  let sample_size := sample_rate * sample_duration in
  match Deque.new buffer_size with
  | Some d => Some (Make sample_rate duration_seconds sample_duration
                         buffer_size sample_size d)
  | None => None
  end.

Definition set_buffer (self : t) (d : Deque.t sample) : t :=
  Make (sample_rate self) (duration_seconds self) (sample_duration self)
       (buffer_size self) (sample_size self) d.

(** [for sample in chunk: self.buffer.append(sample)] *)
Definition add_chunk (self : t) (chunk : list sample) : t :=
  set_buffer self (fold_left Deque.append chunk (buffer self)).

(** [get_sample] reads the buffer and leaves it as it is. *)
Definition get_sample (self : t) : t * option (list sample) :=
  if sample_size self <=? Deque.len (buffer self)
  then (self, Some (Py.slice_from (- sample_size self)
                                  (Deque.to_list (buffer self))))
  else (self, None).

Definition is_ready (self : t) : bool :=
  sample_size self <=? Deque.len (buffer self).

(** The chunks of a capture session, pushed one after the other. *)
Definition add_chunks (self : t) (chunks : list (list sample)) : t :=
  fold_left add_chunk chunks self.

(** The state every constructed buffer is in, and stays in. *)
Definition wf (self : t) : Prop :=
  Deque.maxlen (buffer self) = buffer_size self
  /\ 0 <= buffer_size self
  /\ Deque.len (buffer self) <= buffer_size self.
End AudioBuffer.
Arguments t : clear implicits.
End AudioBuffer.

(** ** [logging]: what a logger call records *)

Module Log.
Inductive level := DEBUG | INFO | WARNING | ERROR.
Inductive arg := Str (s : string) | Int (z : Z) | Flt (q : Q) | Flag (b : bool).
(** A record is the level, the f-string with its holes left as braces,
    and the values of the holes. *)
Record record := Make { lvl : level; fmt : string; args : list arg }.
Definition info fmt args := Make INFO fmt args.
Definition debug fmt args := Make DEBUG fmt args.
Definition warning fmt args := Make WARNING fmt args.
Definition error fmt args := Make ERROR fmt args.
Definition is_error (r : record) : bool :=
  match lvl r with ERROR => true | _ => false end.
End Log.

(** ** [queue.Queue(maxsize=n)] *)

Module Queue.
Section Queue.
Context {A : Type}.

Record t := Make { maxsize : Z; items : list A }.

Definition new (maxsize : Z) : t := Make maxsize [].

Definition qsize (q : t) : Z := Z.of_nat (length (items q)).

(** A queue whose [maxsize] is zero or negative is never full. *)
Definition full (q : t) : bool := (0 <? maxsize q) && (maxsize q <=? qsize q).

(** One attempt of [put(item, block, timeout)] on the queue as it is:
    the item is enqueued, or the caller stays blocked inside [put]
    with the item in hand ([block] and no timeout), or [put] raises
    [queue.Full] (not [block], or the timeout has run out). *)
Inductive put_result := Put_done (q : t) | Put_blocked | Put_Full.

Definition put (q : t) (item : A) (block : bool) (timeout : option Z)
  : put_result :=
  if full q then
    if block then
      match timeout with None => Put_blocked | Some _ => Put_Full end
    else Put_Full
  else Put_done (Make (maxsize q) (items q ++ [item])).

(** A consumer's [get] on a non-empty queue takes the head. *)
Definition get (q : t) : option (A * t) :=
  match items q with
  | [] => None
  | x :: rest => Some (x, Make (maxsize q) rest)
  end.

(** A producer inside a blocking [put(item)] while the consumers take
    [gets] items, one after the other: the producer retries whenever
    the queue changes.  [Some q'] is the queue once the item is in;
    [None] is a producer still blocked when the schedule ends. *)
Fixpoint put_blocking (q : t) (item : A) (gets : nat) : option t :=
  match put q item true None with
  | Put_done q' => Some q'
  | Put_Full => None
  | Put_blocked =>
      match gets with
      | O => None
      | S gets' =>
          match get q with
          | Some (_, q') => put_blocking q' item gets'
          | None => None
          end
      end
  end.

(** What the consumers of the queue do around one blocking [put] of a
    producer: the items they have taken since the producer's previous
    [put], and the [get]s they make while this [put] waits. *)
Record consumers := Consumers { taken : nat; gets : nat }.

(** [n] successive [get]s: each takes the head, and on an empty queue
    a consumer finds nothing to take. *)
Definition take (n : nat) (q : t) : t := Make (maxsize q) (drop n (items q)).

(** A blocking [put(item)] among such consumers: the queue as the
    producer leaves it, and whether [put] has returned.  [false] is a
    producer that stays inside [put], the item in hand. *)
Definition put_among (q : t) (item : A) (c : consumers) : t * bool :=
  let found := take (taken c) q in
  match put_blocking found item (gets c) with
  | Some q' => (q', true)
  | None => (found, false)
  end.
End Queue.
Arguments t : clear implicits.
End Queue.

(** ** config.py: [ListenerConfig] *)

Module ListenerConfig.
Record t := Make {
  audio_device : Z;
  sample_rate : Z;
  chunk_size : Z;
  buffer_duration : Z;
  sample_duration : Z;
  min_confidence : Q;
  duplicate_window : Z;
  num_workers : Z;
  db_path : string;
  birdnet_threads : Z;
  birdnet_gpu : bool;
  birdnet_location_lat : Q;
  birdnet_location_lon : Q;
  api_port : Z;
  api_host : string;
  log_level : string
}.

(** The dataclass defaults. *)
Definition default : t :=
  Make (-1) 48000 2048 10 5 (1 # 2) 30 2 "./data/detections.db"
       4 false (407128 # 10000) (-74006 # 1000) 8000 "0.0.0.0" "INFO".
End ListenerConfig.

(** ** recorder.py: [RecorderWorker] *)

Module RecorderWorker.
Section RecorderWorker.
Context {sample : Type}.

(** The dict put on the samples queue.  [is_mock] is [None] when the
    dict has no ['is_mock'] key. *)
Record sample_data := Sample_data {
  audio : list sample;
  timestamp : Z;
  sample_rate : Z;
  is_mock : option bool
}.

(** [p] and [stream] tell whether the attribute holds a handle. *)
Record t := Make {
  config : ListenerConfig.t;
  running : bool;
  audio_buffer : AudioBuffer.t sample;
  p : bool;
  stream : bool
}.

Definition __init__ (config : ListenerConfig.t) : option t :=
  match AudioBuffer.__init__ (ListenerConfig.sample_rate config)
                             (ListenerConfig.buffer_duration config)
                             (ListenerConfig.sample_duration config) with
  | Some b => Some (Make config false b false false)
  | None => None
  end.

(** What PyAudio does when asked for the input stream: it opens the
    device, or one of the calls raises (after [PyAudio()] itself has or
    has not succeeded). *)
Inductive pyaudio :=
| Audio_ok (device_name : string)
| Audio_error (p_created : bool) (e : string).

Definition setup_audio (self : t) (hw : pyaudio) : t * bool * list Log.record :=
  match hw with
  | Audio_ok name =>
      (Make (config self) (running self) (audio_buffer self) true true,
       true,
       [Log.info "Recording from: {}" [Log.Str name];
        Log.info "Audio stream created successfully" []])
  | Audio_error p_created e =>
      (Make (config self) (running self) (audio_buffer self) p_created false,
       false,
       [Log.warning "Failed to setup audio: {}" [Log.Str e];
        Log.info "Running in mock mode - no real audio will be captured" []])
  end.

(** The samples queue is the one object the recorder shares with the
    analyzers and the service: a loop takes it as it finds it and
    hands it back as it leaves it.  [None] on it is the poison pill. *)
Definition samples_queue := Queue.t (option sample_data).

(** A loop that has run on a prefix of its iterations: the windows it
    has put on the queue, in order, and the window of a [put] that has
    not returned, if the loop is inside one. *)
Record outcome := Outcome {
  final : t;
  queue : samples_queue;
  emitted : list sample_data;
  blocked : option sample_data;
  logged : list Log.record;
  exited : bool
}.

Definition emit (w : list sample_data) (l : list Log.record) (o : outcome) : outcome :=
  Outcome (final o) (queue o) (w ++ emitted o) (blocked o) (l ++ logged o) (exited o).

Definition set_audio_buffer (self : t) (b : AudioBuffer.t sample) : t :=
  Make (config self) (running self) b (p self) (stream self).

Inductive read_result := Read_chunk (chunk : list sample) | Read_error (e : string).

(** One iteration of [_run_real_audio]: [self.running] as the loop head
    reads it, what [stream.read] gives, [datetime.utcnow()], and what
    the consumers do around the [put], should the iteration come to
    one. *)
Record real_tick := Real_tick {
  r_running : bool;
  r_read : read_result;
  r_now : Z;
  r_consumers : Queue.consumers
}.

Fixpoint _run_real_audio (self : t) (q : samples_queue) (last_sample_time : Z)
         (ticks : list real_tick) : outcome :=
  let sample_interval := ListenerConfig.sample_duration (config self) in
  match ticks with
  | [] => Outcome self q [] None [] false
  | tk :: ticks' =>
      if negb (r_running tk) then Outcome self q [] None [] true
      else
        match r_read tk with
        | Read_error e =>
            emit [] [Log.error "Error in recording loop: {}" [Log.Str e]]
                 (_run_real_audio self q last_sample_time ticks')
        | Read_chunk chunk =>
            let buf := AudioBuffer.add_chunk (audio_buffer self) chunk in
            let now := r_now tk in
            let buffer_ready := AudioBuffer.is_ready buf in
            let status :=
              Log.info "Buffer status: elapsed={:.2f}s, ready={}, buffer_len={}, needed={}"
                       [Log.Flt (inject_Z (now - last_sample_time) / 1000000);
                        Log.Flag buffer_ready;
                        Log.Int (Deque.len (AudioBuffer.buffer buf));
                        Log.Int (AudioBuffer.sample_size buf)] in
            if Py.elapsed_ge now last_sample_time sample_interval && buffer_ready then
              match AudioBuffer.get_sample buf with
              | (buf', Some sample) =>
                  let window :=
                    Sample_data sample now (ListenerConfig.sample_rate (config self))
                                None in
                  let l := [status;
                            Log.info "Queuing sample for analysis (size: {} samples)"
                                     [Log.Int (Z.of_nat (length sample))]] in
                  match Queue.put_among q (Some window) (r_consumers tk) with
                  | (q', true) =>
                      emit [window] l
                           (_run_real_audio (set_audio_buffer self buf') q' now ticks')
                  | (q', false) =>
                      Outcome (set_audio_buffer self buf') q' [] (Some window) l false
                  end
              | (buf', None) =>
                  emit [] [status]
                       (_run_real_audio (set_audio_buffer self buf') q
                                        last_sample_time ticks')
              end
            else
              emit [] [status]
                   (_run_real_audio (set_audio_buffer self buf) q
                                    last_sample_time ticks')
        end
  end.

(** One iteration of [_run_mock_audio]: [self.running], the clock after
    the sleep, [np.random.normal(loc, scale, size).astype(float32)] as
    the generator answers it on this iteration (the samples, or the
    text of the exception it raises), and the consumers around the
    [put]. *)
Record mock_tick := Mock_tick {
  m_running : bool;
  m_now : Z;
  m_normal : Q -> Q -> Z -> list sample + string;
  m_consumers : Queue.consumers
}.

Fixpoint _run_mock_audio (self : t) (q : samples_queue) (last_sample_time : Z)
         (ticks : list mock_tick) : outcome :=
  let sample_interval := ListenerConfig.sample_duration (config self) in
  match ticks with
  | [] => Outcome self q [] None [] false
  | tk :: ticks' =>
      if negb (m_running tk) then Outcome self q [] None [] true
      else
        let now := m_now tk in
        if Py.elapsed_ge now last_sample_time sample_interval then
          match m_normal tk 0%Q (1 # 100)%Q
                         (ListenerConfig.sample_rate (config self) * sample_interval) with
          | inl mock_sample =>
              let window :=
                Sample_data mock_sample now (ListenerConfig.sample_rate (config self))
                            (Some true) in
              match Queue.put_among q (Some window) (m_consumers tk) with
              | (q', true) => emit [window] [] (_run_mock_audio self q' now ticks')
              | (q', false) => Outcome self q' [] (Some window) [] false
              end
          | inr e =>
              emit [] [Log.error "Error in mock recording loop: {}" [Log.Str e]]
                   (_run_mock_audio self q last_sample_time ticks')
          end
        else _run_mock_audio self q last_sample_time ticks'
  end.

(** [stop]: [close_error] is the exception, if any, of closing the stream. *)
Definition stop (self : t) (close_error : option string) : t * list Log.record :=
  (Make (config self) false (audio_buffer self) (p self) (stream self),
   (if stream self then
      match close_error with
      | Some e => [Log.error "Error closing stream: {}" [Log.Str e]]
      | None => []
      end
    else [])
   ++ [Log.info "Recording stopped" []]).

(** Everything [run] reads from outside. *)
Record env := Env {
  hw : pyaudio;
  start_error : option string;
  started_at : Z;
  real_ticks : list real_tick;
  mock_ticks : list mock_tick;
  close_error : option string
}.

Definition set_running (self : t) (b : bool) : t :=
  Make (config self) b (audio_buffer self) (p self) (stream self).

(** The [finally] clause runs once the body is over. *)
Definition finally_stop (e : env) (o : outcome) : outcome :=
  if exited o then
    let '(self', l) := stop (final o) (close_error e) in
    Outcome self' (queue o) (emitted o) (blocked o) (logged o ++ l) true
  else o.

Definition run (self : t) (q : samples_queue) (e : env) : outcome :=
  let '(self1, audio_available, l0) := setup_audio self (hw e) in
  let self2 := set_running self1 true in
  finally_stop e
    (if audio_available then
       match start_error e with
       | Some err =>
           Outcome self2 q [] None
             (l0 ++ [Log.error "Recorder worker failed: {}" [Log.Str err]]) true
       | None =>
           emit [] (l0 ++ [Log.info "Recording started" []])
                (_run_real_audio self2 q (started_at e) (real_ticks e))
       end
     else
       emit [] (l0 ++ [Log.info "Starting in mock mode" []])
            (_run_mock_audio self2 q (started_at e) (mock_ticks e))).
End RecorderWorker.
Arguments t : clear implicits.
Arguments sample_data : clear implicits.
Arguments samples_queue : clear implicits.
Arguments outcome : clear implicits.
Arguments real_tick : clear implicits.
Arguments mock_tick : clear implicits.
Arguments env : clear implicits.
End RecorderWorker.

(** ** analyzer.py: [BirdNETAnalyzer] *)

Module BirdNETAnalyzer.

(** What [self.Recording] holds after [__init__]: [_init_model] returns
    before assigning it when [find_spec] finds nothing, assigns the class
    when the import succeeds, and assigns [None] on [ImportError]. *)
Inductive recording_attr := Attr_unset | Attr_class | Attr_None.

Inductive birdnetlib := Lib_not_found | Lib_loaded | Lib_ImportError.

Record t := Make {
  config : ListenerConfig.t;
  Recording : recording_attr
}.

Definition _init_model (lib : birdnetlib) : recording_attr * list Log.record :=
  match lib with
  | Lib_not_found =>
      (Attr_unset, [Log.warning "birdnetlib not found, using mock analyzer" []])
  | Lib_loaded =>
      (Attr_class, [Log.info "BirdNET-Lite loaded successfully" []])
  | Lib_ImportError =>
      (Attr_None, [Log.warning "BirdNET-Lite not available, using mock analyzer" []])
  end.

Definition __init__ (config : ListenerConfig.t) (lib : birdnetlib)
  : t * list Log.record :=
  let '(r, l) := _init_model lib in (Make config r, l).

(** An entry of birdnetlib's [recording.detections]. *)
Record birdnet_detection := Birdnet_detection {
  common_name : string;
  scientific_name : string;
  bn_confidence : Q;
  bn_start_time : Q;
  bn_end_time : Q
}.

(** The dict [analyze] returns for a detection. *)
Record detection := Detection {
  species : string;
  confidence : Q;
  start_time : Q;
  end_time : Q
}.

(** What writing the window to a file and running birdnetlib on it
    comes to: the detections, or the text of the exception raised on
    the way. *)
Inductive classified := Detections (ds : list birdnet_detection) | Raises (e : string).

Definition mock_species : list string :=
  ["American Robin"; "Black-capped Chickadee"; "Common Grackle";
   "Northern Cardinal"; "Blue Jay"].

Section Analyze.
Context {sample : Type}.

(** [np.sqrt(np.mean(audio ** 2))] as numpy computes it: NaN for an
    empty window or one with a NaN sample, an infinity when a square
    or the sum overflows. *)
Variable rms_of : list sample -> Py.float.

(** The classifier capability: the audio, the sample rate, then [lat],
    [lon] and [min_conf]. *)
Definition classifier := list sample -> Z -> Q -> Q -> Q -> classified.

(** The stub.  A comparison with NaN is false, so is [-inf > 0.01].
    [min(0.99, x)] is [x] when [x < 0.99] and 0.99 otherwise, also for
    an infinite [x]; [int(_)] of an infinity raises [OverflowError],
    after [confidence] has been computed and before the division of
    the dict is reached. *)
Definition _mock_analyze (audio : list sample) (sample_rate : Z)
  : list detection + string :=
  match rms_of audio with
  | Py.Finite rms =>
      if Qle_bool rms (Py.literal (1 # 100)) then inl []
      else
        let confidence :=
          match Py.mul rms 10 with
          | Some x =>
              match Py.add (Py.literal (1 # 2)) x with
              | Some y => Qmin (Py.literal (99 # 100)) y
              | None => Py.literal (99 # 100)
              end
          | None => Py.literal (99 # 100)
          end in
        match Py.mul rms 1000 with
        | None => inr "cannot convert float infinity to integer"%string
        | Some x =>
            let species_idx := Py.int x mod Z.of_nat (length mock_species) in
            match Py.truediv (Z.of_nat (length audio)) sample_rate with
            | inr e => inr e
            | inl end_time =>
                inl [Detection (nth (Z.to_nat species_idx) mock_species ""%string)
                               confidence
                               0
                               end_time]
            end
        end
  | Py.Inf false => inr "cannot convert float infinity to integer"%string
  | Py.Inf true | Py.NaN => inl []
  end.

Definition analysis_error (e : string) : list detection * list Log.record :=
  ([], [Log.error "Error in analysis: {}" [Log.Str e]]).

Definition analyze (self : t) (classify : classifier)
           (audio : list sample) (sample_rate : Z)
  : list detection * list Log.record :=
  match Recording self with
  | Attr_unset =>
      analysis_error "'BirdNETAnalyzer' object has no attribute 'Recording'"
  | Attr_None =>
      match _mock_analyze audio sample_rate with
      | inl detections => (detections, [])
      | inr e => analysis_error e
      end
  | Attr_class =>
      match classify audio sample_rate
                     (ListenerConfig.birdnet_location_lat (config self))
                     (ListenerConfig.birdnet_location_lon (config self))
                     (ListenerConfig.min_confidence (config self)) with
      | Raises e => analysis_error e
      | Detections found =>
          let detections :=
            map (fun d => Detection (scientific_name d) (bn_confidence d)
                                    (bn_start_time d) (bn_end_time d))
                (List.filter (fun d => Qle_bool (ListenerConfig.min_confidence (config self))
                                                (bn_confidence d))
                             found) in
          (detections,
           [Log.info "BirdNET found {} detections"
                     [Log.Int (Z.of_nat (length detections))]])
      end
  end.
End Analyze.
End BirdNETAnalyzer.

(** What [Queue.get(timeout=1)] gives a worker: the [Empty] exception, the
    [None] poison pill, or an item. *)
Inductive got (A : Type) := Got_Empty | Got_None | Got_item (x : A).
Arguments Got_Empty {A}.
Arguments Got_None {A}.
Arguments Got_item {A} x.

(** ** analyzer.py: [AnalyzerWorker] *)

Module AnalyzerWorker.

Record details := Details { start_time : Q; end_time : Q }.

(** The dict put on the detections queue. *)
Record detection_data := Detection_data {
  species : string;
  confidence : Q;
  timestamp : Z;
  detection_details : details
}.

Record t := Make {
  config : ListenerConfig.t;
  running : bool;
  analyzer : BirdNETAnalyzer.t
}.

Definition __init__ (config : ListenerConfig.t) (lib : BirdNETAnalyzer.birdnetlib)
  : t * list Log.record :=
  let '(a, l) := BirdNETAnalyzer.__init__ config lib in (Make config false a, l).

Definition stop (self : t) : t := Make (config self) false (analyzer self).

(** [start] sets the flag and runs [run] in a daemon thread. *)
Definition start (self : t) : t := Make (config self) true (analyzer self).
Definition thread_daemon : bool := true.

Record outcome := Outcome {
  emitted : list detection_data;
  logged : list Log.record;
  exited : bool
}.

Definition emit (d : list detection_data) (l : list Log.record) (o : outcome) : outcome :=
  Outcome (d ++ emitted o) (l ++ logged o) (exited o).

Section Run.
Context {sample : Type}.
Variable rms_of : list sample -> Py.float.

(** One iteration of the loop: [self.running] at the loop head, the
    result of the [get], and the classifier as it answers this time. *)
Record tick := Tick {
  running_seen : bool;
  get : got (RecorderWorker.sample_data sample);
  classify : @BirdNETAnalyzer.classifier sample
}.

Definition enqueue (timestamp : Z) (detection : BirdNETAnalyzer.detection)
  : detection_data :=
  Detection_data (BirdNETAnalyzer.species detection)
                 (BirdNETAnalyzer.confidence detection)
                 timestamp
                 (Details (BirdNETAnalyzer.start_time detection)
                          (BirdNETAnalyzer.end_time detection)).

(** The body of the loop for one dequeued window. *)
Definition process (self : t) (classify : BirdNETAnalyzer.classifier)
           (sample_data : RecorderWorker.sample_data sample)
  : list detection_data * list Log.record :=
  let audio := RecorderWorker.audio sample_data in
  let timestamp := RecorderWorker.timestamp sample_data in
  let sample_rate := RecorderWorker.sample_rate sample_data in
  let '(detections, l) :=
    BirdNETAnalyzer.analyze rms_of (analyzer self) classify audio sample_rate in
  (map (enqueue timestamp) detections, l).

Fixpoint loop (self : t) (ticks : list tick) : outcome :=
  match ticks with
  | [] => Outcome [] [] false
  | tk :: ticks' =>
      if negb (running_seen tk) then Outcome [] [] true
      else
        match get tk with
        | Got_Empty => loop self ticks'
        | Got_None => Outcome [] [] true
        | Got_item sample_data =>
            let '(ds, l) := process self (classify tk) sample_data in
            emit ds l (loop self ticks')
        end
  end.

Definition run (self : t) (ticks : list tick) : outcome :=
  let o := emit [] [Log.info "Analyzer worker started" []] (loop self ticks) in
  if exited o
  then Outcome (emitted o) (logged o ++ [Log.info "Analyzer worker stopped" []]) true
  else o.
End Run.
Arguments tick : clear implicits.
End AnalyzerWorker.

(** ** database.py: [Detection] and [DetectionDatabase] *)

Module Detection.
Record t := Make {
  species : string;
  confidence : Q;
  timestamp : Z;
  details : AnalyzerWorker.details
}.
End Detection.

Module DetectionDatabase.

(** A row of the [detections] table.  The [created_at] column, which
    SQLite fills in and the pipeline never reads, is left out. *)
Record row := Row {
  id : Z;
  species : string;
  confidence : Q;
  timestamp : Z;
  latitude : option Q;
  longitude : option Q;
  details : option AnalyzerWorker.details
}.

(** The table in insertion order and the last rowid handed out. *)
Record t := Make { rows : list row; lastrowid : Z }.

Definition empty : t := Make [] 0.

(** [INSERT INTO detections ... VALUES (...)]; returns [cursor.lastrowid]. *)
Definition add_detection (self : t) (detection : Detection.t)
           (lat lon : option Q) : t * Z :=
  let rowid := lastrowid self + 1 in
  (Make (rows self ++ [Row rowid
                           (Detection.species detection)
                           (Detection.confidence detection)
                           (Detection.timestamp detection)
                           lat lon
                           (Some (Detection.details detection))])
        rowid,
   rowid).

(** The [WHERE species = ? AND timestamp >= ?] of [check_duplicate]. *)
Definition recent (species : string) (since : Z) (r : row) : bool :=
  String.eqb (DetectionDatabase.species r) species && (since <=? timestamp r).

(** [check_duplicate]; [now] is what [datetime.utcnow()] returns in it. *)
Definition check_duplicate (self : t) (now : Z) (species : string)
           (window_seconds : Z) : bool :=
  let since := now - Py.seconds window_seconds in
  let count := Z.of_nat (length (List.filter (recent species since) (rows self))) in
  0 <? count.
End DetectionDatabase.

(** ** db_writer.py: [DbWriterWorker] *)

Module DbWriterWorker.

Record t := Make {
  config : ListenerConfig.t;
  running : bool;
  lat : Q;
  lon : Q
}.

Definition __init__ (config : ListenerConfig.t) : t :=
  Make config false
       (ListenerConfig.birdnet_location_lat config)
       (ListenerConfig.birdnet_location_lon config).

Definition stop (self : t) : t := Make (config self) false (lat self) (lon self).
Definition start (self : t) : t := Make (config self) true (lat self) (lon self).
Definition thread_daemon : bool := true.

(** One iteration of the loop: [self.running] at the loop head, the
    result of the [get], the clock [check_duplicate] reads, and the
    exceptions, if any, that the two store calls raise this time. *)
Record tick := Tick {
  running_seen : bool;
  get : got AnalyzerWorker.detection_data;
  now : Z;
  check_error : option string;
  write_error : option string
}.

Record outcome := Outcome {
  db : DetectionDatabase.t;
  logged : list Log.record;
  exited : bool
}.

Definition log (l : list Log.record) (o : outcome) : outcome :=
  Outcome (db o) (l ++ logged o) (exited o).

Definition writer_error (e : string) : list Log.record :=
  [Log.error "Error in writer loop: {}" [Log.Str e]].

(** The body of the loop for one dequeued detection. *)
Definition process (self : t) (db : DetectionDatabase.t) (tk : tick)
           (detection_data : AnalyzerWorker.detection_data)
  : DetectionDatabase.t * list Log.record :=
  let species := AnalyzerWorker.species detection_data in
  let confidence := AnalyzerWorker.confidence detection_data in
  let timestamp := AnalyzerWorker.timestamp detection_data in
  let duplicate_window := ListenerConfig.duplicate_window (config self) in
  match check_error tk with
  | Some e => (db, writer_error e)
  | None =>
      if DetectionDatabase.check_duplicate db (now tk) species duplicate_window
      then (db, [Log.debug "Ignoring duplicate detection: {} (within {}s)"
                           [Log.Str species; Log.Int duplicate_window]])
      else
        let detection :=
          Detection.Make species confidence timestamp
                         (AnalyzerWorker.detection_details detection_data) in
        match write_error tk with
        | Some e => (db, writer_error e)
        | None =>
            let '(db', detection_id) :=
              DetectionDatabase.add_detection db detection
                                              (Some (lat self)) (Some (lon self)) in
            (db', [Log.info "Detection saved: {} (confidence: {:.2f}) [ID: {}]"
                            [Log.Str species; Log.Flt confidence; Log.Int detection_id]])
        end
  end.

Fixpoint loop (self : t) (db : DetectionDatabase.t) (ticks : list tick) : outcome :=
  match ticks with
  | [] => Outcome db [] false
  | tk :: ticks' =>
      if negb (running_seen tk) then Outcome db [] true
      else
        match get tk with
        | Got_Empty => loop self db ticks'
        | Got_None => Outcome db [] true
        | Got_item detection_data =>
            let '(db', l) := process self db tk detection_data in
            log l (loop self db' ticks')
        end
  end.

Definition run (self : t) (db : DetectionDatabase.t) (ticks : list tick) : outcome :=
  let o := log [Log.info "Database writer worker started" []] (loop self db ticks) in
  if exited o
  then Outcome (DbWriterWorker.db o)
               (logged o ++ [Log.info "Database writer worker stopped" []]) true
  else o.

(** A detection handed to the writer while the loop is running. *)
Definition arrival (d : AnalyzerWorker.detection_data) (now : Z) : tick :=
  Tick true (Got_item d) now None None.
End DbWriterWorker.

(** ** main.py: [ListenerService] *)

Module ListenerService.

Record thread := Thread { name : string; daemon : bool }.

Section ListenerService.
Context {sample : Type}.

Record t := Make {
  listener_config : ListenerConfig.t;
  db : DetectionDatabase.t;
  samples_queue : RecorderWorker.samples_queue sample;
  detections_queue : Queue.t (option AnalyzerWorker.detection_data);
  recorder : RecorderWorker.t sample;
  analyzers : list AnalyzerWorker.t;
  db_writer : DbWriterWorker.t;
  threads : list thread;
  running : bool
}.

(** [range(n)] has no element for a negative [n]. *)
Definition __init__ (config : ListenerConfig.t) (db : DetectionDatabase.t)
           (lib : BirdNETAnalyzer.birdnetlib) : option t :=
  match RecorderWorker.__init__ config with
  | Some recorder =>
      Some (Make config db (Queue.new 100) (Queue.new 100) recorder
                 (map (fun _ => fst (AnalyzerWorker.__init__ config lib))
                      (seq 0 (Z.to_nat (ListenerConfig.num_workers config))))
                 (DbWriterWorker.__init__ config)
                 [] true)
  | None => None
  end.

Definition analyzer_threads (n : nat) : list thread :=
  map (fun i => Thread ("AnalyzerWorker-" +:+ pretty (Z.of_nat i + 1))
                       AnalyzerWorker.thread_daemon)
      (seq 0 n).

(** [start], up to the wait on the non-daemon threads. *)
Definition start (self : t) : t :=
  Make (listener_config self) (db self) (samples_queue self) (detections_queue self)
       (recorder self)
       (map AnalyzerWorker.start (analyzers self))
       (DbWriterWorker.start (db_writer self))
       (threads self
        ++ [Thread "RecorderWorker" false]
        ++ analyzer_threads (length (analyzers self))
        ++ [Thread "DbWriterWorker" DbWriterWorker.thread_daemon]
        ++ [Thread "APIServer" true])
       (running self).

(** What [stop] reads from outside: [thread.is_alive()], the
    exception, if any, of closing the stream, and the consumers around
    each [put(None)]: for the samples queue one entry per analyzer, in
    order (consumers that take nothing where the list has no entry),
    and one for the detections queue. *)
Record stop_env := Stop_env {
  is_alive : thread -> bool;
  close_error : option string;
  sample_consumers : list Queue.consumers;
  detection_consumers : Queue.consumers
}.

(** [for analyzer in self.analyzers: analyzer.stop(); put(None)]: the
    analyzers and the queue as the loop leaves them, and whether it
    has come to its end.  [false] is a loop that stays inside a
    [put(None)]: the analyzers behind that one are as they were. *)
Fixpoint stop_analyzers (analyzers : list AnalyzerWorker.t)
         (q : RecorderWorker.samples_queue sample)
         (consumers : list Queue.consumers)
  : list AnalyzerWorker.t * RecorderWorker.samples_queue sample * bool :=
  match analyzers with
  | [] => ([], q, true)
  | analyzer :: rest =>
      match Queue.put_among q None (hd (Queue.Consumers 0 0) consumers) with
      | (q', true) =>
          let '(rest', q'', over) := stop_analyzers rest q' (tl consumers) in
          (AnalyzerWorker.stop analyzer :: rest', q'', over)
      | (q', false) => (AnalyzerWorker.stop analyzer :: rest, q', false)
      end
  end.

(** The [thread.join(timeout=5)] calls of the last loop, in order, as
    (thread, timeout) pairs. *)
Definition joined (is_alive : thread -> bool) (threads : list thread)
  : list (thread * Z) :=
  map (fun th => (th, 5))
      (List.filter (fun th => negb (daemon th) && is_alive th) threads).

(** [stop] as far as it has come: the service, the joins made, the
    records logged, and whether [stop] has returned. *)
Record stopped := Stopped {
  service : t;
  joins : list (thread * Z);
  logged : list Log.record;
  returned : bool
}.

Definition stop (self : t) (e : stop_env) : stopped :=
  let '(recorder', recorder_log) :=
    RecorderWorker.stop (recorder self) (close_error e) in
  let l := [Log.info "Stopping all workers..." []] ++ recorder_log in
  let '(analyzers', samples_queue', over) :=
    stop_analyzers (analyzers self) (samples_queue self) (sample_consumers e) in
  let inside db_writer' detections_queue' :=
    Stopped (Make (listener_config self) (db self) samples_queue' detections_queue'
                  recorder' analyzers' db_writer' (threads self) false)
            [] l false in
  if over then
    match Queue.put_among (detections_queue self) None (detection_consumers e) with
    | (detections_queue', true) =>
        Stopped (Make (listener_config self) (db self)
                      samples_queue' detections_queue'
                      recorder' analyzers'
                      (DbWriterWorker.stop (db_writer self))
                      (threads self) false)
                (joined (is_alive e) (threads self))
                (l ++ [Log.info "All workers stopped" []])
                true
    | (detections_queue', false) =>
        inside (DbWriterWorker.stop (db_writer self)) detections_queue'
    end
  else inside (db_writer self) (detections_queue self).
End ListenerService.
Arguments t : clear implicits.
Arguments stopped : clear implicits.
End ListenerService.

(** ** The SQL clauses the queries of database.py use

    A table is the list of its rows in insertion order.  Where SQL leaves
    the order of rows that compare equal open, the merge sort below puts
    them in some order; no property stated of the queries depends on which. *)

Module Sql.

(** [LIMIT limit OFFSET offset]: a negative offset is 0 and a negative
    limit is no limit. *)
Definition limit_offset {A} (limit offset : Z) (l : list A) : list A :=
  let rest := drop (Z.to_nat offset) l in
  if limit <? 0 then rest else take (Z.to_nat limit) rest.

(** [ORDER BY f] and [ORDER BY f DESC]. *)
Definition ascending {A} (f : A -> Z) (x y : A) : Prop := f x <= f y.
Definition descending {A} (f : A -> Z) (x y : A) : Prop := f y <= f x.

#[global] Instance ascending_dec {A} (f : A -> Z) x y : Decision (ascending f x y) :=
  Z_le_dec (f x) (f y).
#[global] Instance descending_dec {A} (f : A -> Z) x y : Decision (descending f x y) :=
  Z_le_dec (f y) (f x).

Definition order_by {A} (f : A -> Z) (l : list A) : list A :=
  merge_sort (ascending f) l.

Definition order_by_desc {A} (f : A -> Z) (l : list A) : list A :=
  merge_sort (descending f) l.

(** [GROUP BY key]: one group per distinct key, with the rows of it. *)
Definition group_by {A K} `{EqDecision K} (key : A -> K) (l : list A)
  : list (K * list A) :=
  map (fun k => (k, List.filter (fun x => bool_decide (key x = k)) l))
      (remove_dups (map key l)).

(** [COUNT( * )] and [COUNT(DISTINCT f)] of a group. *)
Definition count {A} (l : list A) : Z := Z.of_nat (length l).

Definition count_distinct {A K} `{EqDecision K} (f : A -> K) (l : list A) : Z :=
  Z.of_nat (length (remove_dups (map f l))).
End Sql.

(** ** database.py: the queries and the cleanup of [DetectionDatabase] *)

Module DetectionQueries.

(** [timedelta(days=n)], in microseconds. *)
Definition days (n : Z) : Z := n * 86400000000.

(** The [WHERE timestamp >= ?] of the queries. *)
Definition not_before (since : Z) (r : DetectionDatabase.row) : bool :=
  since <=? DetectionDatabase.timestamp r.

(** [strftime('%Y-%m-%d %H:00:00', timestamp)] and
    [strftime('%Y-%m-%d', timestamp)]: the start of the hour and of the
    day of a timestamp, as datetimes. *)
Definition hour_of (timestamp : Z) : Z := timestamp / 3600000000 * 3600000000.
Definition date_of (timestamp : Z) : Z := timestamp / 86400000000 * 86400000000.

Definition get_recent_detections (self : DetectionDatabase.t) (limit offset : Z)
  : list DetectionDatabase.row :=
  Sql.limit_offset limit offset
                   (Sql.order_by_desc DetectionDatabase.timestamp
                                      (DetectionDatabase.rows self)).

(** [now] is what [datetime.utcnow()] returns in the query. *)
Definition get_detections_by_species (self : DetectionDatabase.t) (now : Z)
           (species : string) (days : Z) : list DetectionDatabase.row :=
  let since := now - DetectionQueries.days days in
  Sql.order_by_desc DetectionDatabase.timestamp
                    (List.filter (DetectionDatabase.recent species since)
                                 (DetectionDatabase.rows self)).

(** [SELECT species, COUNT( * ) ... GROUP BY species ORDER BY count DESC] *)
Definition species_counts (rows : list DetectionDatabase.row) : list (string * Z) :=
  Sql.order_by_desc snd
    (map (fun g => (g.1, Sql.count g.2))
         (Sql.group_by DetectionDatabase.species rows)).

Definition get_all_species (self : DetectionDatabase.t) (now : Z) (days : Z)
  : list (string * Z) :=
  let since := now - DetectionQueries.days days in
  species_counts (List.filter (not_before since) (DetectionDatabase.rows self)).

(** [DELETE FROM detections WHERE timestamp < ?] *)
Definition cleanup_old_detections (self : DetectionDatabase.t) (now : Z) (days : Z)
  : DetectionDatabase.t * list Log.record :=
  let cutoff := now - DetectionQueries.days days in
  let kept := List.filter (not_before cutoff) (DetectionDatabase.rows self) in
  let deleted := Sql.count (DetectionDatabase.rows self) - Sql.count kept in
  (DetectionDatabase.Make kept (DetectionDatabase.lastrowid self),
   if 0 <? deleted
   then [Log.info "Cleaned up {} old detections" [Log.Int deleted]]
   else []).

Record stats := Stats {
  total_detections : Z;
  unique_species : Z;
  avg_confidence : Q;
  top_species : list (string * Z);
  period_days : Z
}.

Record hourly := Hourly { hour : Z; hour_count : Z; hour_avg_confidence : Q }.
Record daily := Daily { date : Z; date_count : Z; date_unique_species : Z }.

Section Aggregates.
(** [AVG(confidence)] as SQLite computes it over a non-empty group, in
    floating point, and Python's [round(_, 3)]. *)
Variable sql_avg : list Q -> Q.
Variable round3 : Q -> Q.

(** [cursor.fetchone()[0] or 0]: the average is NULL over no row. *)
Definition avg_or_0 (rows : list DetectionDatabase.row) : Q :=
  match rows with
  | [] => 0
  | _ => sql_avg (map DetectionDatabase.confidence rows)
  end.

Definition get_stats (self : DetectionDatabase.t) (now : Z) (days : Z) : stats :=
  let since := now - DetectionQueries.days days in
  let rows := List.filter (not_before since) (DetectionDatabase.rows self) in
  Stats (Sql.count rows)
        (Sql.count_distinct DetectionDatabase.species rows)
        (round3 (avg_or_0 rows))
        (Sql.limit_offset 10 0 (species_counts rows))
        days.

Definition get_hourly_activity (self : DetectionDatabase.t) (now : Z) (days : Z)
  : list hourly :=
  let since := now - DetectionQueries.days days in
  let rows := List.filter (not_before since) (DetectionDatabase.rows self) in
  Sql.order_by hour
    (map (fun g => Hourly g.1 (Sql.count g.2)
                          (sql_avg (map DetectionDatabase.confidence g.2)))
         (Sql.group_by (fun r => hour_of (DetectionDatabase.timestamp r)) rows)).
End Aggregates.

Definition get_daily_activity (self : DetectionDatabase.t) (now : Z) (days : Z)
  : list daily :=
  let since := now - DetectionQueries.days days in
  let rows := List.filter (not_before since) (DetectionDatabase.rows self) in
  Sql.order_by date
    (map (fun g => Daily g.1 (Sql.count g.2)
                         (Sql.count_distinct DetectionDatabase.species g.2))
         (Sql.group_by (fun r => date_of (DetectionDatabase.timestamp r)) rows)).
End DetectionQueries.

(** ** api.py: the detections endpoint *)

Module ListenerAPI.

(** [get_detections] on the query arguments as Flask has parsed them
    ([limit] and [offset] with their defaults applied, [species] absent
    or given); the payload is the rows and their count. *)
Definition get_detections (db : DetectionDatabase.t) (now : Z)
           (limit offset : Z) (species : option string)
  : list DetectionDatabase.row * Z :=
  let detections :=
    match species with
    | Some (String c s) =>
        DetectionQueries.get_detections_by_species db now (String c s) 7
    | Some EmptyString | None =>
        DetectionQueries.get_recent_detections db limit offset
    end in
  (detections, Z.of_nat (length detections)).
End ListenerAPI.

(** ** Vocabulary of the properties *)

(** The [n] most recent elements of a stream that grows to the right. *)
Definition most_recent {A} (n : Z) (l : list A) : list A :=
  drop (length l - Z.to_nat n) l.

(** A small buffer for the examples: one sample per second, four seconds
    of buffer, two seconds of window. *)
Definition small_buffer : AudioBuffer.t Z :=
  AudioBuffer.Make 1 4 2 4 2 (Deque.Make 4 []).

(** The first element of a list, if any. *)
Definition head_of {A} (l : list A) : option A :=
  match l with
  | [] => None
  | x :: _ => Some x
  end.

(** Consumers that take nothing from the queue. *)
Definition idle : Queue.consumers := Queue.Consumers 0 0.

(** A queue that holds no more than its bound. *)
Definition within_bound {A} (q : Queue.t A) : Prop :=
  0 < Queue.maxsize q -> Queue.qsize q <= Queue.maxsize q.

(** A run of the recorder whose analysis pool has stalled: on no
    iteration does a consumer take an item. *)
Definition stalled {sample} (e : RecorderWorker.env sample) : Prop :=
  Forall (fun tk => RecorderWorker.r_consumers tk = idle) (RecorderWorker.real_ticks e)
  /\ Forall (fun tk => RecorderWorker.m_consumers tk = idle) (RecorderWorker.mock_ticks e).

(** A run in which, on every iteration, a consumer takes an item while
    the [put] waits. *)
Definition served {sample} (e : RecorderWorker.env sample) : Prop :=
  Forall (fun tk => (0 < Queue.gets (RecorderWorker.r_consumers tk))%nat)
         (RecorderWorker.real_ticks e)
  /\ Forall (fun tk => (0 < Queue.gets (RecorderWorker.m_consumers tk))%nat)
            (RecorderWorker.mock_ticks e).

(** A run [o] on a bounded queue keeps up with the run [free] of the same
    iterations on a queue without bound: the windows it has put, followed
    by the one it holds inside a [put], are the first of the windows of
    [free], in the same order, and so are its log records; a run that is
    not inside a [put] has come as far as [free], and one that is has not
    left the loop and faces a full queue. *)
Definition keeps_up {sample} (o free : RecorderWorker.outcome sample) : Prop :=
  (RecorderWorker.emitted o ++ option_list (RecorderWorker.blocked o))
    `prefix_of` RecorderWorker.emitted free
  /\ RecorderWorker.logged o `prefix_of` RecorderWorker.logged free
  /\ match RecorderWorker.blocked o with
     | None =>
         RecorderWorker.emitted o = RecorderWorker.emitted free
         /\ RecorderWorker.logged o = RecorderWorker.logged free
         /\ RecorderWorker.exited o = RecorderWorker.exited free
         /\ RecorderWorker.final o = RecorderWorker.final free
     | Some _ =>
         RecorderWorker.exited o = false
         /\ Queue.full (RecorderWorker.queue o) = true
     end.

(** What a run [o] of a capture loop on the queue [q] has to do with the
    run [free] of the same iterations on a queue without bound:
    it keeps up with it, it leaves the queue within its bound and
    holding, behind what it held, windows of the run only; with idle
    consumers the queue takes the windows until it is full and the loop
    stays inside the [put] of the next one; with consumers that take an
    item whenever a [put] waits, no [put] stays blocked. *)
Definition on_queue {sample} (q : RecorderWorker.samples_queue sample)
           (idle_run served_run : Prop)
           (o free : RecorderWorker.outcome sample) : Prop :=
  keeps_up o free
  /\ Queue.maxsize (RecorderWorker.queue o) = Queue.maxsize q
  /\ within_bound (RecorderWorker.queue o)
  /\ Queue.items (RecorderWorker.queue o)
       `suffix_of` Queue.items q ++ map Some (RecorderWorker.emitted o)
  /\ (idle_run -> 0 < Queue.maxsize q ->
      let room := Z.to_nat (Queue.maxsize q - Queue.qsize q) in
      RecorderWorker.emitted o = take room (RecorderWorker.emitted free)
      /\ RecorderWorker.blocked o = RecorderWorker.emitted free !! room
      /\ Queue.items (RecorderWorker.queue o)
         = Queue.items q ++ map Some (RecorderWorker.emitted o))
  /\ (served_run -> RecorderWorker.blocked o = None).

(** Timestamps that are at least [gap] apart, the first one from [last]. *)
Fixpoint paced (gap last : Z) (timestamps : list Z) : Prop :=
  match timestamps with
  | [] => True
  | t :: timestamps' => gap <= t - last /\ paced gap t timestamps'
  end.

(** The service with the default configuration, constructed and started. *)
Definition default_service : option (ListenerService.t Z) :=
  option_map ListenerService.start
             (ListenerService.__init__ ListenerConfig.default DetectionDatabase.empty
                                       BirdNETAnalyzer.Lib_loaded).

Definition all_alive (th : ListenerService.thread) : bool := true.

(** A window of the synthetic mode: it carries the marker, the configured
    rate, the clock of one of the iterations, and as audio what the noise
    generator drew on that iteration for mean 0, deviation 0.01 and
    [sample_rate * sample_duration] samples. *)
Definition synthetic_window {sample} (config : ListenerConfig.t)
           (ticks : list (RecorderWorker.mock_tick sample))
           (w : RecorderWorker.sample_data sample) : Prop :=
  RecorderWorker.is_mock w = Some true
  /\ RecorderWorker.sample_rate w = ListenerConfig.sample_rate config
  /\ exists tk, In tk ticks
       /\ RecorderWorker.timestamp w = RecorderWorker.m_now tk
       /\ RecorderWorker.m_normal tk 0%Q (1 # 100)%Q
            (ListenerConfig.sample_rate config * ListenerConfig.sample_duration config)
          = inl (RecorderWorker.audio w).

(** The windows a run has sealed: those it has put on the queue and the
    one it holds inside a [put]. *)
Definition sealed {sample} (o : RecorderWorker.outcome sample)
  : list (RecorderWorker.sample_data sample) :=
  RecorderWorker.emitted o ++ option_list (RecorderWorker.blocked o).

(** The timestamp of the latest of the windows [ws], [start] when there
    is none. *)
Fixpoint latest {sample} (start : Z) (ws : list (RecorderWorker.sample_data sample)) : Z :=
  match ws with
  | [] => start
  | w :: ws' => latest (RecorderWorker.timestamp w) ws'
  end.

(** An iteration of the synthetic loop that finds the flag set and on
    which the noise generator answers. *)
Definition generates {sample} (config : ListenerConfig.t)
           (tk : RecorderWorker.mock_tick sample) : Prop :=
  RecorderWorker.m_running tk = true
  /\ exists noise,
       RecorderWorker.m_normal tk 0%Q (1 # 100)%Q
         (ListenerConfig.sample_rate config * ListenerConfig.sample_duration config)
       = inl noise.

(** A window of the real mode: no marker, the configured rate. *)
Definition real_window {sample} (config : ListenerConfig.t)
           (w : RecorderWorker.sample_data sample) : Prop :=
  RecorderWorker.is_mock w = None
  /\ RecorderWorker.sample_rate w = ListenerConfig.sample_rate config.

Definition recorder_failed (r : Log.record) : Prop :=
  Log.fmt r = "Recorder worker failed: {}"%string.

(** The three ways the classification of a window ends in an exception
    with text [e]: birdnetlib (or the file handling around it) raises, the
    stub raises, or [self.Recording] was never assigned. *)
Definition classification_raises {sample} (rms_of : list sample -> Py.float)
           (analyzer : BirdNETAnalyzer.t) (classify : BirdNETAnalyzer.classifier)
           (window : RecorderWorker.sample_data sample) (e : string) : Prop :=
  match BirdNETAnalyzer.Recording analyzer with
  | BirdNETAnalyzer.Attr_class =>
      classify (RecorderWorker.audio window) (RecorderWorker.sample_rate window)
               (ListenerConfig.birdnet_location_lat (BirdNETAnalyzer.config analyzer))
               (ListenerConfig.birdnet_location_lon (BirdNETAnalyzer.config analyzer))
               (ListenerConfig.min_confidence (BirdNETAnalyzer.config analyzer))
      = BirdNETAnalyzer.Raises e
  | BirdNETAnalyzer.Attr_None =>
      BirdNETAnalyzer._mock_analyze rms_of (RecorderWorker.audio window)
                                    (RecorderWorker.sample_rate window)
      = inr e
  | BirdNETAnalyzer.Attr_unset =>
      e = "'BirdNETAnalyzer' object has no attribute 'Recording'"%string
  end.

(** A configuration with 16 samples per second and a threshold of 0.7. *)
Definition strict_config : ListenerConfig.t :=
  ListenerConfig.Make (-1) 16 2048 10 5 (7 # 10) 30 2 "./data/detections.db"
                      4 false (407128 # 10000) (-74006 # 1000) 8000 "0.0.0.0" "INFO".

(** The RMS of a window whose samples all have the same value. *)
Definition rms_of_constant (audio : list Q) : Py.float :=
  match audio with
  | [] => Py.NaN
  | x :: _ => Py.Finite (Qabs x)
  end.

(** Five seconds of the constant signal 1/64, sealed at some instant. *)
Definition faint_window : RecorderWorker.sample_data Q :=
  RecorderWorker.Sample_data (repeat (1 # 64)%Q 80) 1700000000000000 16 None.

(** A worker whose analyzer is in stub mode (the import of birdnetlib
    raised [ImportError]), started. *)
Definition stub_worker : AnalyzerWorker.t :=
  AnalyzerWorker.start
    (fst (AnalyzerWorker.__init__ strict_config BirdNETAnalyzer.Lib_ImportError)).

Definition unused_classifier : @BirdNETAnalyzer.classifier Q :=
  fun _ _ _ _ _ => BirdNETAnalyzer.Detections [].

(** A worker in real mode, and a classifier that fails on every window. *)
Definition real_worker : AnalyzerWorker.t :=
  AnalyzerWorker.start
    (fst (AnalyzerWorker.__init__ strict_config BirdNETAnalyzer.Lib_loaded)).

Definition failing_classifier : @BirdNETAnalyzer.classifier Q :=
  fun _ _ _ _ _ => BirdNETAnalyzer.Raises "Error opening '/tmp/tmpk3.wav'".

Definition robin_classifier : @BirdNETAnalyzer.classifier Q :=
  fun _ _ _ _ _ =>
    BirdNETAnalyzer.Detections
      [BirdNETAnalyzer.Birdnet_detection "American Robin" "Turdus migratorius"
                                         (7 # 10) 0 3].

(** In insertion order, a row stored after another row of the same species
    has a timestamp more than [gap] later. *)
Fixpoint spaced (gap : Z) (rows : list DetectionDatabase.row) : Prop :=
  match rows with
  | [] => True
  | r :: later =>
      Forall (fun r' => DetectionDatabase.species r' = DetectionDatabase.species r ->
                        gap < DetectionDatabase.timestamp r' - DetectionDatabase.timestamp r)
             later
      /\ spaced gap later
  end.

(** A detection is checked at most [lag] microseconds after its capture
    timestamp. *)
Definition prompt (lag : Z) (tk : DbWriterWorker.tick) : Prop :=
  forall d, DbWriterWorker.get tk = Got_item d ->
            DbWriterWorker.now tk - AnalyzerWorker.timestamp d <= lag.

(** The row [add_detection] stores for a detection. *)
Definition stored_row (self : DbWriterWorker.t) (db : DetectionDatabase.t)
           (d : AnalyzerWorker.detection_data) : DetectionDatabase.row :=
  DetectionDatabase.Row (DetectionDatabase.lastrowid db + 1)
                        (AnalyzerWorker.species d) (AnalyzerWorker.confidence d)
                        (AnalyzerWorker.timestamp d)
                        (Some (DbWriterWorker.lat self)) (Some (DbWriterWorker.lon self))
                        (Some (AnalyzerWorker.detection_details d)).

(** A row without its confidence, and a detection with another one. *)
Definition forget_confidence (r : DetectionDatabase.row) :=
  (DetectionDatabase.id r, DetectionDatabase.species r, DetectionDatabase.timestamp r,
   DetectionDatabase.latitude r, DetectionDatabase.longitude r,
   DetectionDatabase.details r).

Definition with_confidence (c : Q) (d : AnalyzerWorker.detection_data)
  : AnalyzerWorker.detection_data :=
  AnalyzerWorker.Detection_data (AnalyzerWorker.species d) c
                                (AnalyzerWorker.timestamp d)
                                (AnalyzerWorker.detection_details d).

Definition reconfide (c : AnalyzerWorker.detection_data -> Q) (tk : DbWriterWorker.tick)
  : DbWriterWorker.tick :=
  DbWriterWorker.Tick (DbWriterWorker.running_seen tk)
                      (match DbWriterWorker.get tk with
                       | Got_item d => Got_item (with_confidence (c d) d)
                       | Got_Empty => Got_Empty
                       | Got_None => Got_None
                       end)
                      (DbWriterWorker.now tk)
                      (DbWriterWorker.check_error tk) (DbWriterWorker.write_error tk).

(** The writer of the default configuration (a window of 30 seconds), and
    detections of one species. *)
Definition default_writer : DbWriterWorker.t :=
  DbWriterWorker.start (DbWriterWorker.__init__ ListenerConfig.default).

Definition robin (confidence : Q) (second : Z) : AnalyzerWorker.detection_data :=
  AnalyzerWorker.Detection_data "Turdus migratorius" confidence (Py.seconds second)
                                (AnalyzerWorker.Details 0 3).

(** Detections captured at t = 0, 10 and 40 seconds, each checked at its
    capture time. *)
Definition on_time_arrivals : list DbWriterWorker.tick :=
  [DbWriterWorker.arrival (robin (8 # 10) 0) (Py.seconds 0);
   DbWriterWorker.arrival (robin (9 # 10) 10) (Py.seconds 10);
   DbWriterWorker.arrival (robin (7 # 10) 40) (Py.seconds 40)].

(** Detections captured at t = 0 and t = 5 seconds that reach the writer
    35 and 36 seconds after the first capture. *)
Definition late_arrivals : list DbWriterWorker.tick :=
  [DbWriterWorker.arrival (robin (8 # 10) 0) (Py.seconds 35);
   DbWriterWorker.arrival (robin (8 # 10) 5) (Py.seconds 36)].

(** A detection captured at t = 0 and checked 2 seconds later, and one
    captured at t = 25 and checked at t = 31, 29 seconds after the first
    was stored. *)
Definition first_arrival : DbWriterWorker.tick :=
  DbWriterWorker.arrival (robin (6 # 10) 0) (Py.seconds 2).
Definition second_arrival : DbWriterWorker.tick :=
  DbWriterWorker.arrival (robin (9 # 10) 25) (Py.seconds 31).

(** Two stores that differ at most in the confidences of their rows. *)
Definition same_but_confidence (db1 db2 : DetectionDatabase.t) : Prop :=
  map forget_confidence (DetectionDatabase.rows db1)
  = map forget_confidence (DetectionDatabase.rows db2)
  /\ DetectionDatabase.lastrowid db1 = DetectionDatabase.lastrowid db2.

(** A service at one sample per second with windows of five seconds. *)
Definition small_config : ListenerConfig.t :=
  ListenerConfig.Make (-1) 1 2048 10 5 (1 # 2) 30 2 "./data/detections.db"
                      4 false (407128 # 10000) (-74006 # 1000) 8000 "0.0.0.0" "INFO".

Definition small_service : option (ListenerService.t Z) :=
  ListenerService.__init__ small_config DetectionDatabase.empty BirdNETAnalyzer.Lib_loaded.

(** A recorder at one sample per second with windows of five seconds, and
    a noise generator that draws zeros. *)
Definition silent_recorder : RecorderWorker.t Z :=
  RecorderWorker.Make
    (ListenerConfig.Make (-1) 1 2048 10 5 (1 # 2) 30 2 "./data/detections.db"
                         4 false (407128 # 10000) (-74006 # 1000) 8000 "0.0.0.0" "INFO")
    true (AudioBuffer.Make 1 10 5 10 5 (Deque.Make 10 [])) false false.

Definition zero_noise (loc scale : Q) (size : Z) : list Z + string :=
  inl (repeat 0 (Z.to_nat size)).

(** Runs of the recorder beside a stalled analysis pool, one iteration
    every five seconds for 102 iterations: without an input device, and
    with a device that delivers five samples per read. *)
Definition stalled_synthetic_run : RecorderWorker.env Z :=
  RecorderWorker.Env
    (RecorderWorker.Audio_error false "No Default Input Device") None 0 []
    (map (fun i => RecorderWorker.Mock_tick true (Py.seconds (5 * (Z.of_nat i + 1)))
                                            zero_noise idle)
         (seq 0 102))
    None.

Definition stalled_real_run : RecorderWorker.env Z :=
  RecorderWorker.Env
    (RecorderWorker.Audio_ok "default") None 0
    (map (fun i => RecorderWorker.Real_tick
                     true (RecorderWorker.Read_chunk (repeat (Z.of_nat i) 5))
                     (Py.seconds (5 * (Z.of_nat i + 1))) idle)
         (seq 0 102))
    [] None.

(** One iteration of the synthetic loop, five seconds after the start,
    in a run without an input device; and a run whose device opens but
    whose stream does not start. *)
Definition synthetic_iteration : RecorderWorker.mock_tick Z :=
  RecorderWorker.Mock_tick true (Py.seconds 5) zero_noise idle.

Definition without_device : RecorderWorker.env Z :=
  RecorderWorker.Env (RecorderWorker.Audio_error false "No Default Input Device")
                     None 0 [] [synthetic_iteration] None.

Definition failed_start : RecorderWorker.env Z :=
  RecorderWorker.Env (RecorderWorker.Audio_ok "default")
                     (Some "Unanticipated host error")
                     0 [] [synthetic_iteration] None.

(** ** Vocabulary of the further properties *)

(** The samples the real loop has read on a run of iterations. *)
Definition chunks_read {sample} (ticks : list (RecorderWorker.real_tick sample))
  : list sample :=
  concat (map (fun tk => match RecorderWorker.r_read tk with
                         | RecorderWorker.Read_chunk chunk => chunk
                         | RecorderWorker.Read_error _ => []
                         end)
              ticks).

(** A window sealed on one of the iterations: its timestamp is the clock
    of that iteration and its audio is the [n] most recent samples of
    [history] followed by what was read up to and including it. *)
Definition latest_window {sample} (n : Z) (history : list sample)
           (ticks : list (RecorderWorker.real_tick sample))
           (w : RecorderWorker.sample_data sample) : Prop :=
  Z.of_nat (length (RecorderWorker.audio w)) = n
  /\ exists before tk after,
       ticks = before ++ tk :: after
       /\ RecorderWorker.timestamp w = RecorderWorker.r_now tk
       /\ RecorderWorker.audio w
          = most_recent n (history ++ chunks_read (before ++ [tk])).

(** A recorder at one sample per second, four seconds of buffer and two
    of window, about to enter the real loop. *)
Definition small_recorder : RecorderWorker.t Z :=
  RecorderWorker.Make
    (ListenerConfig.Make (-1) 1 2048 4 2 (1 # 2) 30 2 "./data/detections.db"
                         4 false (407128 # 10000) (-74006 # 1000) 8000 "0.0.0.0" "INFO")
    true small_buffer true true.

Definition reading (chunk : list Z) (second : Z) : RecorderWorker.real_tick Z :=
  RecorderWorker.Real_tick true (RecorderWorker.Read_chunk chunk) (Py.seconds second) idle.

Definition failed_read (second : Z) : RecorderWorker.real_tick Z :=
  RecorderWorker.Real_tick true (RecorderWorker.Read_error "Input overflowed")
                           (Py.seconds second) idle.

Definition two_readings : list (RecorderWorker.real_tick Z) :=
  [reading [1; 2; 3] 1; reading [4; 5; 6] 2].

(** A recorder whose buffer holds one second and whose window is two. *)
Definition short_recorder : RecorderWorker.t Z :=
  RecorderWorker.Make
    (ListenerConfig.Make (-1) 1 2048 1 2 (1 # 2) 30 2 "./data/detections.db"
                         4 false (407128 # 10000) (-74006 # 1000) 8000 "0.0.0.0" "INFO")
    true (AudioBuffer.Make 1 1 2 1 2 (Deque.Make 1 [])) true true.

(** Iterations of the analyzer loop: a window with a robin in it, the
    sentinel, and a [get] that times out. *)
Definition robin_tick : AnalyzerWorker.tick Q :=
  AnalyzerWorker.Tick true (Got_item faint_window) robin_classifier.
Definition sentinel_tick : AnalyzerWorker.tick Q :=
  AnalyzerWorker.Tick true Got_None unused_classifier.
Definition timeout_tick : AnalyzerWorker.tick Q :=
  AnalyzerWorker.Tick true Got_Empty unused_classifier.

(** A row that the writer stored for a detection it dequeued on one of the
    iterations: the detection's species, confidence, capture timestamp and
    details, and the writer's location. *)
Definition from_detection (self : DbWriterWorker.t) (ticks : list DbWriterWorker.tick)
           (r : DetectionDatabase.row) : Prop :=
  exists tk d,
    In tk ticks /\ DbWriterWorker.get tk = Got_item d
    /\ DetectionDatabase.species r = AnalyzerWorker.species d
    /\ DetectionDatabase.confidence r = AnalyzerWorker.confidence d
    /\ DetectionDatabase.timestamp r = AnalyzerWorker.timestamp d
    /\ DetectionDatabase.details r = Some (AnalyzerWorker.detection_details d)
    /\ DetectionDatabase.latitude r = Some (DbWriterWorker.lat self)
    /\ DetectionDatabase.longitude r = Some (DbWriterWorker.lon self).

(** A queue with room for [n] more items. *)
Definition room {A} (q : Queue.t A) (n : nat) : Prop :=
  n = 0%nat \/ Queue.maxsize q <= 0 \/ Queue.qsize q + Z.of_nat n <= Queue.maxsize q.

(** A [stop] during which no consumer takes an item from either queue,
    and one during which, for each of the [n] sentinels of the samples
    queue and for the sentinel of the detections queue, a consumer takes
    an item while the [put] waits. *)
Definition quiet (e : ListenerService.stop_env) : Prop :=
  Forall (fun c => c = idle) (ListenerService.sample_consumers e)
  /\ ListenerService.detection_consumers e = idle.

Definition attended (n : nat) (e : ListenerService.stop_env) : Prop :=
  (n <= length (ListenerService.sample_consumers e))%nat
  /\ Forall (fun c => (0 < Queue.gets c)%nat) (ListenerService.sample_consumers e)
  /\ (0 < Queue.gets (ListenerService.detection_consumers e))%nat.

(** A [stop] with every thread alive and nobody at the queues. *)
Definition quiet_stop : ListenerService.stop_env :=
  ListenerService.Stop_env all_alive None [] idle.



(** Iterations of the writer loop: a detection whose insert fails, and
    the sentinel. *)
Definition failing_insert : DbWriterWorker.tick :=
  DbWriterWorker.Tick true (Got_item (robin (9 # 10) 50)) (Py.seconds 50)
                      None (Some "database is locked").

Definition writer_sentinel : DbWriterWorker.tick :=
  DbWriterWorker.Tick true Got_None 0 None None.

(** The sum of a list of counts. *)
Definition total (counts : list Z) : Z := foldr Z.add 0 counts.

(** A store with three robins and two jays, captured over two days. *)
Definition sighting (id : Z) (species : string) (confidence : Q) (second : Z)
  : DetectionDatabase.row :=
  DetectionDatabase.Row id species confidence (Py.seconds second)
                        (Some (407128 # 10000)) (Some (-74006 # 1000))
                        (Some (AnalyzerWorker.Details 0 3)).

Definition two_day_store : DetectionDatabase.t :=
  DetectionDatabase.Make
    [sighting 1 "Turdus migratorius" (8 # 10) 100;
     sighting 2 "Cyanocitta cristata" (7 # 10) 200;
     sighting 3 "Turdus migratorius" (9 # 10) 4000;
     sighting 4 "Cyanocitta cristata" (6 # 10) 90000;
     sighting 5 "Turdus migratorius" (7 # 10) 90100]
    5.

(** * Properties *)

(** ** The sliding-window buffer *)

Section BufferProperties.
Context {sample : Type}.
Implicit Types (d : Deque.t sample) (l k : list sample) (x : sample).
Implicit Types (self : AudioBuffer.t sample).

Lemma most_recent_length l (n : Z) :
  0 <= n -> Z.of_nat (length (most_recent n l)) = Z.min (Z.of_nat (length l)) n.
Proof. intros Hn. unfold most_recent. rewrite length_drop. lia. Qed.

Lemma most_recent_all l (n : Z) :
  Z.of_nat (length l) <= n -> most_recent n l = l.
Proof.
  intros Hn. unfold most_recent.
  replace (length l - Z.to_nat n)%nat with 0%nat by lia. reflexivity.
Qed.

Lemma most_recent_app l k (n : Z) :
  most_recent n (most_recent n l ++ k) = most_recent n (l ++ k).
Proof.
  unfold most_recent. rewrite !length_app, length_drop.
  destruct (decide (length l <= Z.to_nat n)%nat) as [Hle|Hgt].
  - replace (length l - Z.to_nat n)%nat with 0%nat by lia.
    rewrite Nat.sub_0_r. reflexivity.
  - set (m := (length l - Z.to_nat n)%nat).
    assert (Hl : l ++ k = take m l ++ (drop m l ++ k))
      by (rewrite app_assoc, take_drop; reflexivity).
    assert (Hm : length (take m l) = m) by (rewrite length_take; lia).
    rewrite Hl. rewrite (drop_app_ge (take m l)) by lia.
    f_equal. lia.
Qed.

(** One [append] keeps exactly the newest [maxlen] items. *)
Lemma append_most_recent d x :
  0 <= Deque.maxlen d -> Deque.len d <= Deque.maxlen d ->
  Deque.items (Deque.append d x) = most_recent (Deque.maxlen d) (Deque.items d ++ [x]).
Proof.
  unfold Deque.len, Deque.append, most_recent. intros Hm Hlen. simpl.
  rewrite length_app. simpl.
  destruct (Z.ltb_spec (Deque.maxlen d) (Z.of_nat (length (Deque.items d) + 1))).
  - replace (length (Deque.items d) + 1 - Z.to_nat (Deque.maxlen d))%nat
      with 1%nat by lia.
    destruct (Deque.items d); reflexivity.
  - replace (length (Deque.items d) + 1 - Z.to_nat (Deque.maxlen d))%nat
      with 0%nat by lia.
    reflexivity.
Qed.

Lemma append_maxlen d x : Deque.maxlen (Deque.append d x) = Deque.maxlen d.
Proof. reflexivity. Qed.

(** The loop of [add_chunk], by induction on the chunk. *)
Lemma fold_append_most_recent chunk : forall d,
  0 <= Deque.maxlen d -> Deque.len d <= Deque.maxlen d ->
  Deque.maxlen (fold_left Deque.append chunk d) = Deque.maxlen d
  /\ Deque.items (fold_left Deque.append chunk d)
     = most_recent (Deque.maxlen d) (Deque.items d ++ chunk).
Proof.
  induction chunk as [|x chunk IH]; intros d Hm Hlen; simpl.
  - split; [reflexivity|]. rewrite app_nil_r, most_recent_all; [reflexivity|].
    exact Hlen.
  - destruct (IH (Deque.append d x)) as [IHm IHi].
    + rewrite append_maxlen. exact Hm.
    + unfold Deque.len. rewrite append_most_recent, append_maxlen by assumption.
      rewrite most_recent_length by assumption. lia.
    + rewrite IHm, IHi, append_maxlen. split; [reflexivity|].
      rewrite append_most_recent by assumption.
      rewrite most_recent_app, <- app_assoc. reflexivity.
Qed.

Lemma add_chunk_most_recent self chunk :
  AudioBuffer.wf self ->
  AudioBuffer.wf (AudioBuffer.add_chunk self chunk)
  /\ AudioBuffer.buffer_size (AudioBuffer.add_chunk self chunk)
     = AudioBuffer.buffer_size self
  /\ Deque.items (AudioBuffer.buffer (AudioBuffer.add_chunk self chunk))
     = most_recent (AudioBuffer.buffer_size self)
                   (Deque.items (AudioBuffer.buffer self) ++ chunk).
Proof.
  intros (Hmax & Hpos & Hlen).
  destruct (fold_append_most_recent chunk (AudioBuffer.buffer self)) as [Hm Hi];
    [lia | lia |].
  unfold AudioBuffer.wf, AudioBuffer.add_chunk, Deque.len. simpl.
  rewrite Hm, Hi, Hmax. repeat split; try lia.
  rewrite most_recent_length by lia. lia.
Qed.

Lemma add_chunks_most_recent chunks : forall self,
  AudioBuffer.wf self ->
  AudioBuffer.wf (AudioBuffer.add_chunks self chunks)
  /\ AudioBuffer.buffer_size (AudioBuffer.add_chunks self chunks)
     = AudioBuffer.buffer_size self
  /\ Deque.items (AudioBuffer.buffer (AudioBuffer.add_chunks self chunks))
     = most_recent (AudioBuffer.buffer_size self)
                   (Deque.items (AudioBuffer.buffer self) ++ concat chunks).
Proof.
  induction chunks as [|chunk chunks IH]; intros self Hwf.
  - simpl. rewrite app_nil_r, most_recent_all; [tauto | apply Hwf].
  - destruct (add_chunk_most_recent self chunk Hwf) as (Hwf1 & Hsz1 & Hi1).
    destruct (IH _ Hwf1) as (Hwf2 & Hsz2 & Hi2).
    unfold AudioBuffer.add_chunks in *. simpl.
    rewrite Hsz2, Hi2, Hsz1, Hi1, most_recent_app, app_assoc.
    repeat split; [apply Hwf2 ..].
Qed.

(** A buffer that [__init__] has built is in the expected state. *)
Lemma init_wf (sample_rate duration_seconds sample_duration : Z) self :
  AudioBuffer.__init__ sample_rate duration_seconds sample_duration = Some self ->
  AudioBuffer.wf self
  /\ AudioBuffer.buffer_size self = sample_rate * duration_seconds
  /\ AudioBuffer.sample_size self = sample_rate * sample_duration
  /\ Deque.items (AudioBuffer.buffer self) = [].
Proof.
  unfold AudioBuffer.__init__, Deque.new, AudioBuffer.wf, Deque.len.
  generalize (sample_rate * duration_seconds) (sample_rate * sample_duration).
  intros capacity window.
  destruct (Z.ltb_spec capacity 0); [discriminate|].
  intros [= <-]. simpl. repeat split; (reflexivity || lia).
Qed.

(** C2. Whatever chunks are pushed into a buffer, its occupancy stays
    within its capacity [sample_rate * duration_seconds]; what it holds
    is the stream of samples minus its oldest part, which is evicted
    first-in first-out and only by as much as the stream exceeds the
    capacity; the sample pushed last is the newest one held, and the
    pushed samples are all held when they fit. *)
Theorem add_chunks_bounded_fifo self (chunks : list (list sample)) :
  AudioBuffer.wf self ->
  let self' := AudioBuffer.add_chunks self chunks in
  let capacity := AudioBuffer.buffer_size self in
  let held := Deque.items (AudioBuffer.buffer self') in
  let stream := Deque.items (AudioBuffer.buffer self) ++ concat chunks in
  AudioBuffer.buffer_size self' = capacity
  /\ Z.of_nat (length held) <= capacity
  /\ (exists evicted,
        stream = evicted ++ held
        /\ Z.of_nat (length evicted) = Z.max 0 (Z.of_nat (length stream) - capacity))
  /\ (0 < capacity ->
      forall earlier x, concat chunks = earlier ++ [x] -> last held = Some x)
  /\ (Z.of_nat (length (concat chunks)) <= capacity ->
      concat chunks `suffix_of` held).
Proof.
  intros Hwf self' capacity held stream.
  destruct (add_chunks_most_recent chunks self Hwf) as (Hwf' & Hsz & Hheld).
  fold self' held stream capacity in Hwf', Hsz, Hheld.
  assert (Hcap : 0 <= capacity) by apply Hwf.
  assert (Hsplit : stream = take (length stream - Z.to_nat capacity) stream ++ held).
  { rewrite Hheld. unfold most_recent. symmetry. apply take_drop. }
  split; [exact Hsz|]. split.
  { rewrite Hheld, most_recent_length by exact Hcap. lia. }
  split.
  { eexists. split; [exact Hsplit|]. rewrite length_take. lia. }
  split.
  - intros Hpos earlier x Hpushed.
    assert (Hlen : (0 < length held)%nat).
    { assert (Z.of_nat (length held) = Z.min (Z.of_nat (length stream)) capacity)
        by (rewrite Hheld; apply most_recent_length; exact Hcap).
      assert (0 < length stream)%nat; [|lia].
      unfold stream. rewrite Hpushed, !length_app. simpl. lia. }
    destruct (last held) as [y|] eqn:Hlast.
    + assert (Hs : last stream = Some y).
      { rewrite Hsplit, last_app, Hlast. reflexivity. }
      unfold stream in Hs. rewrite Hpushed, app_assoc, last_snoc in Hs.
      congruence.
    + apply last_None in Hlast. rewrite Hlast in Hlen. simpl in Hlen. lia.
  - intros Hfit. rewrite Hheld. unfold most_recent, stream.
    rewrite length_app.
    exists (drop (length (Deque.items (AudioBuffer.buffer self)) + length (concat chunks)
                  - Z.to_nat capacity)
                 (Deque.items (AudioBuffer.buffer self))).
    rewrite drop_app_le by lia. reflexivity.
Qed.

(** The slice [l[-n:]] for a positive [n] within the length. *)
Lemma slice_from_most_recent l (n : Z) :
  0 < n <= Z.of_nat (length l) -> Py.slice_from (- n) l = most_recent n l.
Proof.
  intros Hn. unfold Py.slice_from, most_recent.
  destruct (Z.ltb_spec (- n) 0); [|lia]. f_equal. lia.
Qed.

(** X22. For a positive window size, [get_sample] returns a window if
    and only if the occupancy is at least the window size, and none
    below it; the window is the [sample_size] most recent samples in
    buffer order; and the buffer is left as it was. *)
Theorem get_sample_seals_most_recent self :
  0 < AudioBuffer.sample_size self ->
  let occupancy := Deque.len (AudioBuffer.buffer self) in
  let held := Deque.items (AudioBuffer.buffer self) in
  (AudioBuffer.get_sample self).1 = self
  /\ (is_Some (AudioBuffer.get_sample self).2 <-> AudioBuffer.sample_size self <= occupancy)
  /\ ((AudioBuffer.get_sample self).2 = None <-> occupancy < AudioBuffer.sample_size self)
  /\ (forall window, (AudioBuffer.get_sample self).2 = Some window ->
        window = most_recent (AudioBuffer.sample_size self) held
        /\ Z.of_nat (length window) = AudioBuffer.sample_size self
        /\ window `suffix_of` held).
Proof.
  intros Hpos occupancy held. unfold AudioBuffer.get_sample.
  fold occupancy. unfold Deque.to_list. fold held.
  destruct (Z.leb_spec (AudioBuffer.sample_size self) occupancy) as [Hle|Hlt]; simpl.
  - split; [reflexivity|]. split; [split; [lia | eauto]|].
    split; [split; [discriminate | lia]|].
    intros window [= <-].
    assert (Hn : 0 < AudioBuffer.sample_size self <= Z.of_nat (length held))
      by (unfold occupancy, Deque.len in Hle; fold held in Hle; lia).
    rewrite slice_from_most_recent by exact Hn.
    split; [reflexivity|]. split.
    + rewrite most_recent_length by lia. lia.
    + unfold most_recent. apply suffix_drop.
  - split; [reflexivity|]. split; [split; [intros [? [=]] | lia]|].
    split; [split; [lia | reflexivity]|].
    intros window [=].
Qed.
End BufferProperties.

Lemma add_chunks_bounded_fifo_witness :
  AudioBuffer.wf small_buffer
  /\ Z.of_nat (length (Deque.items (AudioBuffer.buffer
        (AudioBuffer.add_chunks small_buffer [[1; 2; 3]; [4; 5; 6]])))) <= 4
  /\ last (Deque.items (AudioBuffer.buffer
        (AudioBuffer.add_chunks small_buffer [[1; 2; 3]; [4; 5; 6]]))) = Some 6.
Proof.
  assert (Hwf : AudioBuffer.wf small_buffer)
    by (unfold AudioBuffer.wf, Deque.len; simpl; lia).
  split; [exact Hwf|].
  destruct (add_chunks_bounded_fifo small_buffer [[1; 2; 3]; [4; 5; 6]] Hwf)
    as (_ & Hbound & _ & Hlast & _).
  split; [exact Hbound|].
  apply (Hlast ltac:(simpl; lia) [1; 2; 3; 4; 5] 6). reflexivity.
Defined.

Lemma get_sample_seals_most_recent_witness :
  0 < AudioBuffer.sample_size
        (AudioBuffer.add_chunks small_buffer [[1; 2; 3]; [4; 5; 6]])
  /\ [5; 6] = most_recent 2 [3; 4; 5; 6]
  /\ Z.of_nat (length [5; 6]) = 2.
Proof.
  assert (Hpos : 0 < AudioBuffer.sample_size
                       (AudioBuffer.add_chunks small_buffer [[1; 2; 3]; [4; 5; 6]]))
    by (simpl; lia).
  split; [exact Hpos|].
  destruct (get_sample_seals_most_recent
              (AudioBuffer.add_chunks small_buffer [[1; 2; 3]; [4; 5; 6]]) Hpos)
    as (_ & _ & _ & Hwindow).
  destruct (Hwindow [5; 6] eq_refl) as (Heq & Hlen & _).
  split; [exact Heq | exact Hlen].
Defined.

(** C3, at the input where the code departs from it. With a sample
    duration of 0 the window size is 0; [get_sample] is then ready on
    every buffer, and its slice [list(self.buffer)[-0:]] is the whole
    buffer, not its last 0 samples: after three samples have been pushed
    it returns all three, where the most recent 0 of them are none. *)
Theorem get_sample_of_empty_window_returns_buffer :
  exists b : AudioBuffer.t Z,
    AudioBuffer.__init__ 48000 10 0 = Some b
    /\ AudioBuffer.sample_size b = 0
    /\ AudioBuffer.is_ready (AudioBuffer.add_chunk b [1; 2; 3]) = true
    /\ (AudioBuffer.get_sample (AudioBuffer.add_chunk b [1; 2; 3])).2 = Some [1; 2; 3]
    /\ most_recent 0 [1; 2; 3] = []
    /\ Py.slice_from (- 0) [1; 2; 3] = [1; 2; 3].
Proof. eexists. repeat split. Qed.
(** ** Backpressure on the windows queue *)

Section QueueProperties.
Context {A : Type}.
Implicit Types (q : Queue.t A) (x : A) (c : Queue.consumers).

Lemma full_iff q :
  Queue.full q = true <-> 0 < Queue.maxsize q <= Queue.qsize q.
Proof.
  unfold Queue.full. rewrite andb_true_iff, Z.ltb_lt, Z.leb_le. reflexivity.
Qed.

Lemma not_full_iff q :
  Queue.full q = false <-> Queue.maxsize q <= 0 \/ Queue.qsize q < Queue.maxsize q.
Proof.
  rewrite <- not_true_iff_false, full_iff. lia.
Qed.

(** The default [put] has two outcomes only. *)
Lemma put_default_cases q x :
  (Queue.full q = true /\ Queue.put q x true None = Queue.Put_blocked)
  \/ (Queue.full q = false
      /\ Queue.put q x true None
         = Queue.Put_done (Queue.Make (Queue.maxsize q) (Queue.items q ++ [x]))).
Proof. unfold Queue.put. destruct (Queue.full q); auto. Qed.

Lemma take_qsize n q : Queue.qsize (Queue.take n q) <= Queue.qsize q.
Proof. unfold Queue.qsize, Queue.take. simpl. rewrite length_drop. lia. Qed.

Lemma take_nothing q : Queue.take 0 q = q.
Proof. destruct q. reflexivity. Qed.

Lemma take_within_bound n q : within_bound q -> within_bound (Queue.take n q).
Proof.
  unfold within_bound. intros Hq Hmax. pose proof (take_qsize n q).
  simpl in *. specialize (Hq Hmax). lia.
Qed.

(** A blocking [put] among consumers, case by case: the queue has a free
    slot once the consumers have taken what they take; or it is full and
    nobody takes an item while the producer waits; or it is full and the
    first [get] frees the slot. *)
Lemma put_among_cases q x c :
  within_bound q ->
  let found := Queue.take (Queue.taken c) q in
  (Queue.full found = false
   /\ Queue.put_among q x c
      = (Queue.Make (Queue.maxsize q) (Queue.items found ++ [x]), true))
  \/ (Queue.full found = true /\ Queue.gets c = 0%nat
      /\ Queue.put_among q x c = (found, false))
  \/ (Queue.full found = true /\ (0 < Queue.gets c)%nat
      /\ exists head rest,
           Queue.items found = head :: rest
           /\ Queue.put_among q x c = (Queue.Make (Queue.maxsize q) (rest ++ [x]), true)).
Proof.
  intros Hbound found.
  assert (Hfound : within_bound found) by (apply take_within_bound; exact Hbound).
  unfold Queue.put_among. fold found.
  destruct (put_default_cases found x) as [[Hfull Hput]|[Hfree Hput]].
  - right. destruct (Queue.gets c) as [|g].
    + left. simpl. rewrite Hput. auto.
    + right. split; [exact Hfull|]. split; [lia|].
      apply full_iff in Hfull. unfold within_bound in Hfound.
      destruct (Queue.items found) as [|head rest] eqn:Hitems.
      { unfold Queue.qsize in Hfull. rewrite Hitems in Hfull. simpl in Hfull. lia. }
      exists head, rest. split; [reflexivity|].
      simpl. rewrite Hput. unfold Queue.get. rewrite Hitems.
      set (q' := Queue.Make (Queue.maxsize found) rest).
      assert (Hroom : Queue.full q' = false).
      { apply not_full_iff. right. unfold Queue.qsize in *. rewrite Hitems in *.
        simpl in *. lia. }
      destruct (put_default_cases q' x) as [[Hfull' _]|[_ Hput']]; [congruence|].
      destruct g; simpl; rewrite Hput'; reflexivity.
  - left. split; [exact Hfree|].
    destruct (Queue.gets c); simpl; rewrite Hput; reflexivity.
Qed.

(** What a [put] among consumers leaves behind. *)
Lemma put_among_queue q x c :
  within_bound q ->
  let '(q', returned) := Queue.put_among q x c in
  Queue.maxsize q' = Queue.maxsize q
  /\ within_bound q'
  /\ Queue.items q' `suffix_of` Queue.items q ++ (if returned then [x] else [])
  /\ (returned = false -> Queue.full q' = true /\ Queue.gets c = 0%nat)
  /\ (c = idle ->
      Queue.items q' = Queue.items q ++ (if returned then [x] else [])
      /\ (returned = true <-> Queue.full q = false)).
Proof.
  intros Hbound.
  pose proof (take_within_bound (Queue.taken c) q Hbound) as Hfound.
  assert (Hsuffix : Queue.items (Queue.take (Queue.taken c) q) `suffix_of` Queue.items q)
    by apply suffix_drop.
  destruct (put_among_cases q x c Hbound) as [[Hfree ->]|[(Hfull & Hgets & ->)|
    (Hfull & Hgets & head & rest & Hitems & ->)]].
  - split; [reflexivity|]. split.
    { apply not_full_iff in Hfree. unfold within_bound, Queue.qsize in *. simpl in *.
      rewrite length_app. simpl. lia. }
    split; [apply suffix_app; exact Hsuffix|]. split; [discriminate|].
    intros ->. change (Queue.taken idle) with 0%nat in *. rewrite take_nothing in *.
    split; [reflexivity|]. split; auto.
  - split; [reflexivity|]. split; [exact Hfound|].
    split; [rewrite app_nil_r; exact Hsuffix|]. split; [auto|].
    intros ->. change (Queue.taken idle) with 0%nat in *. rewrite take_nothing in *.
    rewrite app_nil_r. split; [reflexivity|]. split; [discriminate | congruence].
  - split; [reflexivity|]. split.
    { unfold within_bound, Queue.qsize in *. simpl in *. rewrite Hitems in Hfound.
      rewrite length_app. simpl in *. lia. }
    split.
    { apply suffix_app. etrans; [|exact Hsuffix]. rewrite Hitems.
      apply suffix_cons_r. reflexivity. }
    split; [discriminate|]. intros ->. simpl in Hgets. lia.
Qed.

(** On a queue without bound a [put] returns at once. *)
Lemma put_among_free q x c :
  Queue.maxsize q <= 0 ->
  exists q', Queue.put_among q x c = (q', true) /\ Queue.maxsize q' = Queue.maxsize q.
Proof.
  intros Hfree.
  assert (Hbound : within_bound q) by (unfold within_bound; lia).
  destruct (put_among_cases q x c Hbound) as [[_ ->]|[(Hfull & _)|(Hfull & _)]];
    [eauto | |]; apply full_iff in Hfull; simpl in Hfull; lia.
Qed.
End QueueProperties.

Section Backpressure.
Context {sample : Type}.
Implicit Types (q unbounded : RecorderWorker.samples_queue sample).
Implicit Types (o free : RecorderWorker.outcome sample).
Implicit Types (self : RecorderWorker.t sample) (w : RecorderWorker.sample_data sample).

Lemma on_queue_weaken q (I1 I2 S1 S2 : Prop) o free :
  (I2 -> I1) -> (S2 -> S1) -> on_queue q I1 S1 o free -> on_queue q I2 S2 o free.
Proof.
  intros HI HS (Hkeeps & Hmax & Hbound & Hsuffix & Hidle & Hserved).
  unfold on_queue. split; [exact Hkeeps|]. split; [exact Hmax|].
  split; [exact Hbound|]. split; [exact Hsuffix|].
  split; [intros H2; apply Hidle, HI, H2 | intros H2; apply Hserved, HS, H2].
Qed.

(** A loop that is over, or has run out of iterations. *)
Lemma on_queue_done q (q0 : RecorderWorker.samples_queue sample) (Pi Ps : Prop) self (exited : bool) :
  within_bound q ->
  on_queue q Pi Ps (RecorderWorker.Outcome self q [] None [] exited)
           (RecorderWorker.Outcome self q0 [] None [] exited).
Proof.
  intros Hbound. unfold on_queue, keeps_up. simpl. rewrite ?app_nil_r.
  split; [split; [reflexivity|]; split; [reflexivity | auto]|].
  split; [reflexivity|]. split; [exact Hbound|]. split; [reflexivity|].
  split; [|reflexivity]. intros _ _. rewrite ?take_nil, ?app_nil_r. auto.
Qed.

(** Records logged ahead of the rest of a run. *)
Lemma on_queue_log q (Pi Ps : Prop) (l : list Log.record) o free :
  on_queue q Pi Ps o free ->
  on_queue q Pi Ps (RecorderWorker.emit [] l o) (RecorderWorker.emit [] l free).
Proof.
  intros ((Hw & Hl & Hcase) & Hmax & Hbound & Hsuffix & Hidle & Hserved).
  unfold on_queue, keeps_up. simpl.
  split; [|auto].
  split; [exact Hw|]. split; [apply prefix_app; exact Hl|].
  destruct (RecorderWorker.blocked o); [exact Hcase|].
  destruct Hcase as (-> & -> & -> & ->). auto.
Qed.

(** The [put] of a window, followed by the rest of the run. *)
Lemma on_queue_put q (q0 : RecorderWorker.samples_queue sample) (c : Queue.consumers) w (l : list Log.record) self
      (rest : RecorderWorker.samples_queue sample -> RecorderWorker.outcome sample)
      (Pi Ps : Prop) :
  within_bound q -> Queue.maxsize q0 <= 0 ->
  (forall q' q0', within_bound q' -> Queue.maxsize q0' <= 0 ->
                  on_queue q' Pi Ps (rest q') (rest q0')) ->
  on_queue q (c = idle /\ Pi) ((0 < Queue.gets c)%nat /\ Ps)
    (match Queue.put_among q (Some w) c with
     | (q', true) => RecorderWorker.emit [w] l (rest q')
     | (q', false) => RecorderWorker.Outcome self q' [] (Some w) l false
     end)
    (match Queue.put_among q0 (Some w) c with
     | (q0', true) => RecorderWorker.emit [w] l (rest q0')
     | (q0', false) => RecorderWorker.Outcome self q0' [] (Some w) l false
     end).
Proof.
  intros Hbound Hfree Hrest.
  destruct (put_among_free q0 (Some w) c Hfree) as (q0' & -> & Hfree').
  rewrite <- Hfree' in Hfree.
  pose proof (put_among_queue q (Some w) c Hbound) as Hput.
  destruct (Queue.put_among q (Some w) c) as [q' [|]].
  - destruct Hput as (Hmax & Hbound' & Hsuffix & _ & Hidle).
    destruct (Hrest q' q0' Hbound' Hfree)
      as ((Hw & Hl & Hcase) & Hmax' & Hbound'' & Hsuffix' & Hidle' & Hserved').
    unfold on_queue, keeps_up. simpl.
    split; [|split; [congruence|]; split; [exact Hbound''|]; split; [|split]].
    + split; [apply prefix_cons; exact Hw|]. split; [apply prefix_app; exact Hl|].
      destruct (RecorderWorker.blocked (rest q')); [exact Hcase|].
      destruct Hcase as (-> & -> & -> & ->). auto.
    + etrans; [exact Hsuffix'|].
      change (Some w :: map Some (RecorderWorker.emitted (rest q')))
        with ([Some w] ++ map Some (RecorderWorker.emitted (rest q'))).
      rewrite app_assoc. apply suffix_app. exact Hsuffix.
    + intros [Hc HI] Hpos.
      destruct (Hidle Hc) as (Hitems & Hroom).
      assert (Hslot : Queue.full q = false) by (apply Hroom; reflexivity).
      apply not_full_iff in Hslot.
      assert (Hsize : Queue.qsize q' = Queue.qsize q + 1)
        by (unfold Queue.qsize; rewrite Hitems, length_app; simpl; lia).
      destruct (Hidle' HI) as (Hemitted & Hblocked & Hitems'); [lia|].
      rewrite Hmax, Hsize in Hemitted, Hblocked.
      replace (Z.to_nat (Queue.maxsize q - Queue.qsize q))
        with (S (Z.to_nat (Queue.maxsize q - (Queue.qsize q + 1)))) by lia.
      simpl. rewrite <- Hemitted, Hblocked, Hitems', Hitems, <- app_assoc. auto.
    + intros [_ HS]. auto.
  - destruct Hput as (Hmax & Hbound' & Hsuffix & Hfull & Hidle).
    destruct (Hfull eq_refl) as [Hfull' Hgets].
    unfold on_queue, keeps_up. simpl.
    split; [|split; [exact Hmax|]; split; [exact Hbound'|]; split; [|split]].
    + split; [apply prefix_cons, prefix_nil|].
      split; [apply prefix_app_r; reflexivity | auto].
    + exact Hsuffix.
    + intros [Hc _] Hpos.
      destruct (Hidle Hc) as (Hitems & Hroom).
      assert (Hslot : Queue.full q = true).
      { destruct (Queue.full q); [reflexivity|].
        destruct Hroom as [_ Hroom]. discriminate (Hroom eq_refl). }
      apply full_iff in Hslot. unfold within_bound in Hbound.
      replace (Z.to_nat (Queue.maxsize q - Queue.qsize q)) with 0%nat by lia.
      simpl. auto.
    + intros [Hserved _]. lia.
Qed.

Lemma mock_loop_on_queue ticks :
  forall self q (q0 : RecorderWorker.samples_queue sample) last,
    within_bound q -> Queue.maxsize q0 <= 0 ->
    on_queue q
      (Forall (fun tk => RecorderWorker.m_consumers tk = idle) ticks)
      (Forall (fun tk => (0 < Queue.gets (RecorderWorker.m_consumers tk))%nat) ticks)
      (RecorderWorker._run_mock_audio self q last ticks)
      (RecorderWorker._run_mock_audio self q0 last ticks).
Proof.
  induction ticks as [|tk ticks IH]; intros self q q0 last Hbound Hfree; simpl.
  - apply on_queue_done; exact Hbound.
  - destruct (RecorderWorker.m_running tk); simpl; [|apply on_queue_done; exact Hbound].
    assert (Hlater : forall l last',
               on_queue q
                 (Forall (fun tk => RecorderWorker.m_consumers tk = idle) (tk :: ticks))
                 (Forall (fun tk => (0 < Queue.gets (RecorderWorker.m_consumers tk))%nat)
                         (tk :: ticks))
                 (RecorderWorker.emit [] l (RecorderWorker._run_mock_audio self q last' ticks))
                 (RecorderWorker.emit [] l
                    (RecorderWorker._run_mock_audio self q0 last' ticks))).
    { intros l last'.
      eapply on_queue_weaken; [| |apply on_queue_log, IH; assumption];
        intros Hall; apply Forall_cons in Hall; apply Hall. }
    destruct (Py.elapsed_ge _ _ _).
    + destruct (RecorderWorker.m_normal tk _ _ _) as [noise|err]; [|apply Hlater].
      eapply on_queue_weaken;
        [| |apply (on_queue_put q q0 (RecorderWorker.m_consumers tk) _ [] self
                     (fun q' => RecorderWorker._run_mock_audio
                                  self q' (RecorderWorker.m_now tk) ticks));
            [exact Hbound | exact Hfree | intros; apply IH; assumption]];
        intros Hall; apply Forall_cons in Hall; exact Hall.
    + specialize (Hlater [] last).
      destruct (RecorderWorker._run_mock_audio self q last ticks),
               (RecorderWorker._run_mock_audio self q0 last ticks).
      exact Hlater.
Qed.

Lemma real_loop_on_queue ticks :
  forall self q (q0 : RecorderWorker.samples_queue sample) last,
    within_bound q -> Queue.maxsize q0 <= 0 ->
    on_queue q
      (Forall (fun tk => RecorderWorker.r_consumers tk = idle) ticks)
      (Forall (fun tk => (0 < Queue.gets (RecorderWorker.r_consumers tk))%nat) ticks)
      (RecorderWorker._run_real_audio self q last ticks)
      (RecorderWorker._run_real_audio self q0 last ticks).
Proof.
  induction ticks as [|tk ticks IH]; intros self q q0 last Hbound Hfree; simpl.
  - apply on_queue_done; exact Hbound.
  - destruct (RecorderWorker.r_running tk); simpl; [|apply on_queue_done; exact Hbound].
    assert (Hlater : forall l self' last',
               on_queue q
                 (Forall (fun tk => RecorderWorker.r_consumers tk = idle) (tk :: ticks))
                 (Forall (fun tk => (0 < Queue.gets (RecorderWorker.r_consumers tk))%nat)
                         (tk :: ticks))
                 (RecorderWorker.emit [] l
                    (RecorderWorker._run_real_audio self' q last' ticks))
                 (RecorderWorker.emit [] l
                    (RecorderWorker._run_real_audio self' q0 last' ticks))).
    { intros l self' last'.
      eapply on_queue_weaken; [| |apply on_queue_log, IH; assumption];
        intros Hall; apply Forall_cons in Hall; apply Hall. }
    destruct (RecorderWorker.r_read tk) as [chunk|err]; [|apply Hlater].
    destruct (Py.elapsed_ge _ _ _ && AudioBuffer.is_ready _); [|apply Hlater].
    destruct (AudioBuffer.get_sample _) as [buf' [audio|]]; [|apply Hlater].
    eapply on_queue_weaken;
      [| |apply (on_queue_put q q0 (RecorderWorker.r_consumers tk) _ _
                   (RecorderWorker.set_audio_buffer self buf')
                   (fun q' => RecorderWorker._run_real_audio
                                (RecorderWorker.set_audio_buffer self buf') q'
                                (RecorderWorker.r_now tk) ticks));
          [exact Hbound | exact Hfree | intros; apply IH; assumption]];
      intros Hall; apply Forall_cons in Hall; exact Hall.
Qed.

(** The [finally] clause of [run]. *)
Lemma on_queue_finally q (Pi Ps : Prop) (e : RecorderWorker.env sample) o free :
  on_queue q Pi Ps o free ->
  on_queue q Pi Ps (RecorderWorker.finally_stop e o) (RecorderWorker.finally_stop e free).
Proof.
  intros Hon. pose proof Hon as ((Hw & Hl & Hcase) & Hmax & Hbound & Hsuffix & Hidle & Hserved).
  unfold RecorderWorker.finally_stop, RecorderWorker.stop.
  destruct (RecorderWorker.blocked o) as [w|] eqn:Hblocked.
  - destruct Hcase as [Hexit Hfull]. rewrite Hexit.
    destruct (RecorderWorker.exited free); [|exact Hon].
    unfold on_queue, keeps_up.
    cbn [RecorderWorker.queue RecorderWorker.emitted RecorderWorker.blocked
         RecorderWorker.logged RecorderWorker.exited RecorderWorker.final].
    rewrite ?Hblocked.
    split; [|auto]. split; [exact Hw|]. split; [|auto].
    etrans; [exact Hl|]. apply prefix_app_r. reflexivity.
  - destruct Hcase as (Hemitted & Hlogged & Hexit & Hfinal).
    rewrite Hexit, Hfinal, Hlogged.
    destruct (RecorderWorker.exited free); [|exact Hon].
    unfold on_queue, keeps_up.
    cbn [RecorderWorker.queue RecorderWorker.emitted RecorderWorker.blocked
         RecorderWorker.logged RecorderWorker.exited RecorderWorker.final].
    rewrite ?Hblocked.
    split; [|auto]. split; [exact Hw|]. split; [reflexivity|].
    auto.
Qed.

Lemma run_on_queue self q (q0 : RecorderWorker.samples_queue sample)
      (e : RecorderWorker.env sample) :
  within_bound q -> Queue.maxsize q0 <= 0 ->
  on_queue q (stalled e) (served e)
           (RecorderWorker.run self q e) (RecorderWorker.run self q0 e).
Proof.
  intros Hbound Hfree. unfold RecorderWorker.run.
  destruct (RecorderWorker.setup_audio self (RecorderWorker.hw e))
    as [[self1 audio_available] l0].
  apply on_queue_finally.
  destruct audio_available.
  - destruct (RecorderWorker.start_error e) as [err|].
    + unfold on_queue, keeps_up. simpl. rewrite ?app_nil_r.
      split; [split; [reflexivity|]; split; [reflexivity | auto]|].
      split; [reflexivity|]. split; [exact Hbound|]. split; [reflexivity|].
      split; [|reflexivity]. intros _ _. rewrite ?take_nil, ?app_nil_r. auto.
    + eapply on_queue_weaken; [| |apply on_queue_log, real_loop_on_queue; assumption];
        intros [Hreal Hmock]; assumption.
  - eapply on_queue_weaken; [| |apply on_queue_log, mock_loop_on_queue; assumption];
      intros [Hreal Hmock]; assumption.
Qed.

(** An iteration of the real loop that seals a window while the queue
    holds its hundred items. *)
Lemma real_put_on_full_queue self q last tk ticks chunk buf' audio :
  RecorderWorker.r_running tk = true ->
  RecorderWorker.r_read tk = RecorderWorker.Read_chunk chunk ->
  Py.elapsed_ge (RecorderWorker.r_now tk) last
                (ListenerConfig.sample_duration (RecorderWorker.config self)) = true ->
  AudioBuffer.get_sample (AudioBuffer.add_chunk (RecorderWorker.audio_buffer self) chunk)
  = (buf', Some audio) ->
  Queue.maxsize q = 100 -> Queue.qsize q = 100 ->
  Queue.taken (RecorderWorker.r_consumers tk) = 0%nat ->
  let w := RecorderWorker.Sample_data
             audio (RecorderWorker.r_now tk)
             (ListenerConfig.sample_rate (RecorderWorker.config self)) None in
  let o := RecorderWorker._run_real_audio self q last (tk :: ticks) in
  (Queue.gets (RecorderWorker.r_consumers tk) = 0%nat ->
   RecorderWorker.blocked o = Some w
   /\ RecorderWorker.emitted o = []
   /\ RecorderWorker.queue o = q
   /\ RecorderWorker.exited o = false
   /\ Forall (fun r => Log.is_error r = false) (RecorderWorker.logged o))
  /\ ((0 < Queue.gets (RecorderWorker.r_consumers tk))%nat ->
      exists head rest,
        Queue.items q = head :: rest
        /\ head_of (RecorderWorker.emitted o) = Some w
        /\ (ticks = [] ->
            RecorderWorker.blocked o = None
            /\ Queue.items (RecorderWorker.queue o) = rest ++ [Some w]
            /\ Forall (fun r => Log.is_error r = false) (RecorderWorker.logged o))).
Proof.
  intros Hrun Hread Hdue Hget Hmax Hsize Htaken w o. subst o.
  assert (Hready : AudioBuffer.is_ready
                     (AudioBuffer.add_chunk (RecorderWorker.audio_buffer self) chunk)
                   = true).
  { unfold AudioBuffer.get_sample in Hget. unfold AudioBuffer.is_ready.
    destruct (_ <=? _); [reflexivity | discriminate]. }
  assert (Hbound : within_bound q) by (unfold within_bound; lia).
  assert (Hfull : Queue.full q = true) by (apply full_iff; lia).
  pose proof (put_among_cases q (Some w) (RecorderWorker.r_consumers tk) Hbound) as Hput.
  rewrite Htaken, take_nothing in Hput. cbv zeta in Hput.
  cbn [RecorderWorker._run_real_audio]. rewrite Hrun, Hread. cbn [negb].
  rewrite Hdue, Hready, Hget. cbn [andb]. fold w.
  destruct Hput as [[Hfree _]|[(_ & Hgets & ->)|(_ & Hgets & head & rest & Hitems & ->)]];
    [congruence| |].
  - split; [|lia]. intros _. simpl. repeat split. repeat constructor.
  - split; [lia|]. intros _. exists head, rest. split; [exact Hitems|].
    split; [reflexivity|]. intros ->. simpl.
    repeat split. repeat constructor.
Qed.

(** C5. The windows queue of the service has a capacity of 100, and the
    recorder's [put] on it blocks: it has neither a timeout nor an
    alternative.
    - A run of the recorder on that queue never raises or logs an error
      of the queue and never drops a window: the windows it has put,
      followed by the one it holds inside [put], are the first windows
      of the same run on a queue without bound, in order, with the same
      log; what the queue holds are windows of the run, at most 100.
    - With a stalled analysis pool the first 100 windows are enqueued
      and the loop stays inside the [put] of the 101st.
    - With consumers that take an item while a [put] waits, no [put]
      stays blocked.
    - In the real loop, an iteration that seals a window while the queue
      holds 100 items stays inside [put] with that window, the queue
      untouched and no error logged, if no consumer takes an item; once
      one does, the window goes to the tail of the queue and the loop
      goes on. *)
Theorem recorder_put_blocks_until_slot config db lib (svc : ListenerService.t sample)
        (e : RecorderWorker.env sample) :
  ListenerService.__init__ config db lib = Some svc ->
  let q := ListenerService.samples_queue svc in
  let o := RecorderWorker.run (ListenerService.recorder svc) q e in
  let free := RecorderWorker.run (ListenerService.recorder svc) (Queue.new 0) e in
  (Queue.maxsize q = 100 /\ Queue.items q = [])
  /\ keeps_up o free
  /\ Queue.maxsize (RecorderWorker.queue o) = 100
  /\ Queue.qsize (RecorderWorker.queue o) <= 100
  /\ Queue.items (RecorderWorker.queue o) `suffix_of` map Some (RecorderWorker.emitted o)
  /\ (stalled e ->
      RecorderWorker.emitted o = take 100 (RecorderWorker.emitted free)
      /\ RecorderWorker.blocked o = RecorderWorker.emitted free !! 100%nat
      /\ Queue.items (RecorderWorker.queue o) = map Some (RecorderWorker.emitted o))
  /\ (served e -> RecorderWorker.blocked o = None)
  /\ (forall self (full_queue : RecorderWorker.samples_queue sample)
             last tk ticks chunk buf' audio,
        RecorderWorker.r_running tk = true ->
        RecorderWorker.r_read tk = RecorderWorker.Read_chunk chunk ->
        Py.elapsed_ge (RecorderWorker.r_now tk) last
                      (ListenerConfig.sample_duration (RecorderWorker.config self))
        = true ->
        AudioBuffer.get_sample
          (AudioBuffer.add_chunk (RecorderWorker.audio_buffer self) chunk)
        = (buf', Some audio) ->
        Queue.maxsize full_queue = 100 -> Queue.qsize full_queue = 100 ->
        Queue.taken (RecorderWorker.r_consumers tk) = 0%nat ->
        let w := RecorderWorker.Sample_data
                   audio (RecorderWorker.r_now tk)
                   (ListenerConfig.sample_rate (RecorderWorker.config self)) None in
        let o := RecorderWorker._run_real_audio self full_queue last (tk :: ticks) in
        (Queue.gets (RecorderWorker.r_consumers tk) = 0%nat ->
         RecorderWorker.blocked o = Some w
         /\ RecorderWorker.emitted o = []
         /\ RecorderWorker.queue o = full_queue
         /\ RecorderWorker.exited o = false
         /\ Forall (fun r => Log.is_error r = false) (RecorderWorker.logged o))
        /\ ((0 < Queue.gets (RecorderWorker.r_consumers tk))%nat ->
            exists head rest,
              Queue.items full_queue = head :: rest
              /\ head_of (RecorderWorker.emitted o) = Some w
              /\ (ticks = [] ->
                  RecorderWorker.blocked o = None
                  /\ Queue.items (RecorderWorker.queue o) = rest ++ [Some w]
                  /\ Forall (fun r => Log.is_error r = false)
                            (RecorderWorker.logged o)))).
Proof.
  intros Hinit q o free.
  assert (Hq : q = Queue.new 100).
  { subst q. unfold ListenerService.__init__ in Hinit.
    destruct (RecorderWorker.__init__ config); [|discriminate].
    injection Hinit as <-. reflexivity. }
  subst o free. rewrite Hq.
  assert (Hbound : within_bound (Queue.new (A := option (RecorderWorker.sample_data sample))
                                           100))
    by (unfold within_bound, Queue.new, Queue.qsize; simpl; lia).
  destruct (run_on_queue (ListenerService.recorder svc) (Queue.new 100) (Queue.new 0) e
                         Hbound ltac:(reflexivity))
    as (Hkeeps & Hmax & Hwithin & Hsuffix & Hidle & Hserved).
  change (Queue.maxsize (Queue.new 100)) with 100 in Hmax.
  split; [split; reflexivity|]. split; [exact Hkeeps|]. split; [exact Hmax|].
  split; [unfold within_bound in Hwithin; rewrite Hmax in Hwithin; lia|].
  split; [exact Hsuffix|]. split; [intros Hstalled; apply Hidle; [exact Hstalled|]; reflexivity|].
  split; [exact Hserved|].
  intros self full_queue last tk ticks chunk buf' audio.
  apply real_put_on_full_queue.
Qed.
End Backpressure.

Lemma recorder_put_blocks_until_slot_witness :
  exists svc,
    small_service = Some svc
    /\ RecorderWorker.blocked
         (RecorderWorker.run (ListenerService.recorder svc)
                             (ListenerService.samples_queue svc) stalled_synthetic_run)
       = Some (RecorderWorker.Sample_data [0; 0; 0; 0; 0] (Py.seconds 505) 1 (Some true))
    /\ RecorderWorker.blocked
         (RecorderWorker.run (ListenerService.recorder svc)
                             (ListenerService.samples_queue svc) stalled_real_run)
       = Some (RecorderWorker.Sample_data [100; 100; 100; 100; 100] (Py.seconds 505) 1 None)
    /\ Queue.qsize
         (RecorderWorker.queue
            (RecorderWorker.run (ListenerService.recorder svc)
                                (ListenerService.samples_queue svc) stalled_real_run))
       = 100.
Proof.
  destruct small_service as [svc|] eqn:Hsvc; [|vm_compute in Hsvc; discriminate Hsvc].
  exists svc. split; [reflexivity|].
  destruct (recorder_put_blocks_until_slot _ _ _ svc stalled_synthetic_run Hsvc)
    as (_ & _ & _ & _ & _ & Hsynthetic & _).
  destruct (recorder_put_blocks_until_slot _ _ _ svc stalled_real_run Hsvc)
    as (_ & _ & _ & _ & _ & Hreal & _).
  destruct Hsynthetic as (_ & -> & _).
  { split; apply Forall_forall; intros tk Hin; apply list_elem_of_In in Hin;
      [destruct Hin | apply in_map_iff in Hin; destruct Hin as (i & <- & _); reflexivity]. }
  destruct Hreal as (_ & -> & Hitems).
  { split; apply Forall_forall; intros tk Hin; apply list_elem_of_In in Hin;
      [apply in_map_iff in Hin; destruct Hin as (i & <- & _); reflexivity | destruct Hin]. }
  unfold Queue.qsize. rewrite Hitems.
  vm_compute in Hsvc. injection Hsvc as <-. vm_compute. auto.
Defined.
(** ** The capture stage *)

Section CaptureProperties.
Context {sample : Type}.
Implicit Types (self : RecorderWorker.t sample) (q : RecorderWorker.samples_queue sample).

Lemma synthetic_window_later config (tk : RecorderWorker.mock_tick sample) ticks w :
  synthetic_window config ticks w -> synthetic_window config (tk :: ticks) w.
Proof.
  intros (Hmark & Hrate & tk' & Hin & Hts & Haudio).
  repeat split; try assumption. exists tk'. repeat split; try assumption. now right.
Qed.

(** The synthetic loop, by induction on its iterations. *)
Lemma mock_loop_windows ticks : forall self q last,
  let o := RecorderWorker._run_mock_audio self q last ticks in
  Forall (synthetic_window (RecorderWorker.config self) ticks) (sealed o)
  /\ paced (Py.seconds (ListenerConfig.sample_duration (RecorderWorker.config self)))
           last (map RecorderWorker.timestamp (sealed o))
  /\ Forall (fun r => ~ recorder_failed r) (RecorderWorker.logged o)
  /\ RecorderWorker.final o = self.
Proof.
  induction ticks as [|tk ticks IH]; intros self q last; simpl.
  - repeat split; constructor.
  - destruct (RecorderWorker.m_running tk); simpl; [|repeat split; constructor].
    unfold Py.elapsed_ge.
    destruct (Z.leb_spec
                (Py.seconds (ListenerConfig.sample_duration (RecorderWorker.config self)))
                (RecorderWorker.m_now tk - last)) as [Hdue|Hearly].
    + destruct (RecorderWorker.m_normal tk 0%Q (1 # 100)%Q _) as [noise|e] eqn:Hdraw.
      * assert (Hnew : synthetic_window
                         (RecorderWorker.config self) (tk :: ticks)
                         (RecorderWorker.Sample_data
                            noise (RecorderWorker.m_now tk)
                            (ListenerConfig.sample_rate (RecorderWorker.config self))
                            (Some true))).
        { repeat split. exists tk. repeat split; [now left | exact Hdraw]. }
        destruct (Queue.put_among q _ (RecorderWorker.m_consumers tk)) as [q' [|]].
        -- destruct (IH self q' (RecorderWorker.m_now tk)) as (Hw & Hp & Hl & Hf).
           unfold sealed in *. simpl. repeat split; try assumption.
           constructor; [exact Hnew|].
           eapply Forall_impl; [exact Hw|]. intros w. apply synthetic_window_later.
        -- unfold sealed. simpl.
           split; [constructor; [exact Hnew | constructor]|].
           split; [split; [exact Hdue | exact I]|]. split; [constructor | reflexivity].
      * destruct (IH self q last) as (Hw & Hp & Hl & Hf).
        unfold sealed in *. simpl. repeat split; try assumption.
        -- eapply Forall_impl; [exact Hw|]. intros w. apply synthetic_window_later.
        -- constructor; [discriminate | exact Hl].
    + destruct (IH self q last) as (Hw & Hp & Hl & Hf).
      repeat split; try assumption.
      eapply Forall_impl; [exact Hw|]. intros w. apply synthetic_window_later.
Qed.

(** The real loop, by induction on its iterations. *)
Lemma real_loop_windows ticks : forall self q last,
  let o := RecorderWorker._run_real_audio self q last ticks in
  Forall (real_window (RecorderWorker.config self)) (sealed o)
  /\ paced (Py.seconds (ListenerConfig.sample_duration (RecorderWorker.config self)))
           last (map RecorderWorker.timestamp (sealed o)).
Proof.
  induction ticks as [|tk ticks IH]; intros self q last; simpl.
  - split; constructor.
  - destruct (RecorderWorker.r_running tk); simpl; [|split; constructor].
    destruct (RecorderWorker.r_read tk) as [chunk|e]; simpl; [|apply IH].
    unfold Py.elapsed_ge.
    destruct (Z.leb_spec
                (Py.seconds (ListenerConfig.sample_duration (RecorderWorker.config self)))
                (RecorderWorker.r_now tk - last)) as [Hdue|Hearly]; simpl.
    + destruct (AudioBuffer.is_ready _); simpl.
      * destruct (AudioBuffer.get_sample _) as [buf' [window|]]; simpl.
        -- destruct (Queue.put_among q _ (RecorderWorker.r_consumers tk)) as [q' [|]].
           ++ destruct (IH (RecorderWorker.set_audio_buffer self buf') q'
                           (RecorderWorker.r_now tk)) as (Hw & Hp).
              unfold sealed in *. simpl.
              split; [constructor; [split; reflexivity | exact Hw] | split; assumption].
           ++ unfold sealed. simpl.
              split; [repeat constructor | split; [assumption | constructor]].
        -- apply (IH (RecorderWorker.set_audio_buffer self buf') q last).
      * apply (IH (RecorderWorker.set_audio_buffer self _) q last).
    + apply (IH (RecorderWorker.set_audio_buffer self _) q last).
Qed.

(** In the synthetic loop, no iteration that runs to its end leaves an
    interval or more behind the latest window. *)
Lemma mock_loop_cadence before : forall self q last tk,
  let o := RecorderWorker._run_mock_audio self q last (before ++ [tk]) in
  Forall (generates (RecorderWorker.config self)) (before ++ [tk]) ->
  RecorderWorker.blocked o = None ->
  let since := RecorderWorker.m_now tk - latest last (RecorderWorker.emitted o) in
  since = 0
  \/ since < Py.seconds (ListenerConfig.sample_duration (RecorderWorker.config self)).
Proof.
  induction before as [|t before IH]; intros self q last tk; simpl;
    intros Hall; apply Forall_cons in Hall; destruct Hall as [[Hrun [noise Hdraw]] Hall];
    rewrite Hrun; simpl; unfold Py.elapsed_ge;
    match goal with
    | |- context [Py.seconds ?d <=? ?n - last] =>
        destruct (Z.leb_spec (Py.seconds d) (n - last)) as [Hdue|Hearly]
    end.
  - rewrite Hdraw.
    destruct (Queue.put_among q _ (RecorderWorker.m_consumers tk)) as [q' [|]]; simpl;
      [intros _; left; lia | discriminate].
  - simpl. intros _. right. exact Hearly.
  - rewrite Hdraw.
    destruct (Queue.put_among q _ (RecorderWorker.m_consumers t)) as [q' [|]]; simpl;
      [|discriminate].
    apply (IH self q' (RecorderWorker.m_now t) tk Hall).
  - apply (IH self q last tk Hall).
Qed.

(** C8, as the code has it. [run] falls back on synthetic audio when
    [setup_audio] fails, and only then.  In that case it logs no failure
    of the worker and enters the synthetic loop; every window it seals
    there carries [is_mock = True] and holds noise drawn with mean 0 and
    deviation 0.01; the windows are at least [sample_duration] seconds
    apart, as in the real loop, and as long as the loop runs (the flag
    set, the generator answering, no [put] blocked) no iteration ends an
    interval or more after the latest window.  The windows of the real
    loop carry no [is_mock] key.  When the stream has been opened but
    [start_stream] raises, there is no fallback: no window is sealed, the
    failure of the worker is logged and [run] is over. *)
Theorem synthetic_windows_are_marked self q (e : RecorderWorker.env sample) :
  let o := RecorderWorker.run self q e in
  let config := RecorderWorker.config self in
  let interval := Py.seconds (ListenerConfig.sample_duration config) in
  paced interval (RecorderWorker.started_at e) (map RecorderWorker.timestamp (sealed o))
  /\ match RecorderWorker.hw e with
     | RecorderWorker.Audio_error _ _ =>
         Forall (fun r => ~ recorder_failed r) (RecorderWorker.logged o)
         /\ In (Log.info "Starting in mock mode" []) (RecorderWorker.logged o)
         /\ Forall (synthetic_window config (RecorderWorker.mock_ticks e)) (sealed o)
         /\ (forall before tk,
               RecorderWorker.mock_ticks e = before ++ [tk] ->
               Forall (generates config) (RecorderWorker.mock_ticks e) ->
               RecorderWorker.blocked o = None ->
               let since :=
                 RecorderWorker.m_now tk
                 - latest (RecorderWorker.started_at e) (RecorderWorker.emitted o) in
               since = 0 \/ since < interval)
     | RecorderWorker.Audio_ok _ =>
         match RecorderWorker.start_error e with
         | Some err =>
             sealed o = []
             /\ In (Log.error "Recorder worker failed: {}" [Log.Str err])
                   (RecorderWorker.logged o)
             /\ ~ In (Log.info "Starting in mock mode" []) (RecorderWorker.logged o)
             /\ RecorderWorker.exited o = true
         | None => Forall (real_window config) (sealed o)
         end
     end.
Proof.
  intros o config interval. subst o.
  assert (Hstopped : forall stream,
             Forall (fun r => ~ recorder_failed r)
                    ((if stream : bool then
                        match RecorderWorker.close_error e with
                        | Some e0 => [Log.error "Error closing stream: {}" [Log.Str e0]]
                        | None => []
                        end
                      else []) ++ [Log.info "Recording stopped" []])).
  { intros [|]; [destruct (RecorderWorker.close_error e)|];
      repeat constructor; discriminate. }
  unfold RecorderWorker.run, RecorderWorker.finally_stop, RecorderWorker.stop.
  destruct (RecorderWorker.hw e) as [name|p_created err]; simpl.
  - destruct (RecorderWorker.start_error e) as [err|]; simpl.
    + split; [constructor|]. split; [reflexivity|].
      split; [do 2 right; now left|].
      split; [|reflexivity].
      destruct (RecorderWorker.close_error e); simpl; intros Hin;
        repeat (destruct Hin as [Hin|Hin]; [discriminate|]); exact Hin.
    + match goal with
      | |- context [RecorderWorker._run_real_audio ?s ?qq ?l ?t] =>
          destruct (real_loop_windows t s qq l) as (Hw & Hp);
          destruct (RecorderWorker._run_real_audio s qq l t) as [f qf ws b ls ex]
      end.
      unfold sealed in *. simpl in *. destruct ex; simpl; split; assumption.
  - match goal with
    | |- context [RecorderWorker._run_mock_audio ?s ?qq ?l ?t] =>
        destruct (mock_loop_windows t s qq l) as (Hw & Hp & Hl & _);
        pose proof (fun before tk => mock_loop_cadence before s qq l tk) as Hlive;
        destruct (RecorderWorker._run_mock_audio s qq l t) as [f qf ws b ls ex] eqn:Hloop
    end.
    unfold sealed in *. simpl in *.
    assert (Hcadence : forall before tk,
               RecorderWorker.mock_ticks e = before ++ [tk] ->
               Forall (generates config) (RecorderWorker.mock_ticks e) ->
               b = None ->
               RecorderWorker.m_now tk - latest (RecorderWorker.started_at e) ws = 0
               \/ RecorderWorker.m_now tk - latest (RecorderWorker.started_at e) ws
                  < interval).
    { intros before tk Hticks Hall Hb. specialize (Hlive before tk).
      rewrite <- Hticks, Hloop in Hlive. simpl in Hlive. apply Hlive; assumption. }
    destruct ex; simpl.
    + split; [exact Hp|]. split; [|split; [|split; [exact Hw | exact Hcadence]]].
      * repeat (constructor; [discriminate|]).
        apply Forall_app. split; [exact Hl | apply Hstopped].
      * do 2 right. now left.
    + split; [exact Hp|]. split; [|split; [|split; [exact Hw | exact Hcadence]]].
      * repeat (constructor; [discriminate|]). exact Hl.
      * do 2 right. now left.
Qed.
End CaptureProperties.

Lemma synthetic_windows_are_marked_witness :
  RecorderWorker.emitted (RecorderWorker.run silent_recorder (Queue.new 100) without_device)
  = [RecorderWorker.Sample_data [0; 0; 0; 0; 0] (Py.seconds 5) 1 (Some true)]
  /\ (RecorderWorker.m_now synthetic_iteration
      - latest 0 (RecorderWorker.emitted
                    (RecorderWorker.run silent_recorder (Queue.new 100) without_device))
      = 0
      \/ RecorderWorker.m_now synthetic_iteration
         - latest 0 (RecorderWorker.emitted
                       (RecorderWorker.run silent_recorder (Queue.new 100) without_device))
         < Py.seconds 5).
Proof.
  split; [reflexivity|].
  destruct (synthetic_windows_are_marked silent_recorder (Queue.new 100) without_device)
    as (_ & _ & _ & _ & Hlive).
  apply (Hlive [] synthetic_iteration).
  - reflexivity.
  - repeat constructor. exists [0; 0; 0; 0; 0]. reflexivity.
  - reflexivity.
Defined.

(** C8, as stated, at a run whose audio source turns out to be
    unavailable when the stream is started: [setup_audio] has opened the
    stream, [start_stream] raises, and [run] logs the failure of the
    worker and stops; no synthetic window is sealed although an iteration
    of the synthetic loop would have been due. *)
Lemma failed_start_has_no_fallback :
  sealed (RecorderWorker.run silent_recorder (Queue.new 100) failed_start) = []
  /\ RecorderWorker.logged (RecorderWorker.run silent_recorder (Queue.new 100) failed_start)
     = [Log.info "Recording from: {}" [Log.Str "default"];
        Log.info "Audio stream created successfully" [];
        Log.error "Recorder worker failed: {}" [Log.Str "Unanticipated host error"];
        Log.info "Recording stopped" []]
  /\ RecorderWorker.exited (RecorderWorker.run silent_recorder (Queue.new 100) failed_start)
     = true
  /\ sealed (RecorderWorker.run silent_recorder (Queue.new 100) without_device)
     = [RecorderWorker.Sample_data [0; 0; 0; 0; 0] (Py.seconds 5) 1 (Some true)].
Proof. repeat split. Qed.
(** ** Coordinated shutdown *)

Section ShutdownProperties.
Context {sample : Type}.
Implicit Types (self : ListenerService.t sample).
Implicit Types (q : RecorderWorker.samples_queue sample).

Lemma suffix_qsize {A} (q q' : Queue.t A) (l : list A) :
  Queue.items q' `suffix_of` Queue.items q ++ l ->
  Queue.qsize q' <= Queue.qsize q + Z.of_nat (length l).
Proof.
  intros Hsuffix. apply suffix_length in Hsuffix. rewrite length_app in Hsuffix.
  unfold Queue.qsize. lia.
Qed.

(** The loop over the analyzers: what it leaves when it comes to its
    end, what it leaves when it stays inside a [put], and when it does
    which. *)
Lemma stop_analyzers_spec analyzers : forall q (consumers : list Queue.consumers),
  within_bound q ->
  let '(analyzers', q', over) := ListenerService.stop_analyzers analyzers q consumers in
  length analyzers' = length analyzers
  /\ Queue.maxsize q' = Queue.maxsize q
  /\ within_bound q'
  /\ (over = true ->
      analyzers' = map AnalyzerWorker.stop analyzers
      /\ Queue.items q' `suffix_of` Queue.items q ++ repeat None (length analyzers))
  /\ (over = false ->
      Queue.full q' = true
      /\ exists stopped rest,
           analyzers = stopped ++ rest /\ stopped <> []
           /\ analyzers' = map AnalyzerWorker.stop stopped ++ rest)
  /\ (Forall (fun c => c = idle) consumers ->
      (over = true <-> room q (length analyzers))
      /\ (over = true ->
          Queue.items q' = Queue.items q ++ repeat None (length analyzers)))
  /\ ((length analyzers <= length consumers)%nat ->
      Forall (fun c => (0 < Queue.gets c)%nat) consumers -> over = true)
  /\ (room q (length analyzers) -> over = true).
Proof.
  induction analyzers as [|a rest IH]; intros q consumers Hbound; simpl.
  { rewrite app_nil_r. unfold room.
    repeat split; try reflexivity; try assumption; try discriminate; auto. }
  set (c := hd (Queue.Consumers 0 0) consumers).
  pose proof (put_among_queue q None c Hbound) as Hput.
  destruct (Queue.put_among q None c) as [q1 [|]].
  - destruct Hput as (Hmax1 & Hbound1 & Hsuffix1 & _ & Hidle1).
    specialize (IH q1 (tl consumers) Hbound1).
    destruct (ListenerService.stop_analyzers rest q1 (tl consumers))
      as [[rest' q2] over].
    destruct IH as (Hlen & Hmax & Hbound2 & Hover & Hinside & Hidle & Hserved & Hroom).
    pose proof (suffix_qsize _ _ _ Hsuffix1) as Hsize1. simpl in Hsize1.
    split; [simpl; congruence|]. split; [congruence|]. split; [exact Hbound2|].
    split; [|split; [|split; [|split]]].
    + intros Hx. destruct (Hover Hx) as [-> Hsuffix]. split; [reflexivity|].
      etrans; [exact Hsuffix|].
      change (None :: repeat None (length rest))
        with ([None] ++ repeat (@None (RecorderWorker.sample_data sample)) (length rest)).
      rewrite app_assoc. apply suffix_app. exact Hsuffix1.
    + intros Hx. destruct (Hinside Hx) as (Hfull & stopped & rest0 & -> & Hne & ->).
      split; [exact Hfull|]. exists (a :: stopped), rest0.
      split; [reflexivity|]. split; [discriminate | reflexivity].
    + intros Hall.
      assert (Hc : c = idle) by (subst c; destruct Hall; [reflexivity | assumption]).
      assert (Htl : Forall (fun c => c = idle) (tl consumers))
        by (destruct Hall; [constructor | assumption]).
      destruct (Hidle1 Hc) as (Hitems1 & Hslot).
      assert (Hfree : Queue.full q = false) by (apply Hslot; reflexivity).
      apply not_full_iff in Hfree.
      assert (Hsize : Queue.qsize q1 = Queue.qsize q + 1)
        by (unfold Queue.qsize; rewrite Hitems1, length_app; simpl; lia).
      destruct (Hidle Htl) as (Hiff & Hitems). split.
      * rewrite Hiff. unfold room. rewrite Hmax1, Hsize. lia.
      * intros Hx. rewrite (Hitems Hx), Hitems1, <- app_assoc. reflexivity.
    + intros Hlen' Hall. apply Hserved.
      * destruct consumers; simpl in *; lia.
      * destruct Hall; [constructor | assumption].
    + intros Hr. apply Hroom. unfold room in *. rewrite Hmax1. lia.
  - destruct Hput as (Hmax1 & Hbound1 & Hsuffix1 & Hblocked & Hidle1).
    destruct (Hblocked eq_refl) as [Hfull Hgets].
    pose proof (suffix_qsize _ _ _ Hsuffix1) as Hsize1. simpl in Hsize1.
    split; [reflexivity|]. split; [exact Hmax1|]. split; [exact Hbound1|].
    split; [discriminate|]. split; [|split; [|split]].
    + intros _. split; [exact Hfull|]. exists [a], rest.
      split; [reflexivity|]. split; [discriminate | reflexivity].
    + intros Hall.
      assert (Hc : c = idle) by (subst c; destruct Hall; [reflexivity | assumption]).
      destruct (Hidle1 Hc) as (_ & Hslot).
      assert (Hq : Queue.full q = true).
      { destruct (Queue.full q); [reflexivity|].
        destruct Hslot as [_ Hslot]. discriminate (Hslot eq_refl). }
      apply full_iff in Hq. split; [|discriminate].
      split; [discriminate|]. unfold room. lia.
    + intros Hlen' Hall. exfalso.
      destruct consumers as [|c0 consumers']; simpl in *; [lia|].
      apply Forall_cons in Hall. destruct Hall as [Hpos _]. subst c. lia.
    + intros Hr. exfalso. apply full_iff in Hfull. unfold room in Hr.
      rewrite Hmax1 in Hfull. lia.
Qed.

Lemma joined_iff is_alive threads th timeout :
  In (th, timeout) (ListenerService.joined is_alive threads)
  <-> In th threads /\ ListenerService.daemon th = false
      /\ is_alive th = true /\ timeout = 5.
Proof.
  unfold ListenerService.joined. rewrite in_map_iff. split.
  - intros (th' & [= -> <-] & Hin). apply filter_In in Hin.
    destruct Hin as [Hin Hb]. apply andb_true_iff in Hb.
    destruct Hb as [Hd Ha]. apply negb_true_iff in Hd. auto.
  - intros (Hin & Hd & Ha & ->). exists th. split; [reflexivity|].
    apply filter_In. split; [exact Hin|]. rewrite Hd, Ha. reflexivity.
Qed.

(** The threads [start] creates: only the recorder's is not a daemon. *)
Lemma started_threads self th :
  ListenerService.threads self = [] ->
  In th (ListenerService.threads (ListenerService.start self)) ->
  ListenerService.daemon th = false ->
  th = ListenerService.Thread "RecorderWorker" false.
Proof.
  intros Hnone. unfold ListenerService.start. simpl. rewrite Hnone. simpl.
  intros [<-|Hin] Hd; [reflexivity|].
  apply in_app_or in Hin. destruct Hin as [Hin|[<-|[<-|[]]]]; try discriminate.
  unfold ListenerService.analyzer_threads in Hin. apply in_map_iff in Hin.
  destruct Hin as (i & <- & _). discriminate.
Qed.

(** C7, as the code has it. [stop] clears the flag of the service and
    of the recorder, then for each analyzer in turn clears its flag and
    puts one [None] on the samples queue, then clears the writer's flag
    and puts one [None] on the detections queue.  Each [put] blocks
    while its queue is full: [stop] returns when the queues have room
    for the sentinels, or when a consumer takes an item while each
    [put] waits; otherwise it stays inside a [put], and then no thread
    has been joined and "All workers stopped" has not been logged.
    Once the sentinels are in, every analyzer and the writer have their
    flag cleared, the sentinels are at the tail of the queues, and
    [stop] joins with a timeout of 5 seconds exactly the threads that
    are not daemons and are still alive, which for a started service is
    the recorder's thread alone: the analyzer, writer and API threads
    are daemons and are not waited for.  What it logs does not depend
    on which threads are alive, and ends with "All workers stopped". *)
Theorem stop_joins_non_daemon_threads_only self (e : ListenerService.stop_env) :
  within_bound (ListenerService.samples_queue self) ->
  within_bound (ListenerService.detections_queue self) ->
  let st := ListenerService.stop self e in
  let self' := ListenerService.service st in
  let n := length (ListenerService.analyzers self) in
  (ListenerService.running self' = false
   /\ RecorderWorker.running (ListenerService.recorder self') = false
   /\ length (ListenerService.analyzers self') = n)
  /\ (room (ListenerService.samples_queue self) n ->
      room (ListenerService.detections_queue self) 1 ->
      ListenerService.returned st = true)
  /\ (attended n e -> ListenerService.returned st = true)
  /\ (ListenerService.returned st = true ->
      Forall (fun a => AnalyzerWorker.running a = false) (ListenerService.analyzers self')
      /\ DbWriterWorker.running (ListenerService.db_writer self') = false
      /\ Queue.items (ListenerService.samples_queue self')
           `suffix_of` Queue.items (ListenerService.samples_queue self) ++ repeat None n
      /\ Queue.items (ListenerService.detections_queue self')
           `suffix_of` Queue.items (ListenerService.detections_queue self) ++ [None]
      /\ (quiet e ->
          Queue.items (ListenerService.samples_queue self')
          = Queue.items (ListenerService.samples_queue self) ++ repeat None n
          /\ Queue.items (ListenerService.detections_queue self')
             = Queue.items (ListenerService.detections_queue self) ++ [None])
      /\ (forall th timeout,
            In (th, timeout) (ListenerService.joins st)
            <-> In th (ListenerService.threads self) /\ ListenerService.daemon th = false
                /\ ListenerService.is_alive e th = true /\ timeout = 5)
      /\ (forall self0, ListenerService.threads self0 = [] ->
            self = ListenerService.start self0 ->
            forall th timeout, In (th, timeout) (ListenerService.joins st) ->
              th = ListenerService.Thread "RecorderWorker" false)
      /\ last (ListenerService.logged st) = Some (Log.info "All workers stopped" [])
      /\ (forall is_alive',
            ListenerService.logged
              (ListenerService.stop
                 self (ListenerService.Stop_env is_alive'
                                                (ListenerService.close_error e)
                                                (ListenerService.sample_consumers e)
                                                (ListenerService.detection_consumers e)))
            = ListenerService.logged st))
  /\ (ListenerService.returned st = false ->
      ListenerService.joins st = []
      /\ ~ In (Log.info "All workers stopped" []) (ListenerService.logged st)
      /\ (Queue.full (ListenerService.samples_queue self') = true
          \/ Queue.full (ListenerService.detections_queue self') = true)).
Proof.
  intros Hsamples Hdetections st self' n. subst self' st.
  assert (Hlog : forall stream,
             ~ In (Log.info "All workers stopped" [])
                  ([Log.info "Stopping all workers..." []]
                   ++ (if stream : bool then
                         match ListenerService.close_error e with
                         | Some e0 => [Log.error "Error closing stream: {}" [Log.Str e0]]
                         | None => []
                         end
                       else [])
                   ++ [Log.info "Recording stopped" []])).
  { intros [|]; [destruct (ListenerService.close_error e)|]; simpl; intros Hin;
      repeat (destruct Hin as [Hin|Hin]; [discriminate|]); exact Hin. }
  unfold ListenerService.stop, RecorderWorker.stop. cbv beta iota zeta.
  cbn [ListenerService.sample_consumers ListenerService.detection_consumers
       ListenerService.close_error ListenerService.is_alive].
  pose proof (stop_analyzers_spec (ListenerService.analyzers self)
                (ListenerService.samples_queue self)
                (ListenerService.sample_consumers e) Hsamples) as Hpills.
  destruct (ListenerService.stop_analyzers _ _ _) as [[analyzers' q'] over].
  destruct Hpills as (Hlen & Hmax & Hbound & Hover & Hinside & Hidle & Hserved & Hroom).
  pose proof (put_among_queue (ListenerService.detections_queue self) None
                (ListenerService.detection_consumers e) Hdetections) as Hput.
  destruct over.
  - destruct (Hover eq_refl) as [-> Hsuffix].
    destruct (Queue.put_among (ListenerService.detections_queue self) None _)
      as [dq' [|]]; simpl.
    + destruct Hput as (_ & _ & Hdsuffix & _ & Hdidle).
      split; [split; [reflexivity|]; split; [reflexivity | exact Hlen]|].
      split; [reflexivity|]. split; [reflexivity|]. split; [|discriminate].
      intros _. split; [apply Forall_map, Forall_forall; reflexivity|].
      split; [reflexivity|]. split; [exact Hsuffix|]. split; [exact Hdsuffix|].
      split.
      { intros [Hquiet Hdquiet]. split; [apply Hidle; [exact Hquiet | reflexivity]|].
        apply Hdidle. exact Hdquiet. }
      split; [intros th timeout; apply joined_iff|].
      split.
      { intros self0 Hnone -> th timeout Hin. apply joined_iff in Hin.
        destruct Hin as (Hin & Hd & _). eapply started_threads; eassumption. }
      split; [|reflexivity].
      rewrite app_comm_cons. apply last_snoc.
    + destruct Hput as (Hdmax & _ & Hdsuffix & Hblocked & _).
      destruct (Hblocked eq_refl) as [Hfull Hgets].
      pose proof (suffix_qsize _ _ _ Hdsuffix) as Hsize. simpl in Hsize.
      split; [split; [reflexivity|]; split; [reflexivity | exact Hlen]|].
      split.
      { intros _ Hr. exfalso. apply full_iff in Hfull. unfold room in Hr.
        rewrite Hdmax in Hfull. lia. }
      split; [intros (_ & _ & Hpos); lia|]. split; [discriminate|].
      intros _. split; [reflexivity|]. split; [apply Hlog | right; exact Hfull].
  - simpl. destruct (Hinside eq_refl) as (Hfull & _).
    split; [split; [reflexivity|]; split; [reflexivity | exact Hlen]|].
    split; [intros Hr _; discriminate (Hroom Hr)|].
    split; [intros (Hn & Hall & _); discriminate (Hserved Hn Hall)|].
    split; [discriminate|].
    intros _. split; [reflexivity|]. split; [apply Hlog | left; exact Hfull].
Qed.

End ShutdownProperties.

Lemma stop_joins_non_daemon_threads_only_witness :
  exists svc,
    default_service = Some svc
    /\ ListenerService.returned (ListenerService.stop svc quiet_stop) = true
    /\ Queue.items (ListenerService.samples_queue
                      (ListenerService.service (ListenerService.stop svc quiet_stop)))
       = [None; None].
Proof.
  destruct default_service as [svc|] eqn:Hsvc;
    [|vm_compute in Hsvc; discriminate Hsvc].
  exists svc. split; [reflexivity|].
  vm_compute in Hsvc. injection Hsvc as <-.
  match goal with
  | |- ListenerService.returned (ListenerService.stop ?s _) = true /\ _ =>
      destruct (stop_joins_non_daemon_threads_only s quiet_stop)
        as (_ & Hroom & _ & Hreturned & _)
  end.
  - unfold within_bound, Queue.qsize. simpl. lia.
  - unfold within_bound, Queue.qsize. simpl. lia.
  - assert (Hr : ListenerService.returned
                   (ListenerService.stop
                      (ListenerService.Make _ _ _ _ _ _ _ _ _) quiet_stop) = true)
      by (apply Hroom; unfold room, Queue.qsize; simpl; lia).
    split; [exact Hr|].
    destruct (Hreturned Hr) as (_ & _ & _ & _ & Hquiet & _).
    destruct Hquiet as [-> _]; [split; [constructor | reflexivity] | reflexivity].
Defined.

(** C7, as stated, at the default service with every thread alive and
    room on both queues: the analyzer and writer threads exist and are
    alive, [stop] returns having joined the recorder thread only, and its
    log has no record about a thread that has not exited. *)
Lemma stop_does_not_wait_for_daemon_workers :
  exists svc,
    default_service = Some svc
    /\ ListenerService.returned (ListenerService.stop svc quiet_stop) = true
    /\ In (ListenerService.Thread "AnalyzerWorker-1" true) (ListenerService.threads svc)
    /\ In (ListenerService.Thread "AnalyzerWorker-2" true) (ListenerService.threads svc)
    /\ In (ListenerService.Thread "DbWriterWorker" true) (ListenerService.threads svc)
    /\ ListenerService.joins (ListenerService.stop svc quiet_stop)
       = [(ListenerService.Thread "RecorderWorker" false, 5)]
    /\ ListenerService.logged (ListenerService.stop svc quiet_stop)
       = [Log.info "Stopping all workers..." [];
          Log.info "Recording stopped" [];
          Log.info "All workers stopped" []].
Proof.
  eexists. split; [reflexivity|].
  vm_compute. repeat split; auto.
Qed.


(** ** The analysis workers *)

Section AnalysisProperties.
Context {sample : Type}.
Variable rms_of : list sample -> Py.float.
Implicit Types (self : AnalyzerWorker.t) (tk : AnalyzerWorker.tick sample).
Implicit Types (window : RecorderWorker.sample_data sample).

Lemma emit_emit d1 l1 d2 l2 o :
  AnalyzerWorker.emit d1 l1 (AnalyzerWorker.emit d2 l2 o)
  = AnalyzerWorker.emit (d1 ++ d2) (l1 ++ l2) o.
Proof. unfold AnalyzerWorker.emit. simpl. rewrite !app_assoc. reflexivity. Qed.

(** A run on [before ++ after] is the run on [before] followed, unless
    the loop has left, by the run on [after]. *)
Lemma loop_app self before after :
  AnalyzerWorker.loop rms_of self (before ++ after)
  = let o := AnalyzerWorker.loop rms_of self before in
    if AnalyzerWorker.exited o then o
    else AnalyzerWorker.emit (AnalyzerWorker.emitted o) (AnalyzerWorker.logged o)
                             (AnalyzerWorker.loop rms_of self after).
Proof.
  induction before as [|tk before IH]; simpl.
  - destruct (AnalyzerWorker.loop rms_of self after). reflexivity.
  - destruct (AnalyzerWorker.running_seen tk); simpl; [|reflexivity].
    destruct (AnalyzerWorker.get tk) as [| |window]; [exact IH | reflexivity |].
    destruct (AnalyzerWorker.process rms_of self _ window) as [ds l].
    rewrite IH. simpl.
    destruct (AnalyzerWorker.exited (AnalyzerWorker.loop rms_of self before));
      [reflexivity|].
    rewrite emit_emit. reflexivity.
Qed.

(** [analyze] turns each of the three failures into no detection and
    one error record. *)
Lemma analyze_contains_failure (analyzer : BirdNETAnalyzer.t) classify window e :
  classification_raises rms_of analyzer classify window e ->
  BirdNETAnalyzer.analyze rms_of analyzer classify (RecorderWorker.audio window)
                          (RecorderWorker.sample_rate window)
  = ([], [Log.error "Error in analysis: {}" [Log.Str e]]).
Proof.
  unfold classification_raises, BirdNETAnalyzer.analyze.
  destruct (BirdNETAnalyzer.Recording analyzer); intros ->; reflexivity.
Qed.

(** C6. When the classification of a dequeued window raises, the worker
    enqueues no detection for that window and logs one error record, and
    the loop goes on: in a run that has not left the loop before that
    window, the detections enqueued are those of the windows before and
    after it, the log is the log of the windows before, the error record
    and the log of the windows after, and the loop leaves exactly when
    the run on the later iterations leaves. *)
Theorem classification_failure_is_contained self tk window e :
  AnalyzerWorker.running_seen tk = true ->
  AnalyzerWorker.get tk = Got_item window ->
  classification_raises rms_of (AnalyzerWorker.analyzer self)
                        (AnalyzerWorker.classify tk) window e ->
  let failure := Log.error "Error in analysis: {}" [Log.Str e] in
  AnalyzerWorker.process rms_of self (AnalyzerWorker.classify tk) window
  = ([], [failure])
  /\ forall before after,
       AnalyzerWorker.exited (AnalyzerWorker.loop rms_of self before) = false ->
       let o := AnalyzerWorker.loop rms_of self (before ++ tk :: after) in
       AnalyzerWorker.emitted o
       = AnalyzerWorker.emitted (AnalyzerWorker.loop rms_of self before)
         ++ AnalyzerWorker.emitted (AnalyzerWorker.loop rms_of self after)
       /\ AnalyzerWorker.logged o
          = AnalyzerWorker.logged (AnalyzerWorker.loop rms_of self before)
            ++ failure :: AnalyzerWorker.logged (AnalyzerWorker.loop rms_of self after)
       /\ AnalyzerWorker.exited o
          = AnalyzerWorker.exited (AnalyzerWorker.loop rms_of self after).
Proof.
  intros Hrun Hget Hraise failure.
  assert (Hprocess : AnalyzerWorker.process rms_of self (AnalyzerWorker.classify tk) window
                     = ([], [failure])).
  { unfold AnalyzerWorker.process.
    rewrite (analyze_contains_failure _ _ _ _ Hraise). reflexivity. }
  split; [exact Hprocess|].
  intros before after Hbefore o. subst o.
  rewrite loop_app. simpl. rewrite Hbefore, Hrun, Hget, Hprocess. simpl.
  repeat split.
Qed.

(** In real mode a detection is enqueued exactly when its confidence is
    at least the threshold, under its scientific name, with the window's
    timestamp and its own time span. *)
Lemma real_mode_enqueues_above_threshold self classify window found :
  BirdNETAnalyzer.Recording (AnalyzerWorker.analyzer self) = BirdNETAnalyzer.Attr_class ->
  classify (RecorderWorker.audio window) (RecorderWorker.sample_rate window)
           (ListenerConfig.birdnet_location_lat
              (BirdNETAnalyzer.config (AnalyzerWorker.analyzer self)))
           (ListenerConfig.birdnet_location_lon
              (BirdNETAnalyzer.config (AnalyzerWorker.analyzer self)))
           (ListenerConfig.min_confidence
              (BirdNETAnalyzer.config (AnalyzerWorker.analyzer self)))
  = BirdNETAnalyzer.Detections found ->
  let threshold :=
    ListenerConfig.min_confidence (BirdNETAnalyzer.config (AnalyzerWorker.analyzer self)) in
  let enqueued := fst (AnalyzerWorker.process rms_of self classify window) in
  enqueued
  = map (fun d => AnalyzerWorker.Detection_data
                    (BirdNETAnalyzer.scientific_name d)
                    (BirdNETAnalyzer.bn_confidence d)
                    (RecorderWorker.timestamp window)
                    (AnalyzerWorker.Details (BirdNETAnalyzer.bn_start_time d)
                                            (BirdNETAnalyzer.bn_end_time d)))
        (List.filter (fun d => Qle_bool threshold (BirdNETAnalyzer.bn_confidence d)) found)
  /\ Forall (fun d => (threshold <= AnalyzerWorker.confidence d)%Q) enqueued.
Proof.
  intros Hmode Hfound threshold enqueued. subst enqueued.
  unfold AnalyzerWorker.process, BirdNETAnalyzer.analyze.
  rewrite Hmode, Hfound. simpl. rewrite map_map. fold threshold.
  split; [reflexivity|].
  apply Forall_map, Forall_forall. intros d Hd. apply list_elem_of_In, filter_In in Hd. simpl.
  apply Qle_bool_iff, Hd.
Qed.

(** In either mode the worker stamps every detection of a window with
    the window's timestamp and passes on what [analyze] returned. *)
Lemma process_carries_through self classify window :
  fst (AnalyzerWorker.process rms_of self classify window)
  = map (AnalyzerWorker.enqueue (RecorderWorker.timestamp window))
        (fst (BirdNETAnalyzer.analyze rms_of (AnalyzerWorker.analyzer self) classify
                                      (RecorderWorker.audio window)
                                      (RecorderWorker.sample_rate window))).
Proof.
  unfold AnalyzerWorker.process.
  destruct (BirdNETAnalyzer.analyze _ _ _ _ _). reflexivity.
Qed.
End AnalysisProperties.

Lemma classification_failure_is_contained_witness :
  AnalyzerWorker.emitted
    (AnalyzerWorker.loop rms_of_constant real_worker
       ([] ++ AnalyzerWorker.Tick true (Got_item faint_window) failing_classifier
           :: [AnalyzerWorker.Tick true (Got_item faint_window) robin_classifier]))
  = [] ++ [AnalyzerWorker.Detection_data "Turdus migratorius" (7 # 10)
                                        1700000000000000 (AnalyzerWorker.Details 0 3)].
Proof.
  destruct (classification_failure_is_contained rms_of_constant real_worker
              (AnalyzerWorker.Tick true (Got_item faint_window) failing_classifier)
              faint_window "Error opening '/tmp/tmpk3.wav'"
              eq_refl eq_refl eq_refl) as [_ Hrun].
  destruct (Hrun [] [AnalyzerWorker.Tick true (Got_item faint_window) robin_classifier]
                 eq_refl) as (Hemitted & _).
  exact Hemitted.
Defined.

Lemma real_mode_enqueues_above_threshold_witness :
  (AnalyzerWorker.process rms_of_constant real_worker robin_classifier faint_window).1
  = [AnalyzerWorker.Detection_data "Turdus migratorius" (7 # 10)
                                   1700000000000000 (AnalyzerWorker.Details 0 3)]
  /\ Forall (fun d => (ListenerConfig.min_confidence strict_config
                       <= AnalyzerWorker.confidence d)%Q)
            (AnalyzerWorker.process rms_of_constant real_worker robin_classifier
                                    faint_window).1.
Proof.
  exact (real_mode_enqueues_above_threshold
           rms_of_constant real_worker robin_classifier faint_window
           [BirdNETAnalyzer.Birdnet_detection "American Robin" "Turdus migratorius"
                                              (7 # 10) 0 3]
           eq_refl eq_refl).
Defined.

(** C4, at the input where the code departs from it. With a threshold of
    0.7 and the analyzer in stub mode, a window of RMS 1/64 makes the
    worker enqueue a detection of confidence 0.5 + 10/64 = 0.65625, below
    the threshold: the stub never looks at [min_confidence]. *)
Theorem stub_enqueues_below_threshold :
  exists d,
    AnalyzerWorker.emitted
      (AnalyzerWorker.run rms_of_constant stub_worker
         [AnalyzerWorker.Tick true (Got_item faint_window) unused_classifier])
    = [d]
    /\ (AnalyzerWorker.confidence d == 21 # 32)%Q
    /\ (AnalyzerWorker.confidence d < ListenerConfig.min_confidence strict_config)%Q.
Proof. eexists. split; [vm_compute; reflexivity|]. split; reflexivity. Qed.

(** C9, at the input where the code departs from it. In stub mode the
    species enqueued for a window of RMS 1/64 is the English name
    "American Robin" taken from [mock_species], where the real mode
    enqueues birdnetlib's [scientific_name]; the timestamp is the
    window's and the span is the stub's 0 to 5 seconds. *)
Theorem stub_enqueues_common_name :
  AnalyzerWorker.emitted
    (AnalyzerWorker.run rms_of_constant stub_worker
       [AnalyzerWorker.Tick true (Got_item faint_window) unused_classifier;
        AnalyzerWorker.Tick true Got_None unused_classifier])
  = [AnalyzerWorker.Detection_data
       "American Robin" (21 # 32)
       (RecorderWorker.timestamp faint_window)
       (AnalyzerWorker.Details 0 5)]
  /\ In "American Robin"%string BirdNETAnalyzer.mock_species
  /\ AnalyzerWorker.emitted
       (AnalyzerWorker.run rms_of_constant real_worker
          [AnalyzerWorker.Tick true (Got_item faint_window) robin_classifier;
           AnalyzerWorker.Tick true Got_None unused_classifier])
     = [AnalyzerWorker.Detection_data
          "Turdus migratorius" (7 # 10)
          (RecorderWorker.timestamp faint_window)
          (AnalyzerWorker.Details 0 3)].
Proof. split; [vm_compute; reflexivity|]. split; [now left | reflexivity]. Qed.

(** ** The persistence stage *)

Section PersistenceProperties.
Implicit Types (self : DbWriterWorker.t) (db : DetectionDatabase.t).
Implicit Types (tk : DbWriterWorker.tick) (d : AnalyzerWorker.detection_data).
Implicit Types (r : DetectionDatabase.row).

Lemma recent_iff species since r :
  DetectionDatabase.recent species since r = true
  <-> DetectionDatabase.species r = species /\ since <= DetectionDatabase.timestamp r.
Proof.
  unfold DetectionDatabase.recent.
  rewrite andb_true_iff, String.eqb_eq, Z.leb_le. reflexivity.
Qed.

(** [check_duplicate] answers whether a row of the species has a
    timestamp no older than the window, counted back from its clock. *)
Lemma check_duplicate_iff db now species window_seconds :
  DetectionDatabase.check_duplicate db now species window_seconds = true
  <-> exists r, In r (DetectionDatabase.rows db)
                /\ DetectionDatabase.species r = species
                /\ now - Py.seconds window_seconds <= DetectionDatabase.timestamp r.
Proof.
  unfold DetectionDatabase.check_duplicate. rewrite Z.ltb_lt. split.
  - intros Hcount.
    destruct (List.filter _ (DetectionDatabase.rows db)) as [|r found] eqn:Hfound;
      [simpl in Hcount; lia|].
    assert (Hr : In r (List.filter
                         (DetectionDatabase.recent species (now - Py.seconds window_seconds))
                         (DetectionDatabase.rows db)))
      by (rewrite Hfound; now left).
    apply filter_In in Hr. destruct Hr as [Hin Hrecent].
    apply recent_iff in Hrecent. exists r. tauto.
  - intros (r & Hin & Hs & Ht).
    assert (Hr : In r (List.filter
                         (DetectionDatabase.recent species (now - Py.seconds window_seconds))
                         (DetectionDatabase.rows db)))
      by (apply filter_In; split; [exact Hin | apply recent_iff; tauto]).
    destruct (List.filter _ (DetectionDatabase.rows db)); [destruct Hr | simpl; lia].
Qed.

Lemma check_duplicate_false db now species window_seconds :
  DetectionDatabase.check_duplicate db now species window_seconds = false ->
  forall r, In r (DetectionDatabase.rows db) ->
            DetectionDatabase.species r = species ->
            DetectionDatabase.timestamp r < now - Py.seconds window_seconds.
Proof.
  intros Hno r Hin Hs.
  destruct (Z.lt_ge_cases (DetectionDatabase.timestamp r)
                          (now - Py.seconds window_seconds)) as [Hlt|Hge];
    [exact Hlt|].
  assert (Hyes : DetectionDatabase.check_duplicate db now species window_seconds = true)
    by (apply check_duplicate_iff; exists r; tauto).
  congruence.
Qed.

(** The two ways the body of the loop ends for a detection: the store
    is as it was, or the check found no duplicate and one row was
    appended. *)
Lemma process_cases self db tk d :
  (DbWriterWorker.process self db tk d).1 = db
  \/ (DbWriterWorker.check_error tk = None
      /\ DbWriterWorker.write_error tk = None
      /\ DetectionDatabase.check_duplicate
           db (DbWriterWorker.now tk) (AnalyzerWorker.species d)
           (ListenerConfig.duplicate_window (DbWriterWorker.config self)) = false
      /\ (DbWriterWorker.process self db tk d).1
         = DetectionDatabase.Make (DetectionDatabase.rows db ++ [stored_row self db d])
                                  (DetectionDatabase.lastrowid db + 1)).
Proof.
  unfold DbWriterWorker.process.
  destruct (DbWriterWorker.check_error tk); [now left|].
  destruct (DetectionDatabase.check_duplicate _ _ _ _); [now left|].
  destruct (DbWriterWorker.write_error tk); [now left|].
  right. repeat split.
Qed.

Lemma spaced_snoc gap rows r :
  spaced gap rows ->
  Forall (fun r0 => DetectionDatabase.species r = DetectionDatabase.species r0 ->
                    gap < DetectionDatabase.timestamp r - DetectionDatabase.timestamp r0)
         rows ->
  spaced gap (rows ++ [r]).
Proof.
  induction rows as [|r0 rows IH]; simpl.
  - intros _ _. split; [constructor | exact I].
  - intros [Hlater Hrest] Hnew. inversion Hnew as [|? ? Hr0 Hrows]; subst.
    split; [|apply IH; assumption].
    apply Forall_app. split; [exact Hlater|].
    constructor; [exact Hr0 | constructor].
Qed.

(** The body of the loop keeps the rows of a species apart. *)
Lemma process_spaced self db tk d lag :
  DbWriterWorker.now tk - AnalyzerWorker.timestamp d <= lag ->
  let gap := Py.seconds (ListenerConfig.duplicate_window (DbWriterWorker.config self)) - lag in
  spaced gap (DetectionDatabase.rows db) ->
  spaced gap (DetectionDatabase.rows (DbWriterWorker.process self db tk d).1).
Proof.
  intros Hlag gap Hspaced.
  destruct (process_cases self db tk d) as [->|(_ & _ & Hno & ->)]; [exact Hspaced|].
  simpl. apply spaced_snoc; [exact Hspaced|].
  apply Forall_forall. intros r0 Hin Hs. apply list_elem_of_In in Hin.
  pose proof (check_duplicate_false _ _ _ _ Hno r0 Hin (eq_sym Hs)) as Hold.
  unfold gap. simpl. lia.
Qed.

Lemma loop_spaced self lag ticks : forall db,
  Forall (prompt lag) ticks ->
  let gap := Py.seconds (ListenerConfig.duplicate_window (DbWriterWorker.config self)) - lag in
  spaced gap (DetectionDatabase.rows db) ->
  spaced gap (DetectionDatabase.rows
                (DbWriterWorker.db (DbWriterWorker.loop self db ticks))).
Proof.
  induction ticks as [|tk ticks IH]; intros db Hprompt gap Hspaced; simpl.
  - exact Hspaced.
  - inversion Hprompt as [|? ? Htk Hticks]; subst.
    destruct (DbWriterWorker.running_seen tk); simpl; [|exact Hspaced].
    destruct (DbWriterWorker.get tk) as [| |d] eqn:Hget; simpl;
      [apply IH; assumption | exact Hspaced |].
    pose proof (process_spaced self db tk d lag (Htk d Hget) Hspaced) as Hstep.
    destruct (DbWriterWorker.process self db tk d) as [db' l]. simpl in *.
    apply IH; assumption.
Qed.

(** The loop only appends rows. *)
Lemma loop_appends self ticks : forall db,
  DetectionDatabase.rows db
  `prefix_of` DetectionDatabase.rows (DbWriterWorker.db (DbWriterWorker.loop self db ticks)).
Proof.
  induction ticks as [|tk ticks IH]; intros db; simpl; [reflexivity|].
  destruct (DbWriterWorker.running_seen tk); simpl; [|reflexivity].
  destruct (DbWriterWorker.get tk) as [| |d]; simpl; [apply IH | reflexivity |].
  destruct (process_cases self db tk d) as [Hsame|(_ & _ & _ & Hadd)];
    destruct (DbWriterWorker.process self db tk d) as [db' l]; simpl in *; subst db'.
  - apply IH.
  - etransitivity; [|apply IH]. simpl. apply prefix_app_r. reflexivity.
Qed.

(** C1, as the code has it. A detection is discarded when the store
    holds a row of its species whose capture timestamp is at most
    [duplicate_window] seconds older than the clock of the check, and is
    stored otherwise.  So when every detection is checked at most [lag]
    after its capture timestamp, two rows of a species in the store are
    more than [duplicate_window] seconds less [lag] apart, and more than
    [duplicate_window] seconds apart when each is checked at its capture
    time; with a window of 30 seconds, detections captured and checked at
    t = 0, 10 and 40 leave two rows. *)
Theorem duplicates_suppressed_by_capture_time self db ticks lag :
  Forall (prompt lag) ticks ->
  let window := Py.seconds (ListenerConfig.duplicate_window (DbWriterWorker.config self)) in
  spaced (window - lag) (DetectionDatabase.rows db) ->
  spaced (window - lag)
         (DetectionDatabase.rows (DbWriterWorker.db (DbWriterWorker.loop self db ticks)))
  /\ (forall db0 d now,
        let db' := (DbWriterWorker.process self db0 (DbWriterWorker.arrival d now) d).1 in
        ((exists r, In r (DetectionDatabase.rows db0)
                    /\ DetectionDatabase.species r = AnalyzerWorker.species d
                    /\ now - window <= DetectionDatabase.timestamp r)
         /\ db' = db0)
        \/ ((forall r, In r (DetectionDatabase.rows db0) ->
                       DetectionDatabase.species r = AnalyzerWorker.species d ->
                       DetectionDatabase.timestamp r < now - window)
            /\ DetectionDatabase.rows db'
               = DetectionDatabase.rows db0 ++ [stored_row self db0 d]))
  /\ map DetectionDatabase.timestamp
         (DetectionDatabase.rows
            (DbWriterWorker.db
               (DbWriterWorker.loop default_writer DetectionDatabase.empty on_time_arrivals)))
     = [Py.seconds 0; Py.seconds 40].
Proof.
  intros Hprompt window Hspaced.
  split; [apply loop_spaced; assumption|]. split; [|reflexivity].
  intros db0 d now db'. subst db'.
  destruct (DetectionDatabase.check_duplicate
              db0 now (AnalyzerWorker.species d)
              (ListenerConfig.duplicate_window (DbWriterWorker.config self))) eqn:Hdup.
  - left. split; [apply check_duplicate_iff; exact Hdup|].
    unfold DbWriterWorker.process. simpl. rewrite Hdup. reflexivity.
  - right. split; [apply check_duplicate_false; exact Hdup|].
    unfold DbWriterWorker.process. simpl. rewrite Hdup. reflexivity.
Qed.

Lemma check_duplicate_forget db db' now species window_seconds :
  map forget_confidence (DetectionDatabase.rows db')
  = map forget_confidence (DetectionDatabase.rows db) ->
  DetectionDatabase.check_duplicate db' now species window_seconds
  = DetectionDatabase.check_duplicate db now species window_seconds.
Proof.
  unfold DetectionDatabase.check_duplicate.
  generalize (now - Py.seconds window_seconds). intros since.
  generalize (DetectionDatabase.rows db) (DetectionDatabase.rows db').
  intros rows rows' Hsame. do 2 f_equal. revert rows' Hsame.
  induction rows as [|r rows IH]; intros [|r' rows']; simpl;
    try discriminate; [reflexivity|].
  intros [= Hid Hs Ht _ _ _ Hrest].
  assert (Hrecent : DetectionDatabase.recent species since r'
                    = DetectionDatabase.recent species since r)
    by (unfold DetectionDatabase.recent; rewrite Hs, Ht; reflexivity).
  rewrite Hrecent. destruct (DetectionDatabase.recent species since r); simpl;
    rewrite (IH _ Hrest); reflexivity.
Qed.

Lemma process_blind self db1 db2 tk d (c : Q) :
  same_but_confidence db1 db2 ->
  same_but_confidence
    (DbWriterWorker.process self db1 tk (with_confidence c d)).1
    (DbWriterWorker.process self db2 tk d).1.
Proof.
  intros [Hrows Hid]. unfold DbWriterWorker.process. simpl.
  destruct (DbWriterWorker.check_error tk); [split; assumption|].
  rewrite (check_duplicate_forget db2 db1) by exact Hrows.
  destruct (DetectionDatabase.check_duplicate db2 _ _ _); [split; assumption|].
  destruct (DbWriterWorker.write_error tk); [split; assumption|].
  unfold same_but_confidence. simpl. rewrite !map_app, Hrows, Hid. simpl.
  split; reflexivity.
Qed.

Lemma loop_blind self (c : AnalyzerWorker.detection_data -> Q) ticks : forall db1 db2,
  same_but_confidence db1 db2 ->
  same_but_confidence
    (DbWriterWorker.db (DbWriterWorker.loop self db1 (map (reconfide c) ticks)))
    (DbWriterWorker.db (DbWriterWorker.loop self db2 ticks)).
Proof.
  induction ticks as [|tk ticks IH]; intros db1 db2 Hsame; simpl; [exact Hsame|].
  destruct (DbWriterWorker.running_seen tk); simpl; [|exact Hsame].
  destruct (DbWriterWorker.get tk) as [| |d]; simpl;
    [apply IH; exact Hsame | exact Hsame |].
  pose proof (process_blind self db1 db2 tk d (c d) Hsame) as Hstep.
  change (DbWriterWorker.process self db1 (reconfide c tk) (with_confidence (c d) d))
    with (DbWriterWorker.process self db1 tk (with_confidence (c d) d)).
  destruct (DbWriterWorker.process self db1 tk (with_confidence (c d) d)) as [db1' l1].
  destruct (DbWriterWorker.process self db2 tk d) as [db2' l2].
  simpl in *. apply IH. exact Hstep.
Qed.

(** C10, as the code has it. The duplicate check reads the species and
    the capture timestamps of the stored rows and never a confidence:
    the rows a run stores are the same, confidences apart, whatever
    confidences the incoming detections carry, and the check answers the
    same on stores that differ in confidences only.  The first detection
    wins: while the store holds a row of the species whose capture
    timestamp is at most [duplicate_window] seconds older than the clock
    of the check, a further detection of the species is discarded,
    whatever its confidence, and the store is left as it is; and a run
    only appends rows, so no stored row is ever replaced. *)
Theorem duplicate_check_ignores_confidence self db ticks
        (c : AnalyzerWorker.detection_data -> Q) :
  let window_seconds := ListenerConfig.duplicate_window (DbWriterWorker.config self) in
  map forget_confidence
      (DetectionDatabase.rows
         (DbWriterWorker.db (DbWriterWorker.loop self db (map (reconfide c) ticks))))
  = map forget_confidence
        (DetectionDatabase.rows (DbWriterWorker.db (DbWriterWorker.loop self db ticks)))
  /\ (forall db' now species,
        map forget_confidence (DetectionDatabase.rows db')
        = map forget_confidence (DetectionDatabase.rows db) ->
        DetectionDatabase.check_duplicate db' now species window_seconds
        = DetectionDatabase.check_duplicate db now species window_seconds)
  /\ (forall tk d first,
        In first (DetectionDatabase.rows db) ->
        DetectionDatabase.species first = AnalyzerWorker.species d ->
        DbWriterWorker.check_error tk = None ->
        DbWriterWorker.now tk - Py.seconds window_seconds
        <= DetectionDatabase.timestamp first ->
        DbWriterWorker.process self db tk d
        = (db, [Log.debug "Ignoring duplicate detection: {} (within {}s)"
                          [Log.Str (AnalyzerWorker.species d); Log.Int window_seconds]]))
  /\ DetectionDatabase.rows db
     `prefix_of` DetectionDatabase.rows (DbWriterWorker.db (DbWriterWorker.loop self db ticks)).
Proof.
  intros window_seconds.
  split; [apply loop_blind; split; reflexivity|].
  split; [intros db' now species; apply check_duplicate_forget|].
  split; [|apply loop_appends].
  intros tk d first Hin Hs Hcheck Hrecent.
  assert (Hdup : DetectionDatabase.check_duplicate
                   db (DbWriterWorker.now tk) (AnalyzerWorker.species d) window_seconds
                 = true)
    by (apply check_duplicate_iff; exists first; tauto).
  unfold DbWriterWorker.process. fold window_seconds. rewrite Hcheck, Hdup. reflexivity.
Qed.
End PersistenceProperties.

Lemma duplicates_suppressed_by_capture_time_witness :
  Forall (prompt 0) on_time_arrivals
  /\ spaced (Py.seconds 30 - 0) (DetectionDatabase.rows DetectionDatabase.empty)
  /\ spaced (Py.seconds 30 - 0)
            (DetectionDatabase.rows
               (DbWriterWorker.db
                  (DbWriterWorker.loop default_writer DetectionDatabase.empty
                                       on_time_arrivals))).
Proof.
  assert (Hprompt : Forall (prompt 0) on_time_arrivals).
  { repeat constructor; intros d [= <-]; vm_compute; discriminate. }
  assert (Hspaced : spaced (Py.seconds 30 - 0)
                           (DetectionDatabase.rows DetectionDatabase.empty))
    by exact I.
  split; [exact Hprompt|]. split; [exact Hspaced|].
  apply (duplicates_suppressed_by_capture_time
           default_writer DetectionDatabase.empty on_time_arrivals 0 Hprompt Hspaced).
Defined.

(** C1, as stated, at two detections of one species captured 5
    seconds apart that are checked 35 and 36 seconds after the first
    capture: both are stored, 1 second apart, under a window of 30
    seconds. *)
Lemma late_duplicates_are_both_stored :
  map (fun r => (DetectionDatabase.species r, DetectionDatabase.timestamp r))
      (DetectionDatabase.rows
         (DbWriterWorker.db
            (DbWriterWorker.run default_writer DetectionDatabase.empty late_arrivals)))
  = [("Turdus migratorius"%string, Py.seconds 0);
     ("Turdus migratorius"%string, Py.seconds 5)]
  /\ map DbWriterWorker.now late_arrivals = [Py.seconds 35; Py.seconds 36]
  /\ Py.seconds 5 - Py.seconds 0 <= Py.seconds 30
  /\ Py.seconds 36 - Py.seconds 35 <= Py.seconds 30
  /\ ListenerConfig.duplicate_window (DbWriterWorker.config default_writer) = 30.
Proof. repeat split; vm_compute; congruence. Qed.

Lemma duplicate_check_ignores_confidence_witness :
  DbWriterWorker.process
    default_writer
    (DbWriterWorker.db
       (DbWriterWorker.loop default_writer DetectionDatabase.empty [first_arrival]))
    (DbWriterWorker.arrival (robin (99 # 100) 25) (Py.seconds 30))
    (robin (99 # 100) 25)
  = (DbWriterWorker.db
       (DbWriterWorker.loop default_writer DetectionDatabase.empty [first_arrival]),
     [Log.debug "Ignoring duplicate detection: {} (within {}s)"
                [Log.Str "Turdus migratorius"; Log.Int 30]]).
Proof.
  destruct (duplicate_check_ignores_confidence
              default_writer
              (DbWriterWorker.db
                 (DbWriterWorker.loop default_writer DetectionDatabase.empty [first_arrival]))
              [] (fun _ => 0%Q)) as (_ & _ & Hfirst & _).
  apply (Hfirst (DbWriterWorker.arrival (robin (99 # 100) 25) (Py.seconds 30))
                (robin (99 # 100) 25)
                (stored_row default_writer DetectionDatabase.empty (robin (6 # 10) 0))).
  - now left.
  - reflexivity.
  - reflexivity.
  - vm_compute. discriminate.
Defined.

(** C10, as stated, at a detection captured at t = 0 and stored
    at t = 2 and a second one of the species checked at t = 31, which is
    29 seconds after the first was stored and within the window of 30:
    the second is not discarded. *)
Lemma second_within_window_of_storing_is_kept :
  map DetectionDatabase.timestamp
      (DetectionDatabase.rows
         (DbWriterWorker.db
            (DbWriterWorker.loop default_writer DetectionDatabase.empty [first_arrival])))
  = [Py.seconds 0]
  /\ DbWriterWorker.now first_arrival = Py.seconds 2
  /\ DbWriterWorker.now second_arrival = Py.seconds 31
  /\ Py.seconds 31 - Py.seconds 2 <= Py.seconds 30
  /\ map (fun r => (DetectionDatabase.species r, DetectionDatabase.confidence r,
                    DetectionDatabase.timestamp r))
         (DetectionDatabase.rows
            (DbWriterWorker.db
               (DbWriterWorker.loop default_writer DetectionDatabase.empty
                                    [first_arrival; second_arrival])))
     = [("Turdus migratorius"%string, (6 # 10)%Q, Py.seconds 0);
        ("Turdus migratorius"%string, (9 # 10)%Q, Py.seconds 25)].
Proof. repeat split; vm_compute; congruence. Qed.

(** ** The real capture loop *)

Section RealLoopProperties.
Context {sample : Type}.
Implicit Types (self : RecorderWorker.t sample) (l k history : list sample).
Implicit Types (tk : RecorderWorker.real_tick sample).

Lemma most_recent_most_recent l (n m : Z) :
  0 <= n <= m -> most_recent n (most_recent m l) = most_recent n l.
Proof.
  intros Hnm. unfold most_recent. rewrite length_drop, drop_drop. f_equal. lia.
Qed.

Lemma is_ready_iff (b : AudioBuffer.t sample) :
  AudioBuffer.is_ready b = true
  <-> AudioBuffer.sample_size b <= Deque.len (AudioBuffer.buffer b).
Proof. unfold AudioBuffer.is_ready. apply Z.leb_le. Qed.

(** A ready buffer hands out the most recent [sample_size] samples. *)
Lemma get_sample_ready (b : AudioBuffer.t sample) :
  0 < AudioBuffer.sample_size b ->
  AudioBuffer.is_ready b = true ->
  AudioBuffer.get_sample b
  = (b, Some (most_recent (AudioBuffer.sample_size b)
                          (Deque.items (AudioBuffer.buffer b)))).
Proof.
  intros Hpos Hready. apply is_ready_iff in Hready.
  unfold AudioBuffer.get_sample.
  destruct (Z.leb_spec (AudioBuffer.sample_size b) (Deque.len (AudioBuffer.buffer b)));
    [|lia].
  unfold Deque.to_list. rewrite slice_from_most_recent; [reflexivity|].
  unfold Deque.len in *. lia.
Qed.

Lemma latest_window_later n history chunk tk ticks w :
  RecorderWorker.r_read tk = RecorderWorker.Read_chunk chunk ->
  latest_window n (history ++ chunk) ticks w ->
  latest_window n history (tk :: ticks) w.
Proof.
  intros Hread (Hlen & before & tk' & after & -> & Hts & Haudio).
  split; [exact Hlen|]. exists (tk :: before), tk', after.
  split; [reflexivity|]. split; [exact Hts|].
  rewrite Haudio. unfold chunks_read. simpl. rewrite Hread, app_assoc. reflexivity.
Qed.

Lemma latest_window_after_error n history e tk ticks w :
  RecorderWorker.r_read tk = RecorderWorker.Read_error e ->
  latest_window n history ticks w ->
  latest_window n history (tk :: ticks) w.
Proof.
  intros Hread (Hlen & before & tk' & after & -> & Hts & Haudio).
  split; [exact Hlen|]. exists (tk :: before), tk', after.
  split; [reflexivity|]. split; [exact Hts|].
  rewrite Haudio. unfold chunks_read. simpl. rewrite Hread. reflexivity.
Qed.

(** The real loop, with the buffer holding the tail of [history]. *)
Lemma real_loop_latest ticks : forall self q last history,
  let b := RecorderWorker.audio_buffer self in
  AudioBuffer.wf b ->
  0 < AudioBuffer.sample_size b <= AudioBuffer.buffer_size b ->
  Deque.items (AudioBuffer.buffer b) = most_recent (AudioBuffer.buffer_size b) history ->
  Forall (latest_window (AudioBuffer.sample_size b) history ticks)
         (sealed (RecorderWorker._run_real_audio self q last ticks)).
Proof.
  induction ticks as [|tk ticks IH]; intros self q last history b Hwf Hsize Hheld; simpl.
  - constructor.
  - destruct (RecorderWorker.r_running tk); simpl; [|constructor].
    destruct (RecorderWorker.r_read tk) as [chunk|e] eqn:Hread; simpl.
    2:{ eapply Forall_impl; [apply (IH self q last history); assumption|].
        intros w. apply (latest_window_after_error _ _ e); exact Hread. }
    destruct (add_chunk_most_recent b chunk Hwf) as (Hwf' & Hcap & Hitems).
    fold b. set (b' := AudioBuffer.add_chunk b chunk) in *.
    assert (Hss : AudioBuffer.sample_size b' = AudioBuffer.sample_size b) by reflexivity.
    assert (Hheld' : Deque.items (AudioBuffer.buffer b')
                     = most_recent (AudioBuffer.buffer_size b') (history ++ chunk)).
    { rewrite Hitems, Hcap, Hheld. apply most_recent_app. }
    clearbody b'.
    assert (Htail : forall q' last',
               Forall (latest_window (AudioBuffer.sample_size b) history (tk :: ticks))
                      (sealed
                         (RecorderWorker._run_real_audio
                            (RecorderWorker.set_audio_buffer self b') q' last' ticks))).
    { intros q' last'. eapply Forall_impl.
      - apply (IH (RecorderWorker.set_audio_buffer self b') q' last' (history ++ chunk));
          simpl; [exact Hwf' | rewrite Hss, Hcap; exact Hsize | exact Hheld'].
      - intros w. simpl. rewrite Hss. apply latest_window_later. exact Hread. }
    destruct (Py.elapsed_ge _ _ _); simpl; [|apply Htail].
    destruct (AudioBuffer.is_ready b') eqn:Hready; simpl; [|apply Htail].
    rewrite get_sample_ready by (rewrite ?Hss; lia || exact Hready).
    apply is_ready_iff in Hready. unfold Deque.len in Hready.
    rewrite Hss in *.
    match goal with
    | |- context [Queue.put_among q (Some ?w) _] =>
        assert (Hnew : latest_window (AudioBuffer.sample_size b) history (tk :: ticks) w)
    end.
    { split.
      + simpl. rewrite most_recent_length by lia. lia.
      + exists [], tk, ticks. split; [reflexivity|]. split; [reflexivity|]. simpl.
        unfold chunks_read. simpl. rewrite Hread, app_nil_r, Hheld', Hcap.
        apply most_recent_most_recent. lia. }
    destruct (Queue.put_among q _ (RecorderWorker.r_consumers tk)) as [q' [|]].
    + apply (Forall_cons_2 _ _ _ Hnew). apply Htail.
    + unfold sealed. simpl. constructor; [exact Hnew | constructor].
Qed.

(** X2. From an empty buffer whose window fits in it, every window the
    real loop seals has exactly [sample_size] samples, carries the clock
    of the iteration that sealed it, and holds the [sample_size] most
    recent of all the samples read up to and including that iteration. *)
Theorem real_windows_hold_latest_samples self q last ticks :
  let b := RecorderWorker.audio_buffer self in
  AudioBuffer.wf b ->
  Deque.items (AudioBuffer.buffer b) = [] ->
  0 < AudioBuffer.sample_size b <= AudioBuffer.buffer_size b ->
  Forall (latest_window (AudioBuffer.sample_size b) [] ticks)
         (sealed (RecorderWorker._run_real_audio self q last ticks)).
Proof.
  intros b Hwf Hempty Hsize. apply real_loop_latest; assumption.
Qed.

(** X3. A buffer shorter than the window is never ready: whatever is
    read and however long the loop runs, it seals no window. *)
Theorem short_buffer_never_emits ticks : forall self q last,
  let b := RecorderWorker.audio_buffer self in
  AudioBuffer.wf b ->
  AudioBuffer.buffer_size b < AudioBuffer.sample_size b ->
  sealed (RecorderWorker._run_real_audio self q last ticks) = [].
Proof.
  induction ticks as [|tk ticks IH]; intros self q last b Hwf Hshort; simpl;
    [reflexivity|].
  destruct (RecorderWorker.r_running tk); simpl; [|reflexivity].
  destruct (RecorderWorker.r_read tk) as [chunk|e]; simpl;
    [|apply IH; assumption].
  destruct (add_chunk_most_recent b chunk Hwf) as (Hwf' & Hcap & _).
  fold b. set (b' := AudioBuffer.add_chunk b chunk) in *.
  assert (Hnot : AudioBuffer.is_ready b' = false).
  { apply not_true_is_false. rewrite is_ready_iff.
    change (AudioBuffer.sample_size b') with (AudioBuffer.sample_size b).
    destruct Hwf' as (_ & _ & Hlen). lia. }
  rewrite Hnot, andb_false_r. simpl.
  apply (IH (RecorderWorker.set_audio_buffer self b')); simpl; [exact Hwf'|].
  exact Hshort.
Qed.

(** X4. A read that raises is logged and nothing else: the windows
    put on the queue, the queue, the final state and the exit of a run
    are those of the run without that iteration, and a loop that reaches
    the iteration logs the error. *)
Theorem failed_read_is_skipped tk e after before : forall self q last,
  RecorderWorker.r_running tk = true ->
  RecorderWorker.r_read tk = RecorderWorker.Read_error e ->
  let o := RecorderWorker._run_real_audio self q last (before ++ tk :: after) in
  let o' := RecorderWorker._run_real_audio self q last (before ++ after) in
  let reached := RecorderWorker._run_real_audio self q last before in
  RecorderWorker.emitted o = RecorderWorker.emitted o'
  /\ RecorderWorker.final o = RecorderWorker.final o'
  /\ RecorderWorker.exited o = RecorderWorker.exited o'
  /\ RecorderWorker.queue o = RecorderWorker.queue o'
  /\ RecorderWorker.blocked o = RecorderWorker.blocked o'
  /\ (RecorderWorker.exited reached = false -> RecorderWorker.blocked reached = None ->
      In (Log.error "Error in recording loop: {}" [Log.Str e]) (RecorderWorker.logged o)).
Proof.
  induction before as [|t before IH]; intros self q last Hrun Hread; simpl.
  - rewrite Hrun, Hread. simpl. repeat split. intros _ _. now left.
  - destruct (RecorderWorker.r_running t); simpl; [|repeat split; discriminate].
    destruct (RecorderWorker.r_read t) as [chunk|e']; simpl;
      [destruct (Py.elapsed_ge _ _ _ && AudioBuffer.is_ready _); simpl;
       [destruct (AudioBuffer.get_sample _) as [buf' [window|]]; simpl;
        [destruct (Queue.put_among q _ (RecorderWorker.r_consumers t)) as [q' [|]];
         simpl; [|repeat split; discriminate]|]|]|];
      match goal with
      | |- context [RecorderWorker._run_real_audio ?r ?qq ?last' (before ++ tk :: after)] =>
          destruct (IH r qq last' Hrun Hread) as (He & Hf & Hx & Hq & Hb & Hl)
      end;
      rewrite He, Hf, Hx, Hq, Hb; repeat split; intros Hexit Hblock; repeat right;
      apply Hl; assumption.
Qed.
End RealLoopProperties.

Lemma real_windows_hold_latest_samples_witness :
  sealed (RecorderWorker._run_real_audio small_recorder (Queue.new 100) 0 two_readings)
  = [RecorderWorker.Sample_data [5; 6] (Py.seconds 2) 1 None]
  /\ Forall (latest_window 2 [] two_readings)
            (sealed (RecorderWorker._run_real_audio small_recorder (Queue.new 100) 0
                                                    two_readings)).
Proof.
  split; [reflexivity|].
  apply (real_windows_hold_latest_samples small_recorder (Queue.new 100) 0 two_readings).
  - unfold AudioBuffer.wf, Deque.len. simpl. lia.
  - reflexivity.
  - simpl. lia.
Defined.

Lemma short_buffer_never_emits_witness :
  sealed (RecorderWorker._run_real_audio short_recorder (Queue.new 100) 0 two_readings)
  = [].
Proof.
  apply (short_buffer_never_emits two_readings short_recorder (Queue.new 100) 0).
  - unfold AudioBuffer.wf, Deque.len. simpl. lia.
  - simpl. lia.
Defined.

Lemma failed_read_is_skipped_witness :
  RecorderWorker.emitted
    (RecorderWorker._run_real_audio
       small_recorder (Queue.new 100) 0
       ([reading [1; 2; 3] 1] ++ failed_read 1 :: [reading [4; 5; 6] 2]))
  = RecorderWorker.emitted
      (RecorderWorker._run_real_audio
         small_recorder (Queue.new 100) 0 ([reading [1; 2; 3] 1] ++ [reading [4; 5; 6] 2])).
Proof.
  apply (failed_read_is_skipped (failed_read 1) "Input overflowed"
                                [reading [4; 5; 6] 2] [reading [1; 2; 3] 1]
                                small_recorder (Queue.new 100) 0 eq_refl eq_refl).
Defined.

(** ** Float arithmetic of the stub *)

Section FloatProperties.






End FloatProperties.

(** ** The analyzer and its worker loop *)

Section AnalyzerProperties.
Context {sample : Type}.
Variable rms_of : list sample -> Py.float.
Implicit Types (self : AnalyzerWorker.t) (tk : AnalyzerWorker.tick sample).

(** X5. When [find_spec] finds no birdnetlib, [_init_model] logs that
    the mock analyzer is used and returns without assigning
    [self.Recording]; every [analyze] then fails on the missing
    attribute, so each window yields no detection and one error record,
    the stub is never consulted, and the worker enqueues nothing
    whatever it dequeues. *)
Theorem missing_birdnetlib_silences_analysis (config : ListenerConfig.t)
        (ticks : list (AnalyzerWorker.tick sample)) :
  let built := AnalyzerWorker.__init__ config BirdNETAnalyzer.Lib_not_found in
  let worker := AnalyzerWorker.start built.1 in
  built.2 = [Log.warning "birdnetlib not found, using mock analyzer" []]
  /\ (forall classify window,
        AnalyzerWorker.process rms_of worker classify window
        = ([], [Log.error "Error in analysis: {}"
                          [Log.Str "'BirdNETAnalyzer' object has no attribute 'Recording'"]]))
  /\ AnalyzerWorker.emitted (AnalyzerWorker.run rms_of worker ticks) = [].
Proof.
  intros built worker. split; [reflexivity|].
  assert (Hprocess : forall classify window,
             AnalyzerWorker.process rms_of worker classify window
             = ([], [Log.error "Error in analysis: {}"
                               [Log.Str "'BirdNETAnalyzer' object has no attribute 'Recording'"]]))
    by reflexivity.
  split; [exact Hprocess|].
  assert (Hloop : AnalyzerWorker.emitted (AnalyzerWorker.loop rms_of worker ticks) = []).
  { induction ticks as [|tk ticks IH]; simpl; [reflexivity|].
    destruct (AnalyzerWorker.running_seen tk); simpl; [|reflexivity].
    destruct (AnalyzerWorker.get tk) as [| |window]; simpl;
      [exact IH | reflexivity | exact IH]. }
  unfold AnalyzerWorker.run. simpl.
  destruct (AnalyzerWorker.exited _); simpl; exact Hloop.
Qed.



(** X7. The worker leaves its loop at the first [None] it dequeues, or
    at the first iteration on which it finds its flag cleared: what is
    on the queue after that is neither analysed nor logged, and [run]
    ends with the record that the worker has stopped. *)
Theorem analyzer_stops_at_sentinel self before tk after :
  AnalyzerWorker.running_seen tk = false \/ AnalyzerWorker.get tk = Got_None ->
  let o := AnalyzerWorker.run rms_of self (before ++ tk :: after) in
  o = AnalyzerWorker.run rms_of self (before ++ [tk])
  /\ AnalyzerWorker.exited o = true
  /\ last (AnalyzerWorker.logged o) = Some (Log.info "Analyzer worker stopped" []).
Proof.
  intros Hstop o. subst o.
  assert (Hhead : forall rest,
             AnalyzerWorker.loop rms_of self (tk :: rest) = AnalyzerWorker.Outcome [] [] true).
  { intros rest. simpl. destruct Hstop as [-> | Hpill]; [reflexivity|].
    rewrite Hpill. destruct (AnalyzerWorker.running_seen tk); reflexivity. }
  assert (Hexit : forall rest,
             AnalyzerWorker.exited (AnalyzerWorker.loop rms_of self (before ++ tk :: rest))
             = true).
  { intros rest. rewrite loop_app. cbv zeta.
    destruct (AnalyzerWorker.exited (AnalyzerWorker.loop rms_of self before)) eqn:Hb;
      [exact Hb|].
    rewrite Hhead. reflexivity. }
  assert (Hsame : AnalyzerWorker.loop rms_of self (before ++ tk :: after)
                  = AnalyzerWorker.loop rms_of self (before ++ [tk])).
  { rewrite !loop_app. cbv zeta. rewrite !Hhead. reflexivity. }
  unfold AnalyzerWorker.run. rewrite Hsame.
  split; [reflexivity|].
  pose proof (Hexit []) as Hx.
  unfold AnalyzerWorker.emit. cbn [AnalyzerWorker.exited]. rewrite Hx.
  cbn [AnalyzerWorker.exited AnalyzerWorker.logged].
  split; [reflexivity|]. apply last_snoc.
Qed.

(** X8. A [get] that times out leaves no trace: the run with an [Empty]
    iteration is the run without it. *)
Theorem analyzer_skips_empty_timeouts self before tk after :
  AnalyzerWorker.running_seen tk = true ->
  AnalyzerWorker.get tk = Got_Empty ->
  AnalyzerWorker.run rms_of self (before ++ tk :: after)
  = AnalyzerWorker.run rms_of self (before ++ after).
Proof.
  intros Hrun Hget.
  assert (Hhead : AnalyzerWorker.loop rms_of self (tk :: after)
                  = AnalyzerWorker.loop rms_of self after)
    by (simpl; rewrite Hrun, Hget; reflexivity).
  unfold AnalyzerWorker.run. rewrite !loop_app. cbv zeta. rewrite Hhead. reflexivity.
Qed.
End AnalyzerProperties.

Lemma analyzer_stops_at_sentinel_witness :
  AnalyzerWorker.run rms_of_constant real_worker
                     ([robin_tick] ++ sentinel_tick :: [robin_tick; robin_tick])
  = AnalyzerWorker.run rms_of_constant real_worker ([robin_tick] ++ [sentinel_tick])
  /\ length (AnalyzerWorker.emitted
               (AnalyzerWorker.run rms_of_constant real_worker
                                   ([robin_tick] ++ [sentinel_tick]))) = 1%nat.
Proof.
  split; [|reflexivity].
  apply (analyzer_stops_at_sentinel rms_of_constant real_worker
                                    [robin_tick] sentinel_tick [robin_tick; robin_tick]).
  right. reflexivity.
Defined.

Lemma analyzer_skips_empty_timeouts_witness :
  AnalyzerWorker.run rms_of_constant real_worker
                     ([robin_tick] ++ timeout_tick :: [robin_tick])
  = AnalyzerWorker.run rms_of_constant real_worker ([robin_tick] ++ [robin_tick]).
Proof.
  exact (analyzer_skips_empty_timeouts rms_of_constant real_worker
                                       [robin_tick] timeout_tick [robin_tick]
                                       eq_refl eq_refl).
Defined.

(** ** The writer loop and the store *)

Section WriterProperties.
Implicit Types (self : DbWriterWorker.t) (db : DetectionDatabase.t).
Implicit Types (tk : DbWriterWorker.tick) (d : AnalyzerWorker.detection_data).

(** X9. A detection whose duplicate check or insert raises is dropped
    and nothing else happens to the store: after the run it holds what
    it would hold had the detection never been dequeued, and the loop
    goes on or leaves as it would have. *)
Theorem failed_store_call_drops_one_detection self tk d after before : forall db,
  DbWriterWorker.running_seen tk = true ->
  DbWriterWorker.get tk = Got_item d ->
  DbWriterWorker.check_error tk <> None \/ DbWriterWorker.write_error tk <> None ->
  let o := DbWriterWorker.loop self db (before ++ tk :: after) in
  let o' := DbWriterWorker.loop self db (before ++ after) in
  DbWriterWorker.db o = DbWriterWorker.db o'
  /\ DbWriterWorker.exited o = DbWriterWorker.exited o'.
Proof.
  induction before as [|t before IH]; intros db Hrun Hget Herr; simpl.
  - rewrite Hrun, Hget. simpl.
    destruct (process_cases self db tk d) as [Hsame|(Hc & Hw & _)].
    + destruct (DbWriterWorker.process self db tk d) as [db' l]. simpl in *.
      subst db'. split; reflexivity.
    + destruct Herr; congruence.
  - destruct (DbWriterWorker.running_seen t); simpl; [|split; reflexivity].
    destruct (DbWriterWorker.get t) as [| |d']; simpl;
      [apply IH; assumption | split; reflexivity |].
    destruct (DbWriterWorker.process self db t d') as [db' l]. simpl.
    apply IH; assumption.
Qed.

Lemma from_detection_later self tk ticks r :
  from_detection self ticks r -> from_detection self (tk :: ticks) r.
Proof.
  intros (tk' & d & Hin & Hrest). exists tk', d. split; [now right | exact Hrest].
Qed.

(** X10. A run only appends rows, at most one per iteration, and every
    row it appends is the record of a detection it dequeued: species,
    confidence, capture timestamp and details are the detection's, and
    latitude and longitude are the writer's configured location. *)
Theorem stored_rows_come_from_detections self ticks : forall db,
  exists appended,
    DetectionDatabase.rows (DbWriterWorker.db (DbWriterWorker.loop self db ticks))
    = DetectionDatabase.rows db ++ appended
    /\ Forall (from_detection self ticks) appended
    /\ (length appended <= length ticks)%nat.
Proof.
  induction ticks as [|tk ticks IH]; intros db; simpl.
  - exists []. rewrite app_nil_r. repeat split; solve [constructor | simpl; lia].
  - destruct (DbWriterWorker.running_seen tk); simpl.
    2:{ exists []. rewrite app_nil_r. repeat split; solve [constructor | simpl; lia]. }
    destruct (DbWriterWorker.get tk) as [| |d] eqn:Hget; simpl.
    + destruct (IH db) as (appended & Hrows & Hfrom & Hlen).
      exists appended. split; [exact Hrows|]. split; [|lia].
      eapply Forall_impl; [exact Hfrom|]. intros r. apply from_detection_later.
    + exists []. rewrite app_nil_r. repeat split; solve [constructor | simpl; lia].
    + destruct (process_cases self db tk d) as [Hsame|(_ & _ & _ & Hadd)];
        destruct (DbWriterWorker.process self db tk d) as [db' l]; simpl in *;
        subst db'.
      * destruct (IH db) as (appended & Hrows & Hfrom & Hlen).
        exists appended. split; [exact Hrows|]. split; [|lia].
        eapply Forall_impl; [exact Hfrom|]. intros r. apply from_detection_later.
      * match goal with
        | |- context [DbWriterWorker.loop self ?db1 ticks] =>
            destruct (IH db1) as (appended & Hrows & Hfrom & Hlen)
        end.
        exists (stored_row self db d :: appended).
        split; [rewrite Hrows; simpl; rewrite <- app_assoc; reflexivity|].
        split; [|simpl; lia].
        constructor.
        -- exists tk, d. split; [now left|]. repeat split. exact Hget.
        -- eapply Forall_impl; [exact Hfrom|]. intros r. apply from_detection_later.
Qed.

(** X11. The writer leaves its loop at the first [None] it dequeues, or
    at the first iteration on which it finds its flag cleared: the
    detections still on the queue are not stored, and [run] ends with
    the record that the writer has stopped. *)
Theorem writer_stops_at_sentinel self tk after before : forall db,
  DbWriterWorker.running_seen tk = false \/ DbWriterWorker.get tk = Got_None ->
  let o := DbWriterWorker.run self db (before ++ tk :: after) in
  o = DbWriterWorker.run self db (before ++ [tk])
  /\ DbWriterWorker.exited o = true
  /\ last (DbWriterWorker.logged o) = Some (Log.info "Database writer worker stopped" []).
Proof.
  intros db Hstop.
  assert (Hhead : forall db0 rest,
             DbWriterWorker.loop self db0 (tk :: rest) = DbWriterWorker.Outcome db0 [] true).
  { intros db0 rest. simpl. destruct Hstop as [-> | Hpill]; [reflexivity|].
    rewrite Hpill. destruct (DbWriterWorker.running_seen tk); reflexivity. }
  assert (Hloop : forall rest db0,
             DbWriterWorker.loop self db0 (before ++ tk :: rest)
             = DbWriterWorker.loop self db0 (before ++ [tk])
             /\ DbWriterWorker.exited (DbWriterWorker.loop self db0 (before ++ tk :: rest))
                = true).
  { intros rest. induction before as [|t before IH]; intros db0.
    - change ([] ++ tk :: rest) with (tk :: rest). change ([] ++ [tk]) with [tk].
      rewrite !Hhead. split; reflexivity.
    - simpl. destruct (DbWriterWorker.running_seen t); simpl; [|split; reflexivity].
      destruct (DbWriterWorker.get t) as [| |d']; simpl;
        [apply IH | split; reflexivity |].
      destruct (DbWriterWorker.process self db0 t d') as [db' l].
      destruct (IH db') as [Hsame Hx]. rewrite Hsame in *.
      split; [reflexivity | exact Hx]. }
  intros o. subst o. unfold DbWriterWorker.run.
  destruct (Hloop after db) as [-> _]. destruct (Hloop [] db) as [_ Hx].
  split; [reflexivity|].
  unfold DbWriterWorker.log. cbn [DbWriterWorker.exited]. rewrite Hx.
  cbn [DbWriterWorker.exited DbWriterWorker.logged].
  split; [reflexivity|]. apply last_snoc.
Qed.

(** X12. Insert, then look up: after [add_detection], [check_duplicate]
    answers yes for the species of the new row when its timestamp is no
    older than the window, and answers as before in every other case, so
    a row never makes a detection of another species a duplicate. *)
Theorem add_detection_then_check_duplicate db (detection : Detection.t)
        (lat lon : option Q) (now : Z) (species : string) (window_seconds : Z) :
  DetectionDatabase.check_duplicate
    (DetectionDatabase.add_detection db detection lat lon).1 now species window_seconds
  = DetectionDatabase.check_duplicate db now species window_seconds
    || (String.eqb (Detection.species detection) species
        && (now - Py.seconds window_seconds <=? Detection.timestamp detection)).
Proof.
  unfold DetectionDatabase.check_duplicate, DetectionDatabase.add_detection. simpl.
  rewrite List.filter_app, length_app. simpl.
  unfold DetectionDatabase.recent at 2. simpl.
  set (n := length (List.filter _ (DetectionDatabase.rows db))).
  destruct (_ && _); simpl.
  - rewrite orb_true_r. apply Z.ltb_lt. lia.
  - rewrite orb_false_r. f_equal. lia.
Qed.
End WriterProperties.

Lemma failed_store_call_drops_one_detection_witness :
  DbWriterWorker.db
    (DbWriterWorker.loop default_writer DetectionDatabase.empty
                         ([first_arrival] ++ failing_insert :: [second_arrival]))
  = DbWriterWorker.db
      (DbWriterWorker.loop default_writer DetectionDatabase.empty
                           ([first_arrival] ++ [second_arrival])).
Proof.
  apply (failed_store_call_drops_one_detection
           default_writer failing_insert (robin (9 # 10) 50)
           [second_arrival] [first_arrival] DetectionDatabase.empty eq_refl eq_refl).
  right. discriminate.
Defined.

Lemma writer_stops_at_sentinel_witness :
  DbWriterWorker.run default_writer DetectionDatabase.empty
                     ([first_arrival] ++ writer_sentinel :: [second_arrival])
  = DbWriterWorker.run default_writer DetectionDatabase.empty
                       ([first_arrival] ++ [writer_sentinel]).
Proof.
  apply (writer_stops_at_sentinel default_writer writer_sentinel [second_arrival]
                                  [first_arrival] DetectionDatabase.empty).
  right. reflexivity.
Defined.

(** ** The queries of the store *)

Section SqlProperties.
Context {A : Type}.
Implicit Types (l : list A) (f : A -> Z).

#[local] Instance descending_total f : Total (Sql.descending f).
Proof. intros x y. unfold Sql.descending. lia. Qed.

#[local] Instance descending_trans f : Transitive (Sql.descending f).
Proof. intros x y z. unfold Sql.descending. lia. Qed.

#[local] Instance ascending_total f : Total (Sql.ascending f).
Proof. intros x y. unfold Sql.ascending. lia. Qed.

#[local] Instance ascending_trans f : Transitive (Sql.ascending f).
Proof. intros x y z. unfold Sql.ascending. lia. Qed.

Lemma order_by_desc_perm f l : Sql.order_by_desc f l ≡ₚ l.
Proof. apply merge_sort_Permutation. Qed.

Lemma order_by_desc_sorted f l : StronglySorted (Sql.descending f) (Sql.order_by_desc f l).
Proof. apply StronglySorted_merge_sort; apply _. Qed.

Lemma order_by_perm f l : Sql.order_by f l ≡ₚ l.
Proof. apply merge_sort_Permutation. Qed.

Lemma order_by_sorted f l : StronglySorted (Sql.ascending f) (Sql.order_by f l).
Proof. apply StronglySorted_merge_sort; apply _. Qed.

Lemma total_app (xs ys : list Z) : total (xs ++ ys) = total xs + total ys.
Proof. induction xs as [|x xs IH]; simpl; [reflexivity | rewrite IH; lia]. Qed.

Lemma total_perm (xs ys : list Z) : xs ≡ₚ ys -> total xs = total ys.
Proof.
  induction 1 as [|x xs ys _ IH|x y xs|xs ys zs _ IH1 _ IH2]; simpl; lia.
Qed.


Section Groups.
Context {K : Type} `{EqDecision K}.
Implicit Types (key : A -> K) (ks : list K).

Lemma group_by_keys key l :
  map fst (Sql.group_by key l) = remove_dups (map key l).
Proof.
  unfold Sql.group_by. rewrite map_map. simpl. apply map_id.
Qed.

Lemma In_remove_dups ks (k : K) : In k (remove_dups ks) <-> In k ks.
Proof. rewrite <- !list_elem_of_In. apply elem_of_remove_dups. Qed.

Lemma group_by_elem key l k g :
  In (k, g) (Sql.group_by key l)
  <-> In k (map key l) /\ g = List.filter (fun x => bool_decide (key x = k)) l.
Proof.
  unfold Sql.group_by. rewrite in_map_iff. split.
  - intros (k' & [= -> <-] & Hin). split; [|reflexivity].
    apply In_remove_dups. exact Hin.
  - intros [Hin ->]. exists k. split; [reflexivity|].
    apply In_remove_dups. exact Hin.
Qed.

(** Counting the rows of the selected groups counts each row whose key
    is selected once. *)
Lemma selected_groups_count key (P : K -> bool) l ks :
  NoDup ks ->
  total (map (fun k => if P k
                       then Sql.count (List.filter (fun x => bool_decide (key x = k)) l)
                       else 0)
             ks)
  = Sql.count (List.filter (fun x => bool_decide (key x ∈ ks) && P (key x)) l).
Proof.
  unfold Sql.count. intros Hnodup.
  induction l as [|x l IH]; simpl.
  - induction ks as [|k ks IHks]; simpl; [reflexivity|].
    apply NoDup_cons_1_2 in Hnodup. rewrite (IHks Hnodup).
    destruct (P k); reflexivity.
  - transitivity
      ((if bool_decide (key x ∈ ks) && P (key x) then 1 else 0)
       + total (map (fun k => if P k
                              then Z.of_nat (length
                                     (List.filter (fun y => bool_decide (key y = k)) l))
                              else 0)
                    ks)).
    + clear IH. induction Hnodup as [|k ks Hnotin Hnodup IHks]; simpl; [reflexivity|].
      rewrite IHks. clear IHks.
      destruct (decide (key x = k)) as [->|Hne].
      * rewrite bool_decide_eq_true_2 by reflexivity.
        rewrite (bool_decide_eq_true_2 (k ∈ k :: ks)) by (now left).
        rewrite (bool_decide_eq_false_2 (k ∈ ks)) by exact Hnotin.
        simpl. destruct (P k); simpl; lia.
      * rewrite (bool_decide_eq_false_2 (key x = k)) by exact Hne.
        destruct (decide (key x ∈ ks)) as [Hin|Hout].
        -- rewrite (bool_decide_eq_true_2 (key x ∈ k :: ks)) by (now right).
           rewrite (bool_decide_eq_true_2 (key x ∈ ks)) by exact Hin.
           simpl. destruct (P (key x)), (P k); lia.
        -- rewrite (bool_decide_eq_false_2 (key x ∈ k :: ks))
             by (intros Hin; apply elem_of_cons in Hin; tauto).
           rewrite (bool_decide_eq_false_2 (key x ∈ ks)) by exact Hout.
           simpl. destruct (P k); lia.
    + rewrite IH. destruct (bool_decide (key x ∈ ks) && P (key x)); simpl; lia.
Qed.

Lemma key_among_keys key l x :
  In x l -> bool_decide (key x ∈ remove_dups (map key l)) = true.
Proof.
  intros Hin. apply bool_decide_eq_true_2, list_elem_of_In, In_remove_dups.
  apply in_map. exact Hin.
Qed.

(** The groups of a list partition it. *)
Lemma group_by_total key l :
  total (map (fun g => Sql.count g.2) (Sql.group_by key l)) = Sql.count l.
Proof.
  unfold Sql.group_by. rewrite map_map. simpl.
  rewrite (selected_groups_count key (fun _ => true) l) by apply NoDup_remove_dups.
  f_equal. apply forallb_filter_id, forallb_forall.
  intros x Hin. rewrite andb_true_r. apply key_among_keys. exact Hin.
Qed.
End Groups.
End SqlProperties.

Section QueryProperties.
Implicit Types (db : DetectionDatabase.t) (r : DetectionDatabase.row).
Implicit Types (rows : list DetectionDatabase.row).

Lemma In_perm {A} (l k : list A) x : l ≡ₚ k -> In x l <-> In x k.
Proof.
  intros Hperm. split; apply Permutation_in; [exact Hperm | symmetry; exact Hperm].
Qed.

Lemma count_pos_iff {A} (f : A -> bool) (l : list A) :
  0 < Sql.count (List.filter f l) <-> exists x, In x l /\ f x = true.
Proof.
  unfold Sql.count. split.
  - destruct (List.filter f l) as [|x found] eqn:Hfound; [simpl; lia|].
    intros _. exists x. apply filter_In. rewrite Hfound. now left.
  - intros (x & Hin). apply filter_In in Hin.
    destruct (List.filter f l); [destruct Hin | simpl; lia].
Qed.

Lemma species_since_filter species since rows :
  List.filter (fun r => bool_decide (DetectionDatabase.species r = species))
              (List.filter (DetectionQueries.not_before since) rows)
  = List.filter (DetectionDatabase.recent species since) rows.
Proof.
  induction rows as [|r rows IH]; simpl; [reflexivity|].
  assert (Hrecent : DetectionDatabase.recent species since r
                    = DetectionQueries.not_before since r
                      && bool_decide (DetectionDatabase.species r = species)).
  { unfold DetectionDatabase.recent, DetectionQueries.not_before.
    rewrite andb_comm. f_equal.
    destruct (String.eqb_spec (DetectionDatabase.species r) species) as [Heq|Hne];
      [rewrite bool_decide_eq_true_2 | rewrite bool_decide_eq_false_2]; auto. }
  rewrite Hrecent.
  destruct (DetectionQueries.not_before since r); simpl; [|exact IH].
  destruct (bool_decide (DetectionDatabase.species r = species)); rewrite IH; reflexivity.
Qed.

(** The species table of a list of rows, before it is ordered. *)
Lemma species_counts_perm rows :
  DetectionQueries.species_counts rows
  ≡ₚ map (fun g => (g.1, Sql.count g.2)) (Sql.group_by DetectionDatabase.species rows).
Proof. apply order_by_desc_perm. Qed.

Lemma species_counts_spec rows :
  NoDup (map fst (DetectionQueries.species_counts rows))
  /\ (forall s c,
        In (s, c) (DetectionQueries.species_counts rows)
        <-> 0 < c
            /\ c = Sql.count
                     (List.filter (fun r => bool_decide (DetectionDatabase.species r = s))
                                  rows))
  /\ total (map snd (DetectionQueries.species_counts rows)) = Sql.count rows
  /\ Z.of_nat (length (DetectionQueries.species_counts rows))
     = Sql.count_distinct DetectionDatabase.species rows.
Proof.
  pose proof (species_counts_perm rows) as Hperm.
  split; [|split; [|split]].
  - rewrite (Permutation_map fst Hperm), map_map. simpl.
    change (map (fun g : string * list DetectionDatabase.row => g.1)
                (Sql.group_by DetectionDatabase.species rows))
      with (map fst (Sql.group_by DetectionDatabase.species rows)).
    rewrite group_by_keys. apply NoDup_remove_dups.
  - intros s c. rewrite (In_perm _ _ _ Hperm), in_map_iff. split.
    + intros ([k g] & [= -> <-] & Hin). apply group_by_elem in Hin.
      destruct Hin as [Hin ->]. split; [|reflexivity].
      apply count_pos_iff. apply in_map_iff in Hin.
      destruct Hin as (r & <- & Hin). exists r. split; [exact Hin|].
      apply bool_decide_eq_true_2. reflexivity.
    + intros [Hpos ->]. apply count_pos_iff in Hpos.
      destruct Hpos as (r & Hin & Hs). apply bool_decide_eq_true_1 in Hs.
      eexists (s, _). split; [reflexivity|]. apply group_by_elem.
      split; [|reflexivity]. apply in_map_iff. exists r. split; assumption.
  - rewrite (total_perm _ _ (Permutation_map snd Hperm)), map_map. simpl.
    apply (group_by_total DetectionDatabase.species).
  - rewrite (Permutation_length Hperm), length_map.
    unfold Sql.group_by, Sql.count_distinct. rewrite length_map. reflexivity.
Qed.

(** X14. [get_all_species] lists every species seen since the cutoff
    once, with the number of its rows since then, which is positive; the
    counts add up to the number of rows since the cutoff, and they do not
    increase down the list. *)
Theorem get_all_species_partitions_rows db (now days : Z) :
  let since := now - DetectionQueries.days days in
  let listing := DetectionQueries.get_all_species db now days in
  NoDup (map fst listing)
  /\ (forall s c,
        In (s, c) listing
        <-> 0 < c
            /\ c = Sql.count (List.filter (DetectionDatabase.recent s since)
                                          (DetectionDatabase.rows db)))
  /\ total (map snd listing)
     = Sql.count (List.filter (DetectionQueries.not_before since)
                              (DetectionDatabase.rows db))
  /\ StronglySorted (fun a b => b.2 <= a.2) listing.
Proof.
  intros since listing. subst listing. unfold DetectionQueries.get_all_species.
  fold since.
  destruct (species_counts_spec
              (List.filter (DetectionQueries.not_before since) (DetectionDatabase.rows db)))
    as (Hnodup & Hin & Htotal & _).
  split; [exact Hnodup|]. split; [|split; [exact Htotal|]].
  - intros s c. rewrite Hin, species_since_filter. reflexivity.
  - apply (order_by_desc_sorted snd).
Qed.




(** X16. With a non-empty [species] argument the endpoint answers with
    all the rows of that species of the last 7 days, newest first,
    whatever [limit] and [offset] are, so that the count may exceed the
    limit; an empty [species] is treated as none given. *)
Theorem species_filter_ignores_paging db (now limit offset : Z) (species : string) :
  species <> ""%string ->
  let answer := ListenerAPI.get_detections db now limit offset (Some species) in
  let since := now - DetectionQueries.days 7 in
  (forall limit' offset',
      ListenerAPI.get_detections db now limit' offset' (Some species) = answer)
  /\ answer.2 = Sql.count (List.filter (DetectionDatabase.recent species since)
                                       (DetectionDatabase.rows db))
  /\ (forall r, In r answer.1
                <-> In r (DetectionDatabase.rows db)
                    /\ DetectionDatabase.species r = species
                    /\ since <= DetectionDatabase.timestamp r)
  /\ StronglySorted
       (fun a b => DetectionDatabase.timestamp b <= DetectionDatabase.timestamp a)
       answer.1
  /\ ListenerAPI.get_detections db now limit offset (Some ""%string)
     = ListenerAPI.get_detections db now limit offset None.
Proof.
  intros Hgiven answer since. subst answer.
  destruct species as [|c s]; [congruence|]. simpl.
  unfold DetectionQueries.get_detections_by_species. fold since.
  pose proof (order_by_desc_perm DetectionDatabase.timestamp
                (List.filter (DetectionDatabase.recent (String c s) since)
                             (DetectionDatabase.rows db))) as Hperm.
  split; [reflexivity|]. split.
  { unfold Sql.count. rewrite (Permutation_length Hperm). reflexivity. }
  split.
  { intros r. rewrite (In_perm _ _ _ Hperm), filter_In, recent_iff. tauto. }
  split; [apply (order_by_desc_sorted DetectionDatabase.timestamp) | reflexivity].
Qed.

Lemma filter_sublist {A} (f : A -> bool) (l : list A) : List.filter f l `sublist_of` l.
Proof.
  induction l as [|x l IH]; simpl; [constructor|].
  destruct (f x); [apply sublist_skip | apply sublist_cons]; exact IH.
Qed.

Lemma filter_keeps_all {A} (f : A -> bool) (l : list A) :
  length (List.filter f l) = length l -> List.filter f l = l.
Proof.
  induction l as [|x l IH]; simpl; [reflexivity|].
  pose proof (sublist_length _ _ (filter_sublist f l)) as Hle.
  destruct (f x); simpl; intros Hlen; [f_equal; apply IH; lia | lia].
Qed.

Lemma not_before_iff since r :
  DetectionQueries.not_before since r = true <-> since <= DetectionDatabase.timestamp r.
Proof. unfold DetectionQueries.not_before. apply Z.leb_le. Qed.

(** X17. [cleanup_old_detections] removes exactly the rows whose
    timestamp is before the cutoff and keeps the others in their order;
    it logs the number of rows it removed when there is one, and nothing
    otherwise; it leaves the rowid counter alone; and a second cleanup at
    the same clock removes nothing and logs nothing. *)
Theorem cleanup_removes_old_rows_only db (now days : Z) :
  let cutoff := now - DetectionQueries.days days in
  let cleaned := DetectionQueries.cleanup_old_detections db now days in
  let removed := Sql.count (DetectionDatabase.rows db)
                 - Sql.count (DetectionDatabase.rows cleaned.1) in
  (forall r, In r (DetectionDatabase.rows cleaned.1)
             <-> In r (DetectionDatabase.rows db)
                 /\ cutoff <= DetectionDatabase.timestamp r)
  /\ DetectionDatabase.rows cleaned.1 `sublist_of` DetectionDatabase.rows db
  /\ 0 <= removed
  /\ cleaned.2 = (if 0 <? removed
                  then [Log.info "Cleaned up {} old detections" [Log.Int removed]]
                  else [])
  /\ (removed = 0 -> cleaned.1 = db)
  /\ DetectionDatabase.lastrowid cleaned.1 = DetectionDatabase.lastrowid db
  /\ DetectionQueries.cleanup_old_detections cleaned.1 now days = (cleaned.1, []).
Proof.
  intros cutoff cleaned removed. subst removed cleaned.
  unfold DetectionQueries.cleanup_old_detections. fold cutoff. simpl.
  set (kept := List.filter (DetectionQueries.not_before cutoff) (DetectionDatabase.rows db)).
  assert (Hsub : kept `sublist_of` DetectionDatabase.rows db) by apply filter_sublist.
  assert (Hlen : (length kept <= length (DetectionDatabase.rows db))%nat)
    by (apply sublist_length; exact Hsub).
  split; [intros r; unfold kept; rewrite filter_In, not_before_iff; reflexivity|].
  split; [exact Hsub|]. unfold Sql.count. split; [lia|]. split; [reflexivity|].
  split.
  { intros Hnone. destruct db as [rows last]. simpl in *. f_equal.
    apply filter_keeps_all. fold kept. lia. }
  split; [reflexivity|].
  assert (Hidem : List.filter (DetectionQueries.not_before cutoff) kept = kept).
  { apply forallb_filter_id, forallb_forall. intros r Hin.
    apply filter_In in Hin. apply Hin. }
  rewrite Hidem, Z.sub_diag. reflexivity.
Qed.

(** X18. A cleanup whose retention period is at least the duplicate
    window, run at a clock no later than the check, does not change what
    [check_duplicate] answers: it never makes the writer store a
    detection it would have discarded. *)
Theorem cleanup_preserves_duplicate_check db (clock days now window_seconds : Z)
        (species : string) :
  Py.seconds window_seconds <= DetectionQueries.days days ->
  clock <= now ->
  DetectionDatabase.check_duplicate
    (DetectionQueries.cleanup_old_detections db clock days).1 now species window_seconds
  = DetectionDatabase.check_duplicate db now species window_seconds.
Proof.
  intros Hperiod Hclock.
  unfold DetectionDatabase.check_duplicate, DetectionQueries.cleanup_old_detections.
  simpl. do 3 f_equal.
  induction (DetectionDatabase.rows db) as [|r rows IH]; simpl; [reflexivity|].
  destruct (DetectionDatabase.recent species _ r) eqn:Hrecent.
  - assert (Hkept : DetectionQueries.not_before (clock - DetectionQueries.days days) r
                    = true).
    { apply recent_iff in Hrecent. apply not_before_iff. lia. }
    rewrite Hkept. simpl. rewrite Hrecent, IH. reflexivity.
  - destruct (DetectionQueries.not_before _ r); simpl; [rewrite Hrecent|]; exact IH.
Qed.

Section Aggregates.
Variable sql_avg : list Q -> Q.
Variable round3 : Q -> Q.

(** X19. [get_stats] agrees with [get_all_species] for the same clock
    and period: its total is the sum of the listed counts, its number
    of species is the length of the listing, and its top species are
    at most ten entries of the listing with no smaller counts than the
    entries left out.  Over no row the average is [round(0, 3)] and
    there is no top species. *)
Theorem stats_agree_with_species_listing db (now days : Z) :
  let st := DetectionQueries.get_stats sql_avg round3 db now days in
  let listing := DetectionQueries.get_all_species db now days in
  DetectionQueries.total_detections st = total (map snd listing)
  /\ DetectionQueries.unique_species st = Z.of_nat (length listing)
  /\ DetectionQueries.period_days st = days
  /\ length (DetectionQueries.top_species st) = (10 `min` length listing)%nat
  /\ (exists rest,
        listing ≡ₚ DetectionQueries.top_species st ++ rest
        /\ forall a b, In a (DetectionQueries.top_species st) -> In b rest ->
                       b.2 <= a.2)
  /\ (DetectionQueries.total_detections st = 0 ->
      DetectionQueries.avg_confidence st = round3 0
      /\ DetectionQueries.top_species st = []).
Proof.
  intros st listing. subst st listing.
  unfold DetectionQueries.get_stats, DetectionQueries.get_all_species. simpl.
  set (rows := List.filter _ (DetectionDatabase.rows db)).
  destruct (species_counts_spec rows) as (_ & _ & Htotal & Hdistinct).
  split; [symmetry; exact Htotal|]. split; [symmetry; exact Hdistinct|].
  split; [reflexivity|].
  change (Sql.limit_offset 10 0 (DetectionQueries.species_counts rows))
    with (take 10 (DetectionQueries.species_counts rows)).
  split; [exact (length_take (DetectionQueries.species_counts rows) 10%nat)|]. split.
  - exists (drop 10 (DetectionQueries.species_counts rows)).
    rewrite take_drop. split; [reflexivity|].
    intros a b Ha Hb.
    pose proof (order_by_desc_sorted
                  snd (map (fun g => (g.1, Sql.count g.2))
                           (Sql.group_by DetectionDatabase.species rows))) as Hsorted.
    change (Sql.order_by_desc snd _) with (DetectionQueries.species_counts rows)
      in Hsorted.
    rewrite <- (take_drop 10 (DetectionQueries.species_counts rows)) in Hsorted.
    apply (StronglySorted_app_1_elem_of _ _ _ a b Hsorted);
      apply list_elem_of_In; assumption.
  - unfold Sql.count. intros Hnone.
    destruct rows as [|r rows']; [split; reflexivity | simpl in Hnone; lia].
Qed.

Lemma strictly_sorted {A} (f : A -> Z) (l : list A) :
  StronglySorted (Sql.ascending f) l -> NoDup (map f l) ->
  StronglySorted (fun a b => f a < f b) l.
Proof.
  induction l as [|x l IH]; simpl; [constructor|].
  rewrite StronglySorted_cons, NoDup_cons. intros [Hle Hsorted] [Hnotin Hnodup].
  apply StronglySorted_cons. split; [|apply IH; assumption].
  apply Forall_forall. intros y Hy.
  assert (f x <= f y) by (eapply (proj1 (Forall_forall _ _) Hle); exact Hy).
  assert (f x <> f y).
  { intros Heq. apply Hnotin. rewrite Heq. apply list_elem_of_In, in_map.
    apply list_elem_of_In. exact Hy. }
  lia.
Qed.

Lemma remove_dups_length {A} `{EqDecision A} (l : list A) :
  (length (remove_dups l) <= length l)%nat.
Proof.
  induction l as [|x l IH]; simpl; [lia|].
  destruct (decide_rel elem_of x l); simpl; lia.
Qed.

Lemma date_of_hour_of (timestamp : Z) :
  DetectionQueries.date_of (DetectionQueries.hour_of timestamp)
  = DetectionQueries.date_of timestamp.
Proof.
  unfold DetectionQueries.date_of, DetectionQueries.hour_of. f_equal.
  change 86400000000 with (3600000000 * 24).
  rewrite <- !Z.div_div by lia. rewrite Z.div_mul by lia. reflexivity.
Qed.

(** X20. [get_hourly_activity] lists the hours in which a row since
    the cutoff falls, each once and in increasing order; every entry
    is the start of an hour and counts the rows of that hour, of which
    there is at least one; and the counts add up to the number of rows
    since the cutoff. *)
Theorem hourly_activity_partitions_rows db (now days : Z) :
  let since := now - DetectionQueries.days days in
  let rows := List.filter (DetectionQueries.not_before since)
                          (DetectionDatabase.rows db) in
  let activity := DetectionQueries.get_hourly_activity sql_avg db now days in
  StronglySorted (fun a b => DetectionQueries.hour a < DetectionQueries.hour b) activity
  /\ total (map DetectionQueries.hour_count activity) = Sql.count rows
  /\ (forall h, In h activity ->
        DetectionQueries.hour h mod 3600000000 = 0
        /\ 0 < DetectionQueries.hour_count h
        /\ DetectionQueries.hour_count h
           = Sql.count
               (List.filter
                  (fun r => bool_decide
                              (DetectionQueries.hour_of (DetectionDatabase.timestamp r)
                               = DetectionQueries.hour h))
                  rows)).
Proof.
  intros since rows activity. subst activity.
  unfold DetectionQueries.get_hourly_activity. fold since. fold rows.
  set (key := fun r => DetectionQueries.hour_of (DetectionDatabase.timestamp r)).
  set (entries := map (fun g : Z * list DetectionDatabase.row =>
                         DetectionQueries.Hourly
                           g.1 (Sql.count g.2)
                           (sql_avg (map DetectionDatabase.confidence g.2)))
                      (Sql.group_by key rows)).
  pose proof (order_by_perm DetectionQueries.hour entries) as Hperm.
  assert (Hhours : map DetectionQueries.hour entries = remove_dups (map key rows)).
  { unfold entries. rewrite map_map. simpl. apply (group_by_keys key). }
  split; [|split].
  - apply strictly_sorted; [apply order_by_sorted|].
    rewrite (Permutation_map DetectionQueries.hour Hperm), Hhours.
    apply NoDup_remove_dups.
  - rewrite (total_perm _ _ (Permutation_map DetectionQueries.hour_count Hperm)).
    unfold entries. rewrite map_map. simpl. apply (group_by_total key).
  - intros h Hin. apply (In_perm _ _ _ Hperm) in Hin.
    unfold entries in Hin. apply in_map_iff in Hin.
    destruct Hin as ([k g] & <- & Hin). apply group_by_elem in Hin.
    destruct Hin as [Hk ->]. simpl.
    apply in_map_iff in Hk. destruct Hk as (r & <- & Hr).
    split; [unfold key, DetectionQueries.hour_of; apply Z.mod_mul; lia|].
    split; [|reflexivity].
    apply count_pos_iff. exists r. split; [exact Hr|].
    apply bool_decide_eq_true_2. reflexivity.
Qed.

(** X21. The daily and the hourly activity of the same clock and
    period agree: the count of a day is the sum of the counts of the
    hours of that day.  The days are listed once each in increasing
    order, and the species count of a day is at least 1 and at most
    its row count. *)
Theorem daily_activity_sums_hourly db (now days : Z) :
  let daily := DetectionQueries.get_daily_activity db now days in
  let hourly := DetectionQueries.get_hourly_activity sql_avg db now days in
  StronglySorted (fun a b => DetectionQueries.date a < DetectionQueries.date b) daily
  /\ forall d, In d daily ->
       DetectionQueries.date_count d
       = total (map (fun h => if DetectionQueries.date_of (DetectionQueries.hour h)
                                 =? DetectionQueries.date d
                              then DetectionQueries.hour_count h else 0)
                    hourly)
       /\ 1 <= DetectionQueries.date_unique_species d <= DetectionQueries.date_count d.
Proof.
  intros daily hourly. subst daily hourly.
  unfold DetectionQueries.get_daily_activity, DetectionQueries.get_hourly_activity.
  set (rows := List.filter _ (DetectionDatabase.rows db)).
  set (hkey := fun r => DetectionQueries.hour_of (DetectionDatabase.timestamp r)).
  set (dkey := fun r => DetectionQueries.date_of (DetectionDatabase.timestamp r)).
  set (hentries := map (fun g : Z * list DetectionDatabase.row =>
                          DetectionQueries.Hourly
                            g.1 (Sql.count g.2)
                            (sql_avg (map DetectionDatabase.confidence g.2)))
                       (Sql.group_by hkey rows)).
  set (dentries := map (fun g : Z * list DetectionDatabase.row =>
                          DetectionQueries.Daily
                            g.1 (Sql.count g.2)
                            (Sql.count_distinct DetectionDatabase.species g.2))
                       (Sql.group_by dkey rows)).
  pose proof (order_by_perm DetectionQueries.hour hentries) as Hhperm.
  pose proof (order_by_perm DetectionQueries.date dentries) as Hdperm.
  split.
  - apply strictly_sorted; [apply order_by_sorted|].
    rewrite (Permutation_map DetectionQueries.date Hdperm).
    unfold dentries. rewrite map_map. simpl.
    change (map (fun g : Z * list DetectionDatabase.row => g.1) (Sql.group_by dkey rows))
      with (map fst (Sql.group_by dkey rows)).
    rewrite (group_by_keys dkey). apply NoDup_remove_dups.
  - intros d Hin. apply (In_perm _ _ _ Hdperm) in Hin.
    unfold dentries in Hin. apply in_map_iff in Hin.
    destruct Hin as ([k g] & <- & Hin). apply group_by_elem in Hin.
    destruct Hin as [Hk ->]. simpl. split.
    + rewrite (total_perm _ _ (Permutation_map _ Hhperm)).
      unfold hentries, Sql.group_by. rewrite !map_map. simpl.
      rewrite (selected_groups_count
                 hkey (fun k' => DetectionQueries.date_of k' =? k) rows)
        by apply NoDup_remove_dups.
      f_equal. apply filter_ext_in. intros r Hr.
      rewrite (key_among_keys hkey rows r Hr). simpl.
      unfold hkey. rewrite date_of_hour_of.
      destruct (Z.eqb_spec (DetectionQueries.date_of (DetectionDatabase.timestamp r)) k)
        as [Heq|Hne];
        [rewrite bool_decide_eq_true_2 | rewrite bool_decide_eq_false_2]; auto.
    + set (group := List.filter (fun x => bool_decide (dkey x = k)) rows).
      unfold Sql.count_distinct, Sql.count.
      assert (Hle : (length (remove_dups (map DetectionDatabase.species group))
                     <= length group)%nat).
      { rewrite <- (length_map DetectionDatabase.species group).
        apply remove_dups_length. }
      apply in_map_iff in Hk. destruct Hk as (r & Hr & Hin).
      assert (Hgroup : In r group)
        by (apply filter_In; split; [exact Hin | apply bool_decide_eq_true_2; exact Hr]).
      assert (Hspecies : In (DetectionDatabase.species r)
                            (remove_dups (map DetectionDatabase.species group)))
        by (apply In_remove_dups, in_map; exact Hgroup).
      destruct (remove_dups (map DetectionDatabase.species group));
        [destruct Hspecies | simpl in *; lia].
Qed.
End Aggregates.
End QueryProperties.

Lemma species_filter_ignores_paging_witness :
  ListenerAPI.get_detections two_day_store (Py.seconds 90200) 100 0
                             (Some "Turdus migratorius"%string)
  = ListenerAPI.get_detections two_day_store (Py.seconds 90200) 1 0
                               (Some "Turdus migratorius"%string).
Proof.
  assert (Hgiven : "Turdus migratorius"%string <> ""%string) by discriminate.
  destruct (species_filter_ignores_paging
              two_day_store (Py.seconds 90200) 1 0 "Turdus migratorius" Hgiven)
    as [Hany _].
  apply Hany.
Defined.

Lemma cleanup_preserves_duplicate_check_witness :
  DetectionDatabase.check_duplicate
    (DetectionQueries.cleanup_old_detections two_day_store (Py.seconds 90200) 1).1
    (Py.seconds 90210) "Turdus migratorius" 30
  = DetectionDatabase.check_duplicate
      two_day_store (Py.seconds 90210) "Turdus migratorius" 30.
Proof.
  apply (cleanup_preserves_duplicate_check
           two_day_store (Py.seconds 90200) 1 (Py.seconds 90210) 30 "Turdus migratorius");
    unfold Py.seconds, DetectionQueries.days; lia.
Defined.
